(** * BLAKE-256 / BLAKE-224 (package blake256): model of blake256.go and
      verification of its streaming, padding and compression contracts. *)

From Stdlib Require Import ZArith List Lia Bool Arith.
From Equations Require Import Equations.
Import ListNotations.
Local Open Scope Z_scope.

(** ** Machine integers

    Go's fixed-width unsigned integers are integers of [Z] reduced modulo
    the width after every operation that can overflow. *)

Definition uint32 (a : Z) : Z := a mod 2 ^ 32.
Definition uint64 (a : Z) : Z := a mod 2 ^ 64.
Definition byte (a : Z) : Z := a mod 2 ^ 8.

(** [a + b], [a ^ b], [a | b], [a << n] and [a >> n] on [uint32]. *)
Definition add32 (a b : Z) : Z := uint32 (a + b).
Definition xor32 (a b : Z) : Z := Z.lxor a b.
Definition or32 (a b : Z) : Z := Z.lor a b.
Definition shl32 (a n : Z) : Z := uint32 (Z.shiftl a n).
Definition shr32 (a n : Z) : Z := Z.shiftr a n.

(** [a - b], [a + b], [a << n] and [a >> n] on [uint64]. *)
Definition sub64 (a b : Z) : Z := uint64 (a - b).
Definition add64 (a b : Z) : Z := uint64 (a + b).
Definition shl64 (a n : Z) : Z := uint64 (Z.shiftl a n).
Definition shr64 (a n : Z) : Z := Z.shiftr a n.

(** ** Slices and arrays

    A slice or an array of bytes or words is a list; [len] is Go's [len],
    [idx a i] is [a[i]], [a[lo:hi]] is [slice a lo hi].  Indexing and slicing
    outside the bounds panic in Go; the states that reach them are excluded
    by [wf] below. *)

Definition len {A} (a : list A) : Z := Z.of_nat (length a).
Definition idx (a : list Z) (i : nat) : Z := nth i a 0.
Definition slice_from {A} (a : list A) (lo : Z) : list A := skipn (Z.to_nat lo) a.
Definition slice_to {A} (a : list A) (hi : Z) : list A := firstn (Z.to_nat hi) a.
Definition slice {A} (a : list A) (lo hi : Z) : list A :=
  firstn (Z.to_nat (hi - lo)) (skipn (Z.to_nat lo) a).

(** [copy(dst[off:], src)]: the first [min(len(dst)-off, len(src))] elements
    of [src] overwrite [dst] from [off]; the count is returned with the
    updated array. *)
Definition copy_at (dst : list Z) (off : Z) (src : list Z) : list Z * Z :=
  let n := Z.min (len dst - off) (len src) in
  (slice_to dst off ++ slice_to src n ++ slice_from dst (off + n), n).

(** [a[i] = v] on an array. *)
Definition store (a : list Z) (i : Z) (v : Z) : list Z :=
  slice_to a i ++ v :: slice_from a (i + 1).

(** ** Constants *)

Definition BlockSize : Z := 64.
Definition Size : Z := 32.
Definition Size224 : Z := 28.

Definition iv256 : list Z :=
  [0x6A09E667; 0xBB67AE85; 0x3C6EF372; 0xA54FF53A;
   0x510E527F; 0x9B05688C; 0x1F83D9AB; 0x5BE0CD19].

Definition iv224 : list Z :=
  [0xC1059ED8; 0x367CD507; 0x3070DD17; 0xF70E5939;
   0xFFC00B31; 0x68581511; 0x64F98FA7; 0xBEFA4FA4].

(** [pad = [64]byte{0x80}]: one [0x80] and 63 zero bytes. *)
Definition pad : list Z := 0x80 :: repeat 0 63.

Definition cst0 : Z := 0x243F6A88.
Definition cst1 : Z := 0x85A308D3.
Definition cst2 : Z := 0x13198A2E.
Definition cst3 : Z := 0x03707344.
Definition cst4 : Z := 0xA4093822.
Definition cst5 : Z := 0x299F31D0.
Definition cst6 : Z := 0x082EFA98.
Definition cst7 : Z := 0xEC4E6C89.
Definition cst8 : Z := 0x452821E6.
Definition cst9 : Z := 0x38D01377.
Definition cst10 : Z := 0xBE5466CF.
Definition cst11 : Z := 0x34E90C6C.
Definition cst12 : Z := 0xC0AC29B7.
Definition cst13 : Z := 0xC97C50DD.
Definition cst14 : Z := 0x3F84D5B5.
Definition cst15 : Z := 0xB5470917.

(** ** The digest state *)

Record digest : Type := mkDigest {
  hashSize : Z;       (* hash output size in bits (224 or 256) *)
  h : list Z;         (* current chain value, [8]uint32 *)
  s : list Z;         (* salt, [4]uint32 (zero by default) *)
  t : Z;              (* message bits counter, uint64 *)
  nullt : bool;       (* special case for finalization: skip counter *)
  x : list Z;         (* buffer for data not yet compressed, [64]byte *)
  nx : Z              (* number of bytes in buffer *)
}.

Definition set_hashSize (d : digest) (v : Z) : digest :=
  mkDigest v (h d) (s d) (t d) (nullt d) (x d) (nx d).
Definition set_h (d : digest) (v : list Z) : digest :=
  mkDigest (hashSize d) v (s d) (t d) (nullt d) (x d) (nx d).
Definition set_s (d : digest) (v : list Z) : digest :=
  mkDigest (hashSize d) (h d) v (t d) (nullt d) (x d) (nx d).
Definition set_t (d : digest) (v : Z) : digest :=
  mkDigest (hashSize d) (h d) (s d) v (nullt d) (x d) (nx d).
Definition set_nullt (d : digest) (v : bool) : digest :=
  mkDigest (hashSize d) (h d) (s d) (t d) v (x d) (nx d).
Definition set_x (d : digest) (v : list Z) : digest :=
  mkDigest (hashSize d) (h d) (s d) (t d) (nullt d) v (nx d).
Definition set_nx (d : digest) (v : Z) : digest :=
  mkDigest (hashSize d) (h d) (s d) (t d) (nullt d) (x d) v.

(** The zero value of [digest] ([var d digest]). *)
Definition zero_digest : digest :=
  mkDigest 0 (repeat 0 8) (repeat 0 4) 0 false (repeat 0 64) 0.

(** ** The compression function [block]

    The sixteen working words [v0..v15], the eight chain words [h0..h7] and
    the four salt words [s0..s3] are local variables of [block]. *)

Definition work : Type := (Z * Z * Z * Z * Z * Z * Z * Z * Z * Z * Z * Z * Z * Z * Z * Z)%type.
Definition chain : Type := (Z * Z * Z * Z * Z * Z * Z * Z)%type.
Definition salt : Type := (Z * Z * Z * Z)%type.

(** Start of the loop body: the working words are set up and the counter
    is advanced by one block. *)
Definition block_init (hv : chain) (sv : salt) (tv : Z) (nt : bool) : work * Z :=
  let '(h0, h1, h2, h3, h4, h5, h6, h7) := hv in
  let '(s0, s1, s2, s3) := sv in
  let '(v0, v1, v2, v3, v4, v5, v6, v7) := (h0, h1, h2, h3, h4, h5, h6, h7) in
  let v8 := xor32 cst0 s0 in
  let v9 := xor32 cst1 s1 in
  let v10 := xor32 cst2 s2 in
  let v11 := xor32 cst3 s3 in
  let v12 := uint32 cst4 in
  let v13 := uint32 cst5 in
  let v14 := uint32 cst6 in
  let v15 := uint32 cst7 in
  let tv := add64 tv 512 in
  let '(v12, v13, v14, v15) :=
    if negb nt then
      let v12 := xor32 v12 (uint32 tv) in
      let v13 := xor32 v13 (uint32 tv) in
      let v14 := xor32 v14 (uint32 (shr64 tv 32)) in
      let v15 := xor32 v15 (uint32 (shr64 tv 32)) in
      (v12, v13, v14, v15)
    else (v12, v13, v14, v15) in
  ((v0, v1, v2, v3, v4, v5, v6, v7, v8, v9, v10, v11, v12, v13, v14, v15), tv).

(** The sixteen big-endian message words [m] of the block at the head of [p]. *)
Definition be32 (p : list Z) (i : nat) : Z :=
  or32 (or32 (or32 (shl32 (idx p i) 24) (shl32 (idx p (i + 1)) 16))
             (shl32 (idx p (i + 2)) 8))
       (uint32 (idx p (i + 3))).

Definition block_words (p : list Z) : list Z :=
  [be32 p 0; be32 p 4; be32 p 8; be32 p 12;
   be32 p 16; be32 p 20; be32 p 24; be32 p 28;
   be32 p 32; be32 p 36; be32 p 40; be32 p 44;
   be32 p 48; be32 p 52; be32 p 56; be32 p 60].

(** Round 1. *)
Definition round1 (m : list Z) (v : work) : work :=
  let '(v0, v1, v2, v3, v4, v5, v6, v7, v8, v9, v10, v11, v12, v13, v14, v15) := v in
  let v0 := add32 v0 (xor32 (idx m 0) cst1) in
  let v0 := add32 v0 v4 in
  let v12 := xor32 v12 v0 in
  let v12 := or32 (shl32 v12 (32-16)) (shr32 v12 16) in
  let v8 := add32 v8 v12 in
  let v4 := xor32 v4 v8 in
  let v4 := or32 (shl32 v4 (32-12)) (shr32 v4 12) in
  let v1 := add32 v1 (xor32 (idx m 2) cst3) in
  let v1 := add32 v1 v5 in
  let v13 := xor32 v13 v1 in
  let v13 := or32 (shl32 v13 (32-16)) (shr32 v13 16) in
  let v9 := add32 v9 v13 in
  let v5 := xor32 v5 v9 in
  let v5 := or32 (shl32 v5 (32-12)) (shr32 v5 12) in
  let v2 := add32 v2 (xor32 (idx m 4) cst5) in
  let v2 := add32 v2 v6 in
  let v14 := xor32 v14 v2 in
  let v14 := or32 (shl32 v14 (32-16)) (shr32 v14 16) in
  let v10 := add32 v10 v14 in
  let v6 := xor32 v6 v10 in
  let v6 := or32 (shl32 v6 (32-12)) (shr32 v6 12) in
  let v3 := add32 v3 (xor32 (idx m 6) cst7) in
  let v3 := add32 v3 v7 in
  let v15 := xor32 v15 v3 in
  let v15 := or32 (shl32 v15 (32-16)) (shr32 v15 16) in
  let v11 := add32 v11 v15 in
  let v7 := xor32 v7 v11 in
  let v7 := or32 (shl32 v7 (32-12)) (shr32 v7 12) in
  let v2 := add32 v2 (xor32 (idx m 5) cst4) in
  let v2 := add32 v2 v6 in
  let v14 := xor32 v14 v2 in
  let v14 := or32 (shl32 v14 (32-8)) (shr32 v14 8) in
  let v10 := add32 v10 v14 in
  let v6 := xor32 v6 v10 in
  let v6 := or32 (shl32 v6 (32-7)) (shr32 v6 7) in
  let v3 := add32 v3 (xor32 (idx m 7) cst6) in
  let v3 := add32 v3 v7 in
  let v15 := xor32 v15 v3 in
  let v15 := or32 (shl32 v15 (32-8)) (shr32 v15 8) in
  let v11 := add32 v11 v15 in
  let v7 := xor32 v7 v11 in
  let v7 := or32 (shl32 v7 (32-7)) (shr32 v7 7) in
  let v1 := add32 v1 (xor32 (idx m 3) cst2) in
  let v1 := add32 v1 v5 in
  let v13 := xor32 v13 v1 in
  let v13 := or32 (shl32 v13 (32-8)) (shr32 v13 8) in
  let v9 := add32 v9 v13 in
  let v5 := xor32 v5 v9 in
  let v5 := or32 (shl32 v5 (32-7)) (shr32 v5 7) in
  let v0 := add32 v0 (xor32 (idx m 1) cst0) in
  let v0 := add32 v0 v4 in
  let v12 := xor32 v12 v0 in
  let v12 := or32 (shl32 v12 (32-8)) (shr32 v12 8) in
  let v8 := add32 v8 v12 in
  let v4 := xor32 v4 v8 in
  let v4 := or32 (shl32 v4 (32-7)) (shr32 v4 7) in
  let v0 := add32 v0 (xor32 (idx m 8) cst9) in
  let v0 := add32 v0 v5 in
  let v15 := xor32 v15 v0 in
  let v15 := or32 (shl32 v15 (32-16)) (shr32 v15 16) in
  let v10 := add32 v10 v15 in
  let v5 := xor32 v5 v10 in
  let v5 := or32 (shl32 v5 (32-12)) (shr32 v5 12) in
  let v1 := add32 v1 (xor32 (idx m 10) cst11) in
  let v1 := add32 v1 v6 in
  let v12 := xor32 v12 v1 in
  let v12 := or32 (shl32 v12 (32-16)) (shr32 v12 16) in
  let v11 := add32 v11 v12 in
  let v6 := xor32 v6 v11 in
  let v6 := or32 (shl32 v6 (32-12)) (shr32 v6 12) in
  let v2 := add32 v2 (xor32 (idx m 12) cst13) in
  let v2 := add32 v2 v7 in
  let v13 := xor32 v13 v2 in
  let v13 := or32 (shl32 v13 (32-16)) (shr32 v13 16) in
  let v8 := add32 v8 v13 in
  let v7 := xor32 v7 v8 in
  let v7 := or32 (shl32 v7 (32-12)) (shr32 v7 12) in
  let v3 := add32 v3 (xor32 (idx m 14) cst15) in
  let v3 := add32 v3 v4 in
  let v14 := xor32 v14 v3 in
  let v14 := or32 (shl32 v14 (32-16)) (shr32 v14 16) in
  let v9 := add32 v9 v14 in
  let v4 := xor32 v4 v9 in
  let v4 := or32 (shl32 v4 (32-12)) (shr32 v4 12) in
  let v2 := add32 v2 (xor32 (idx m 13) cst12) in
  let v2 := add32 v2 v7 in
  let v13 := xor32 v13 v2 in
  let v13 := or32 (shl32 v13 (32-8)) (shr32 v13 8) in
  let v8 := add32 v8 v13 in
  let v7 := xor32 v7 v8 in
  let v7 := or32 (shl32 v7 (32-7)) (shr32 v7 7) in
  let v3 := add32 v3 (xor32 (idx m 15) cst14) in
  let v3 := add32 v3 v4 in
  let v14 := xor32 v14 v3 in
  let v14 := or32 (shl32 v14 (32-8)) (shr32 v14 8) in
  let v9 := add32 v9 v14 in
  let v4 := xor32 v4 v9 in
  let v4 := or32 (shl32 v4 (32-7)) (shr32 v4 7) in
  let v1 := add32 v1 (xor32 (idx m 11) cst10) in
  let v1 := add32 v1 v6 in
  let v12 := xor32 v12 v1 in
  let v12 := or32 (shl32 v12 (32-8)) (shr32 v12 8) in
  let v11 := add32 v11 v12 in
  let v6 := xor32 v6 v11 in
  let v6 := or32 (shl32 v6 (32-7)) (shr32 v6 7) in
  let v0 := add32 v0 (xor32 (idx m 9) cst8) in
  let v0 := add32 v0 v5 in
  let v15 := xor32 v15 v0 in
  let v15 := or32 (shl32 v15 (32-8)) (shr32 v15 8) in
  let v10 := add32 v10 v15 in
  let v5 := xor32 v5 v10 in
  let v5 := or32 (shl32 v5 (32-7)) (shr32 v5 7) in
  (v0, v1, v2, v3, v4, v5, v6, v7, v8, v9, v10, v11, v12, v13, v14, v15).

(** Round 2. *)
Definition round2 (m : list Z) (v : work) : work :=
  let '(v0, v1, v2, v3, v4, v5, v6, v7, v8, v9, v10, v11, v12, v13, v14, v15) := v in
  let v0 := add32 v0 (xor32 (idx m 14) cst10) in
  let v0 := add32 v0 v4 in
  let v12 := xor32 v12 v0 in
  let v12 := or32 (shl32 v12 (32-16)) (shr32 v12 16) in
  let v8 := add32 v8 v12 in
  let v4 := xor32 v4 v8 in
  let v4 := or32 (shl32 v4 (32-12)) (shr32 v4 12) in
  let v1 := add32 v1 (xor32 (idx m 4) cst8) in
  let v1 := add32 v1 v5 in
  let v13 := xor32 v13 v1 in
  let v13 := or32 (shl32 v13 (32-16)) (shr32 v13 16) in
  let v9 := add32 v9 v13 in
  let v5 := xor32 v5 v9 in
  let v5 := or32 (shl32 v5 (32-12)) (shr32 v5 12) in
  let v2 := add32 v2 (xor32 (idx m 9) cst15) in
  let v2 := add32 v2 v6 in
  let v14 := xor32 v14 v2 in
  let v14 := or32 (shl32 v14 (32-16)) (shr32 v14 16) in
  let v10 := add32 v10 v14 in
  let v6 := xor32 v6 v10 in
  let v6 := or32 (shl32 v6 (32-12)) (shr32 v6 12) in
  let v3 := add32 v3 (xor32 (idx m 13) cst6) in
  let v3 := add32 v3 v7 in
  let v15 := xor32 v15 v3 in
  let v15 := or32 (shl32 v15 (32-16)) (shr32 v15 16) in
  let v11 := add32 v11 v15 in
  let v7 := xor32 v7 v11 in
  let v7 := or32 (shl32 v7 (32-12)) (shr32 v7 12) in
  let v2 := add32 v2 (xor32 (idx m 15) cst9) in
  let v2 := add32 v2 v6 in
  let v14 := xor32 v14 v2 in
  let v14 := or32 (shl32 v14 (32-8)) (shr32 v14 8) in
  let v10 := add32 v10 v14 in
  let v6 := xor32 v6 v10 in
  let v6 := or32 (shl32 v6 (32-7)) (shr32 v6 7) in
  let v3 := add32 v3 (xor32 (idx m 6) cst13) in
  let v3 := add32 v3 v7 in
  let v15 := xor32 v15 v3 in
  let v15 := or32 (shl32 v15 (32-8)) (shr32 v15 8) in
  let v11 := add32 v11 v15 in
  let v7 := xor32 v7 v11 in
  let v7 := or32 (shl32 v7 (32-7)) (shr32 v7 7) in
  let v1 := add32 v1 (xor32 (idx m 8) cst4) in
  let v1 := add32 v1 v5 in
  let v13 := xor32 v13 v1 in
  let v13 := or32 (shl32 v13 (32-8)) (shr32 v13 8) in
  let v9 := add32 v9 v13 in
  let v5 := xor32 v5 v9 in
  let v5 := or32 (shl32 v5 (32-7)) (shr32 v5 7) in
  let v0 := add32 v0 (xor32 (idx m 10) cst14) in
  let v0 := add32 v0 v4 in
  let v12 := xor32 v12 v0 in
  let v12 := or32 (shl32 v12 (32-8)) (shr32 v12 8) in
  let v8 := add32 v8 v12 in
  let v4 := xor32 v4 v8 in
  let v4 := or32 (shl32 v4 (32-7)) (shr32 v4 7) in
  let v0 := add32 v0 (xor32 (idx m 1) cst12) in
  let v0 := add32 v0 v5 in
  let v15 := xor32 v15 v0 in
  let v15 := or32 (shl32 v15 (32-16)) (shr32 v15 16) in
  let v10 := add32 v10 v15 in
  let v5 := xor32 v5 v10 in
  let v5 := or32 (shl32 v5 (32-12)) (shr32 v5 12) in
  let v1 := add32 v1 (xor32 (idx m 0) cst2) in
  let v1 := add32 v1 v6 in
  let v12 := xor32 v12 v1 in
  let v12 := or32 (shl32 v12 (32-16)) (shr32 v12 16) in
  let v11 := add32 v11 v12 in
  let v6 := xor32 v6 v11 in
  let v6 := or32 (shl32 v6 (32-12)) (shr32 v6 12) in
  let v2 := add32 v2 (xor32 (idx m 11) cst7) in
  let v2 := add32 v2 v7 in
  let v13 := xor32 v13 v2 in
  let v13 := or32 (shl32 v13 (32-16)) (shr32 v13 16) in
  let v8 := add32 v8 v13 in
  let v7 := xor32 v7 v8 in
  let v7 := or32 (shl32 v7 (32-12)) (shr32 v7 12) in
  let v3 := add32 v3 (xor32 (idx m 5) cst3) in
  let v3 := add32 v3 v4 in
  let v14 := xor32 v14 v3 in
  let v14 := or32 (shl32 v14 (32-16)) (shr32 v14 16) in
  let v9 := add32 v9 v14 in
  let v4 := xor32 v4 v9 in
  let v4 := or32 (shl32 v4 (32-12)) (shr32 v4 12) in
  let v2 := add32 v2 (xor32 (idx m 7) cst11) in
  let v2 := add32 v2 v7 in
  let v13 := xor32 v13 v2 in
  let v13 := or32 (shl32 v13 (32-8)) (shr32 v13 8) in
  let v8 := add32 v8 v13 in
  let v7 := xor32 v7 v8 in
  let v7 := or32 (shl32 v7 (32-7)) (shr32 v7 7) in
  let v3 := add32 v3 (xor32 (idx m 3) cst5) in
  let v3 := add32 v3 v4 in
  let v14 := xor32 v14 v3 in
  let v14 := or32 (shl32 v14 (32-8)) (shr32 v14 8) in
  let v9 := add32 v9 v14 in
  let v4 := xor32 v4 v9 in
  let v4 := or32 (shl32 v4 (32-7)) (shr32 v4 7) in
  let v1 := add32 v1 (xor32 (idx m 2) cst0) in
  let v1 := add32 v1 v6 in
  let v12 := xor32 v12 v1 in
  let v12 := or32 (shl32 v12 (32-8)) (shr32 v12 8) in
  let v11 := add32 v11 v12 in
  let v6 := xor32 v6 v11 in
  let v6 := or32 (shl32 v6 (32-7)) (shr32 v6 7) in
  let v0 := add32 v0 (xor32 (idx m 12) cst1) in
  let v0 := add32 v0 v5 in
  let v15 := xor32 v15 v0 in
  let v15 := or32 (shl32 v15 (32-8)) (shr32 v15 8) in
  let v10 := add32 v10 v15 in
  let v5 := xor32 v5 v10 in
  let v5 := or32 (shl32 v5 (32-7)) (shr32 v5 7) in
  (v0, v1, v2, v3, v4, v5, v6, v7, v8, v9, v10, v11, v12, v13, v14, v15).

(** Round 3. *)
Definition round3 (m : list Z) (v : work) : work :=
  let '(v0, v1, v2, v3, v4, v5, v6, v7, v8, v9, v10, v11, v12, v13, v14, v15) := v in
  let v0 := add32 v0 (xor32 (idx m 11) cst8) in
  let v0 := add32 v0 v4 in
  let v12 := xor32 v12 v0 in
  let v12 := or32 (shl32 v12 (32-16)) (shr32 v12 16) in
  let v8 := add32 v8 v12 in
  let v4 := xor32 v4 v8 in
  let v4 := or32 (shl32 v4 (32-12)) (shr32 v4 12) in
  let v1 := add32 v1 (xor32 (idx m 12) cst0) in
  let v1 := add32 v1 v5 in
  let v13 := xor32 v13 v1 in
  let v13 := or32 (shl32 v13 (32-16)) (shr32 v13 16) in
  let v9 := add32 v9 v13 in
  let v5 := xor32 v5 v9 in
  let v5 := or32 (shl32 v5 (32-12)) (shr32 v5 12) in
  let v2 := add32 v2 (xor32 (idx m 5) cst2) in
  let v2 := add32 v2 v6 in
  let v14 := xor32 v14 v2 in
  let v14 := or32 (shl32 v14 (32-16)) (shr32 v14 16) in
  let v10 := add32 v10 v14 in
  let v6 := xor32 v6 v10 in
  let v6 := or32 (shl32 v6 (32-12)) (shr32 v6 12) in
  let v3 := add32 v3 (xor32 (idx m 15) cst13) in
  let v3 := add32 v3 v7 in
  let v15 := xor32 v15 v3 in
  let v15 := or32 (shl32 v15 (32-16)) (shr32 v15 16) in
  let v11 := add32 v11 v15 in
  let v7 := xor32 v7 v11 in
  let v7 := or32 (shl32 v7 (32-12)) (shr32 v7 12) in
  let v2 := add32 v2 (xor32 (idx m 2) cst5) in
  let v2 := add32 v2 v6 in
  let v14 := xor32 v14 v2 in
  let v14 := or32 (shl32 v14 (32-8)) (shr32 v14 8) in
  let v10 := add32 v10 v14 in
  let v6 := xor32 v6 v10 in
  let v6 := or32 (shl32 v6 (32-7)) (shr32 v6 7) in
  let v3 := add32 v3 (xor32 (idx m 13) cst15) in
  let v3 := add32 v3 v7 in
  let v15 := xor32 v15 v3 in
  let v15 := or32 (shl32 v15 (32-8)) (shr32 v15 8) in
  let v11 := add32 v11 v15 in
  let v7 := xor32 v7 v11 in
  let v7 := or32 (shl32 v7 (32-7)) (shr32 v7 7) in
  let v1 := add32 v1 (xor32 (idx m 0) cst12) in
  let v1 := add32 v1 v5 in
  let v13 := xor32 v13 v1 in
  let v13 := or32 (shl32 v13 (32-8)) (shr32 v13 8) in
  let v9 := add32 v9 v13 in
  let v5 := xor32 v5 v9 in
  let v5 := or32 (shl32 v5 (32-7)) (shr32 v5 7) in
  let v0 := add32 v0 (xor32 (idx m 8) cst11) in
  let v0 := add32 v0 v4 in
  let v12 := xor32 v12 v0 in
  let v12 := or32 (shl32 v12 (32-8)) (shr32 v12 8) in
  let v8 := add32 v8 v12 in
  let v4 := xor32 v4 v8 in
  let v4 := or32 (shl32 v4 (32-7)) (shr32 v4 7) in
  let v0 := add32 v0 (xor32 (idx m 10) cst14) in
  let v0 := add32 v0 v5 in
  let v15 := xor32 v15 v0 in
  let v15 := or32 (shl32 v15 (32-16)) (shr32 v15 16) in
  let v10 := add32 v10 v15 in
  let v5 := xor32 v5 v10 in
  let v5 := or32 (shl32 v5 (32-12)) (shr32 v5 12) in
  let v1 := add32 v1 (xor32 (idx m 3) cst6) in
  let v1 := add32 v1 v6 in
  let v12 := xor32 v12 v1 in
  let v12 := or32 (shl32 v12 (32-16)) (shr32 v12 16) in
  let v11 := add32 v11 v12 in
  let v6 := xor32 v6 v11 in
  let v6 := or32 (shl32 v6 (32-12)) (shr32 v6 12) in
  let v2 := add32 v2 (xor32 (idx m 7) cst1) in
  let v2 := add32 v2 v7 in
  let v13 := xor32 v13 v2 in
  let v13 := or32 (shl32 v13 (32-16)) (shr32 v13 16) in
  let v8 := add32 v8 v13 in
  let v7 := xor32 v7 v8 in
  let v7 := or32 (shl32 v7 (32-12)) (shr32 v7 12) in
  let v3 := add32 v3 (xor32 (idx m 9) cst4) in
  let v3 := add32 v3 v4 in
  let v14 := xor32 v14 v3 in
  let v14 := or32 (shl32 v14 (32-16)) (shr32 v14 16) in
  let v9 := add32 v9 v14 in
  let v4 := xor32 v4 v9 in
  let v4 := or32 (shl32 v4 (32-12)) (shr32 v4 12) in
  let v2 := add32 v2 (xor32 (idx m 1) cst7) in
  let v2 := add32 v2 v7 in
  let v13 := xor32 v13 v2 in
  let v13 := or32 (shl32 v13 (32-8)) (shr32 v13 8) in
  let v8 := add32 v8 v13 in
  let v7 := xor32 v7 v8 in
  let v7 := or32 (shl32 v7 (32-7)) (shr32 v7 7) in
  let v3 := add32 v3 (xor32 (idx m 4) cst9) in
  let v3 := add32 v3 v4 in
  let v14 := xor32 v14 v3 in
  let v14 := or32 (shl32 v14 (32-8)) (shr32 v14 8) in
  let v9 := add32 v9 v14 in
  let v4 := xor32 v4 v9 in
  let v4 := or32 (shl32 v4 (32-7)) (shr32 v4 7) in
  let v1 := add32 v1 (xor32 (idx m 6) cst3) in
  let v1 := add32 v1 v6 in
  let v12 := xor32 v12 v1 in
  let v12 := or32 (shl32 v12 (32-8)) (shr32 v12 8) in
  let v11 := add32 v11 v12 in
  let v6 := xor32 v6 v11 in
  let v6 := or32 (shl32 v6 (32-7)) (shr32 v6 7) in
  let v0 := add32 v0 (xor32 (idx m 14) cst10) in
  let v0 := add32 v0 v5 in
  let v15 := xor32 v15 v0 in
  let v15 := or32 (shl32 v15 (32-8)) (shr32 v15 8) in
  let v10 := add32 v10 v15 in
  let v5 := xor32 v5 v10 in
  let v5 := or32 (shl32 v5 (32-7)) (shr32 v5 7) in
  (v0, v1, v2, v3, v4, v5, v6, v7, v8, v9, v10, v11, v12, v13, v14, v15).

(** Round 4. *)
Definition round4 (m : list Z) (v : work) : work :=
  let '(v0, v1, v2, v3, v4, v5, v6, v7, v8, v9, v10, v11, v12, v13, v14, v15) := v in
  let v0 := add32 v0 (xor32 (idx m 7) cst9) in
  let v0 := add32 v0 v4 in
  let v12 := xor32 v12 v0 in
  let v12 := or32 (shl32 v12 (32-16)) (shr32 v12 16) in
  let v8 := add32 v8 v12 in
  let v4 := xor32 v4 v8 in
  let v4 := or32 (shl32 v4 (32-12)) (shr32 v4 12) in
  let v1 := add32 v1 (xor32 (idx m 3) cst1) in
  let v1 := add32 v1 v5 in
  let v13 := xor32 v13 v1 in
  let v13 := or32 (shl32 v13 (32-16)) (shr32 v13 16) in
  let v9 := add32 v9 v13 in
  let v5 := xor32 v5 v9 in
  let v5 := or32 (shl32 v5 (32-12)) (shr32 v5 12) in
  let v2 := add32 v2 (xor32 (idx m 13) cst12) in
  let v2 := add32 v2 v6 in
  let v14 := xor32 v14 v2 in
  let v14 := or32 (shl32 v14 (32-16)) (shr32 v14 16) in
  let v10 := add32 v10 v14 in
  let v6 := xor32 v6 v10 in
  let v6 := or32 (shl32 v6 (32-12)) (shr32 v6 12) in
  let v3 := add32 v3 (xor32 (idx m 11) cst14) in
  let v3 := add32 v3 v7 in
  let v15 := xor32 v15 v3 in
  let v15 := or32 (shl32 v15 (32-16)) (shr32 v15 16) in
  let v11 := add32 v11 v15 in
  let v7 := xor32 v7 v11 in
  let v7 := or32 (shl32 v7 (32-12)) (shr32 v7 12) in
  let v2 := add32 v2 (xor32 (idx m 12) cst13) in
  let v2 := add32 v2 v6 in
  let v14 := xor32 v14 v2 in
  let v14 := or32 (shl32 v14 (32-8)) (shr32 v14 8) in
  let v10 := add32 v10 v14 in
  let v6 := xor32 v6 v10 in
  let v6 := or32 (shl32 v6 (32-7)) (shr32 v6 7) in
  let v3 := add32 v3 (xor32 (idx m 14) cst11) in
  let v3 := add32 v3 v7 in
  let v15 := xor32 v15 v3 in
  let v15 := or32 (shl32 v15 (32-8)) (shr32 v15 8) in
  let v11 := add32 v11 v15 in
  let v7 := xor32 v7 v11 in
  let v7 := or32 (shl32 v7 (32-7)) (shr32 v7 7) in
  let v1 := add32 v1 (xor32 (idx m 1) cst3) in
  let v1 := add32 v1 v5 in
  let v13 := xor32 v13 v1 in
  let v13 := or32 (shl32 v13 (32-8)) (shr32 v13 8) in
  let v9 := add32 v9 v13 in
  let v5 := xor32 v5 v9 in
  let v5 := or32 (shl32 v5 (32-7)) (shr32 v5 7) in
  let v0 := add32 v0 (xor32 (idx m 9) cst7) in
  let v0 := add32 v0 v4 in
  let v12 := xor32 v12 v0 in
  let v12 := or32 (shl32 v12 (32-8)) (shr32 v12 8) in
  let v8 := add32 v8 v12 in
  let v4 := xor32 v4 v8 in
  let v4 := or32 (shl32 v4 (32-7)) (shr32 v4 7) in
  let v0 := add32 v0 (xor32 (idx m 2) cst6) in
  let v0 := add32 v0 v5 in
  let v15 := xor32 v15 v0 in
  let v15 := or32 (shl32 v15 (32-16)) (shr32 v15 16) in
  let v10 := add32 v10 v15 in
  let v5 := xor32 v5 v10 in
  let v5 := or32 (shl32 v5 (32-12)) (shr32 v5 12) in
  let v1 := add32 v1 (xor32 (idx m 5) cst10) in
  let v1 := add32 v1 v6 in
  let v12 := xor32 v12 v1 in
  let v12 := or32 (shl32 v12 (32-16)) (shr32 v12 16) in
  let v11 := add32 v11 v12 in
  let v6 := xor32 v6 v11 in
  let v6 := or32 (shl32 v6 (32-12)) (shr32 v6 12) in
  let v2 := add32 v2 (xor32 (idx m 4) cst0) in
  let v2 := add32 v2 v7 in
  let v13 := xor32 v13 v2 in
  let v13 := or32 (shl32 v13 (32-16)) (shr32 v13 16) in
  let v8 := add32 v8 v13 in
  let v7 := xor32 v7 v8 in
  let v7 := or32 (shl32 v7 (32-12)) (shr32 v7 12) in
  let v3 := add32 v3 (xor32 (idx m 15) cst8) in
  let v3 := add32 v3 v4 in
  let v14 := xor32 v14 v3 in
  let v14 := or32 (shl32 v14 (32-16)) (shr32 v14 16) in
  let v9 := add32 v9 v14 in
  let v4 := xor32 v4 v9 in
  let v4 := or32 (shl32 v4 (32-12)) (shr32 v4 12) in
  let v2 := add32 v2 (xor32 (idx m 0) cst4) in
  let v2 := add32 v2 v7 in
  let v13 := xor32 v13 v2 in
  let v13 := or32 (shl32 v13 (32-8)) (shr32 v13 8) in
  let v8 := add32 v8 v13 in
  let v7 := xor32 v7 v8 in
  let v7 := or32 (shl32 v7 (32-7)) (shr32 v7 7) in
  let v3 := add32 v3 (xor32 (idx m 8) cst15) in
  let v3 := add32 v3 v4 in
  let v14 := xor32 v14 v3 in
  let v14 := or32 (shl32 v14 (32-8)) (shr32 v14 8) in
  let v9 := add32 v9 v14 in
  let v4 := xor32 v4 v9 in
  let v4 := or32 (shl32 v4 (32-7)) (shr32 v4 7) in
  let v1 := add32 v1 (xor32 (idx m 10) cst5) in
  let v1 := add32 v1 v6 in
  let v12 := xor32 v12 v1 in
  let v12 := or32 (shl32 v12 (32-8)) (shr32 v12 8) in
  let v11 := add32 v11 v12 in
  let v6 := xor32 v6 v11 in
  let v6 := or32 (shl32 v6 (32-7)) (shr32 v6 7) in
  let v0 := add32 v0 (xor32 (idx m 6) cst2) in
  let v0 := add32 v0 v5 in
  let v15 := xor32 v15 v0 in
  let v15 := or32 (shl32 v15 (32-8)) (shr32 v15 8) in
  let v10 := add32 v10 v15 in
  let v5 := xor32 v5 v10 in
  let v5 := or32 (shl32 v5 (32-7)) (shr32 v5 7) in
  (v0, v1, v2, v3, v4, v5, v6, v7, v8, v9, v10, v11, v12, v13, v14, v15).

(** Round 5. *)
Definition round5 (m : list Z) (v : work) : work :=
  let '(v0, v1, v2, v3, v4, v5, v6, v7, v8, v9, v10, v11, v12, v13, v14, v15) := v in
  let v0 := add32 v0 (xor32 (idx m 9) cst0) in
  let v0 := add32 v0 v4 in
  let v12 := xor32 v12 v0 in
  let v12 := or32 (shl32 v12 (32-16)) (shr32 v12 16) in
  let v8 := add32 v8 v12 in
  let v4 := xor32 v4 v8 in
  let v4 := or32 (shl32 v4 (32-12)) (shr32 v4 12) in
  let v1 := add32 v1 (xor32 (idx m 5) cst7) in
  let v1 := add32 v1 v5 in
  let v13 := xor32 v13 v1 in
  let v13 := or32 (shl32 v13 (32-16)) (shr32 v13 16) in
  let v9 := add32 v9 v13 in
  let v5 := xor32 v5 v9 in
  let v5 := or32 (shl32 v5 (32-12)) (shr32 v5 12) in
  let v2 := add32 v2 (xor32 (idx m 2) cst4) in
  let v2 := add32 v2 v6 in
  let v14 := xor32 v14 v2 in
  let v14 := or32 (shl32 v14 (32-16)) (shr32 v14 16) in
  let v10 := add32 v10 v14 in
  let v6 := xor32 v6 v10 in
  let v6 := or32 (shl32 v6 (32-12)) (shr32 v6 12) in
  let v3 := add32 v3 (xor32 (idx m 10) cst15) in
  let v3 := add32 v3 v7 in
  let v15 := xor32 v15 v3 in
  let v15 := or32 (shl32 v15 (32-16)) (shr32 v15 16) in
  let v11 := add32 v11 v15 in
  let v7 := xor32 v7 v11 in
  let v7 := or32 (shl32 v7 (32-12)) (shr32 v7 12) in
  let v2 := add32 v2 (xor32 (idx m 4) cst2) in
  let v2 := add32 v2 v6 in
  let v14 := xor32 v14 v2 in
  let v14 := or32 (shl32 v14 (32-8)) (shr32 v14 8) in
  let v10 := add32 v10 v14 in
  let v6 := xor32 v6 v10 in
  let v6 := or32 (shl32 v6 (32-7)) (shr32 v6 7) in
  let v3 := add32 v3 (xor32 (idx m 15) cst10) in
  let v3 := add32 v3 v7 in
  let v15 := xor32 v15 v3 in
  let v15 := or32 (shl32 v15 (32-8)) (shr32 v15 8) in
  let v11 := add32 v11 v15 in
  let v7 := xor32 v7 v11 in
  let v7 := or32 (shl32 v7 (32-7)) (shr32 v7 7) in
  let v1 := add32 v1 (xor32 (idx m 7) cst5) in
  let v1 := add32 v1 v5 in
  let v13 := xor32 v13 v1 in
  let v13 := or32 (shl32 v13 (32-8)) (shr32 v13 8) in
  let v9 := add32 v9 v13 in
  let v5 := xor32 v5 v9 in
  let v5 := or32 (shl32 v5 (32-7)) (shr32 v5 7) in
  let v0 := add32 v0 (xor32 (idx m 0) cst9) in
  let v0 := add32 v0 v4 in
  let v12 := xor32 v12 v0 in
  let v12 := or32 (shl32 v12 (32-8)) (shr32 v12 8) in
  let v8 := add32 v8 v12 in
  let v4 := xor32 v4 v8 in
  let v4 := or32 (shl32 v4 (32-7)) (shr32 v4 7) in
  let v0 := add32 v0 (xor32 (idx m 14) cst1) in
  let v0 := add32 v0 v5 in
  let v15 := xor32 v15 v0 in
  let v15 := or32 (shl32 v15 (32-16)) (shr32 v15 16) in
  let v10 := add32 v10 v15 in
  let v5 := xor32 v5 v10 in
  let v5 := or32 (shl32 v5 (32-12)) (shr32 v5 12) in
  let v1 := add32 v1 (xor32 (idx m 11) cst12) in
  let v1 := add32 v1 v6 in
  let v12 := xor32 v12 v1 in
  let v12 := or32 (shl32 v12 (32-16)) (shr32 v12 16) in
  let v11 := add32 v11 v12 in
  let v6 := xor32 v6 v11 in
  let v6 := or32 (shl32 v6 (32-12)) (shr32 v6 12) in
  let v2 := add32 v2 (xor32 (idx m 6) cst8) in
  let v2 := add32 v2 v7 in
  let v13 := xor32 v13 v2 in
  let v13 := or32 (shl32 v13 (32-16)) (shr32 v13 16) in
  let v8 := add32 v8 v13 in
  let v7 := xor32 v7 v8 in
  let v7 := or32 (shl32 v7 (32-12)) (shr32 v7 12) in
  let v3 := add32 v3 (xor32 (idx m 3) cst13) in
  let v3 := add32 v3 v4 in
  let v14 := xor32 v14 v3 in
  let v14 := or32 (shl32 v14 (32-16)) (shr32 v14 16) in
  let v9 := add32 v9 v14 in
  let v4 := xor32 v4 v9 in
  let v4 := or32 (shl32 v4 (32-12)) (shr32 v4 12) in
  let v2 := add32 v2 (xor32 (idx m 8) cst6) in
  let v2 := add32 v2 v7 in
  let v13 := xor32 v13 v2 in
  let v13 := or32 (shl32 v13 (32-8)) (shr32 v13 8) in
  let v8 := add32 v8 v13 in
  let v7 := xor32 v7 v8 in
  let v7 := or32 (shl32 v7 (32-7)) (shr32 v7 7) in
  let v3 := add32 v3 (xor32 (idx m 13) cst3) in
  let v3 := add32 v3 v4 in
  let v14 := xor32 v14 v3 in
  let v14 := or32 (shl32 v14 (32-8)) (shr32 v14 8) in
  let v9 := add32 v9 v14 in
  let v4 := xor32 v4 v9 in
  let v4 := or32 (shl32 v4 (32-7)) (shr32 v4 7) in
  let v1 := add32 v1 (xor32 (idx m 12) cst11) in
  let v1 := add32 v1 v6 in
  let v12 := xor32 v12 v1 in
  let v12 := or32 (shl32 v12 (32-8)) (shr32 v12 8) in
  let v11 := add32 v11 v12 in
  let v6 := xor32 v6 v11 in
  let v6 := or32 (shl32 v6 (32-7)) (shr32 v6 7) in
  let v0 := add32 v0 (xor32 (idx m 1) cst14) in
  let v0 := add32 v0 v5 in
  let v15 := xor32 v15 v0 in
  let v15 := or32 (shl32 v15 (32-8)) (shr32 v15 8) in
  let v10 := add32 v10 v15 in
  let v5 := xor32 v5 v10 in
  let v5 := or32 (shl32 v5 (32-7)) (shr32 v5 7) in
  (v0, v1, v2, v3, v4, v5, v6, v7, v8, v9, v10, v11, v12, v13, v14, v15).

(** Round 6. *)
Definition round6 (m : list Z) (v : work) : work :=
  let '(v0, v1, v2, v3, v4, v5, v6, v7, v8, v9, v10, v11, v12, v13, v14, v15) := v in
  let v0 := add32 v0 (xor32 (idx m 2) cst12) in
  let v0 := add32 v0 v4 in
  let v12 := xor32 v12 v0 in
  let v12 := or32 (shl32 v12 (32-16)) (shr32 v12 16) in
  let v8 := add32 v8 v12 in
  let v4 := xor32 v4 v8 in
  let v4 := or32 (shl32 v4 (32-12)) (shr32 v4 12) in
  let v1 := add32 v1 (xor32 (idx m 6) cst10) in
  let v1 := add32 v1 v5 in
  let v13 := xor32 v13 v1 in
  let v13 := or32 (shl32 v13 (32-16)) (shr32 v13 16) in
  let v9 := add32 v9 v13 in
  let v5 := xor32 v5 v9 in
  let v5 := or32 (shl32 v5 (32-12)) (shr32 v5 12) in
  let v2 := add32 v2 (xor32 (idx m 0) cst11) in
  let v2 := add32 v2 v6 in
  let v14 := xor32 v14 v2 in
  let v14 := or32 (shl32 v14 (32-16)) (shr32 v14 16) in
  let v10 := add32 v10 v14 in
  let v6 := xor32 v6 v10 in
  let v6 := or32 (shl32 v6 (32-12)) (shr32 v6 12) in
  let v3 := add32 v3 (xor32 (idx m 8) cst3) in
  let v3 := add32 v3 v7 in
  let v15 := xor32 v15 v3 in
  let v15 := or32 (shl32 v15 (32-16)) (shr32 v15 16) in
  let v11 := add32 v11 v15 in
  let v7 := xor32 v7 v11 in
  let v7 := or32 (shl32 v7 (32-12)) (shr32 v7 12) in
  let v2 := add32 v2 (xor32 (idx m 11) cst0) in
  let v2 := add32 v2 v6 in
  let v14 := xor32 v14 v2 in
  let v14 := or32 (shl32 v14 (32-8)) (shr32 v14 8) in
  let v10 := add32 v10 v14 in
  let v6 := xor32 v6 v10 in
  let v6 := or32 (shl32 v6 (32-7)) (shr32 v6 7) in
  let v3 := add32 v3 (xor32 (idx m 3) cst8) in
  let v3 := add32 v3 v7 in
  let v15 := xor32 v15 v3 in
  let v15 := or32 (shl32 v15 (32-8)) (shr32 v15 8) in
  let v11 := add32 v11 v15 in
  let v7 := xor32 v7 v11 in
  let v7 := or32 (shl32 v7 (32-7)) (shr32 v7 7) in
  let v1 := add32 v1 (xor32 (idx m 10) cst6) in
  let v1 := add32 v1 v5 in
  let v13 := xor32 v13 v1 in
  let v13 := or32 (shl32 v13 (32-8)) (shr32 v13 8) in
  let v9 := add32 v9 v13 in
  let v5 := xor32 v5 v9 in
  let v5 := or32 (shl32 v5 (32-7)) (shr32 v5 7) in
  let v0 := add32 v0 (xor32 (idx m 12) cst2) in
  let v0 := add32 v0 v4 in
  let v12 := xor32 v12 v0 in
  let v12 := or32 (shl32 v12 (32-8)) (shr32 v12 8) in
  let v8 := add32 v8 v12 in
  let v4 := xor32 v4 v8 in
  let v4 := or32 (shl32 v4 (32-7)) (shr32 v4 7) in
  let v0 := add32 v0 (xor32 (idx m 4) cst13) in
  let v0 := add32 v0 v5 in
  let v15 := xor32 v15 v0 in
  let v15 := or32 (shl32 v15 (32-16)) (shr32 v15 16) in
  let v10 := add32 v10 v15 in
  let v5 := xor32 v5 v10 in
  let v5 := or32 (shl32 v5 (32-12)) (shr32 v5 12) in
  let v1 := add32 v1 (xor32 (idx m 7) cst5) in
  let v1 := add32 v1 v6 in
  let v12 := xor32 v12 v1 in
  let v12 := or32 (shl32 v12 (32-16)) (shr32 v12 16) in
  let v11 := add32 v11 v12 in
  let v6 := xor32 v6 v11 in
  let v6 := or32 (shl32 v6 (32-12)) (shr32 v6 12) in
  let v2 := add32 v2 (xor32 (idx m 15) cst14) in
  let v2 := add32 v2 v7 in
  let v13 := xor32 v13 v2 in
  let v13 := or32 (shl32 v13 (32-16)) (shr32 v13 16) in
  let v8 := add32 v8 v13 in
  let v7 := xor32 v7 v8 in
  let v7 := or32 (shl32 v7 (32-12)) (shr32 v7 12) in
  let v3 := add32 v3 (xor32 (idx m 1) cst9) in
  let v3 := add32 v3 v4 in
  let v14 := xor32 v14 v3 in
  let v14 := or32 (shl32 v14 (32-16)) (shr32 v14 16) in
  let v9 := add32 v9 v14 in
  let v4 := xor32 v4 v9 in
  let v4 := or32 (shl32 v4 (32-12)) (shr32 v4 12) in
  let v2 := add32 v2 (xor32 (idx m 14) cst15) in
  let v2 := add32 v2 v7 in
  let v13 := xor32 v13 v2 in
  let v13 := or32 (shl32 v13 (32-8)) (shr32 v13 8) in
  let v8 := add32 v8 v13 in
  let v7 := xor32 v7 v8 in
  let v7 := or32 (shl32 v7 (32-7)) (shr32 v7 7) in
  let v3 := add32 v3 (xor32 (idx m 9) cst1) in
  let v3 := add32 v3 v4 in
  let v14 := xor32 v14 v3 in
  let v14 := or32 (shl32 v14 (32-8)) (shr32 v14 8) in
  let v9 := add32 v9 v14 in
  let v4 := xor32 v4 v9 in
  let v4 := or32 (shl32 v4 (32-7)) (shr32 v4 7) in
  let v1 := add32 v1 (xor32 (idx m 5) cst7) in
  let v1 := add32 v1 v6 in
  let v12 := xor32 v12 v1 in
  let v12 := or32 (shl32 v12 (32-8)) (shr32 v12 8) in
  let v11 := add32 v11 v12 in
  let v6 := xor32 v6 v11 in
  let v6 := or32 (shl32 v6 (32-7)) (shr32 v6 7) in
  let v0 := add32 v0 (xor32 (idx m 13) cst4) in
  let v0 := add32 v0 v5 in
  let v15 := xor32 v15 v0 in
  let v15 := or32 (shl32 v15 (32-8)) (shr32 v15 8) in
  let v10 := add32 v10 v15 in
  let v5 := xor32 v5 v10 in
  let v5 := or32 (shl32 v5 (32-7)) (shr32 v5 7) in
  (v0, v1, v2, v3, v4, v5, v6, v7, v8, v9, v10, v11, v12, v13, v14, v15).

(** Round 7. *)
Definition round7 (m : list Z) (v : work) : work :=
  let '(v0, v1, v2, v3, v4, v5, v6, v7, v8, v9, v10, v11, v12, v13, v14, v15) := v in
  let v0 := add32 v0 (xor32 (idx m 12) cst5) in
  let v0 := add32 v0 v4 in
  let v12 := xor32 v12 v0 in
  let v12 := or32 (shl32 v12 (32-16)) (shr32 v12 16) in
  let v8 := add32 v8 v12 in
  let v4 := xor32 v4 v8 in
  let v4 := or32 (shl32 v4 (32-12)) (shr32 v4 12) in
  let v1 := add32 v1 (xor32 (idx m 1) cst15) in
  let v1 := add32 v1 v5 in
  let v13 := xor32 v13 v1 in
  let v13 := or32 (shl32 v13 (32-16)) (shr32 v13 16) in
  let v9 := add32 v9 v13 in
  let v5 := xor32 v5 v9 in
  let v5 := or32 (shl32 v5 (32-12)) (shr32 v5 12) in
  let v2 := add32 v2 (xor32 (idx m 14) cst13) in
  let v2 := add32 v2 v6 in
  let v14 := xor32 v14 v2 in
  let v14 := or32 (shl32 v14 (32-16)) (shr32 v14 16) in
  let v10 := add32 v10 v14 in
  let v6 := xor32 v6 v10 in
  let v6 := or32 (shl32 v6 (32-12)) (shr32 v6 12) in
  let v3 := add32 v3 (xor32 (idx m 4) cst10) in
  let v3 := add32 v3 v7 in
  let v15 := xor32 v15 v3 in
  let v15 := or32 (shl32 v15 (32-16)) (shr32 v15 16) in
  let v11 := add32 v11 v15 in
  let v7 := xor32 v7 v11 in
  let v7 := or32 (shl32 v7 (32-12)) (shr32 v7 12) in
  let v2 := add32 v2 (xor32 (idx m 13) cst14) in
  let v2 := add32 v2 v6 in
  let v14 := xor32 v14 v2 in
  let v14 := or32 (shl32 v14 (32-8)) (shr32 v14 8) in
  let v10 := add32 v10 v14 in
  let v6 := xor32 v6 v10 in
  let v6 := or32 (shl32 v6 (32-7)) (shr32 v6 7) in
  let v3 := add32 v3 (xor32 (idx m 10) cst4) in
  let v3 := add32 v3 v7 in
  let v15 := xor32 v15 v3 in
  let v15 := or32 (shl32 v15 (32-8)) (shr32 v15 8) in
  let v11 := add32 v11 v15 in
  let v7 := xor32 v7 v11 in
  let v7 := or32 (shl32 v7 (32-7)) (shr32 v7 7) in
  let v1 := add32 v1 (xor32 (idx m 15) cst1) in
  let v1 := add32 v1 v5 in
  let v13 := xor32 v13 v1 in
  let v13 := or32 (shl32 v13 (32-8)) (shr32 v13 8) in
  let v9 := add32 v9 v13 in
  let v5 := xor32 v5 v9 in
  let v5 := or32 (shl32 v5 (32-7)) (shr32 v5 7) in
  let v0 := add32 v0 (xor32 (idx m 5) cst12) in
  let v0 := add32 v0 v4 in
  let v12 := xor32 v12 v0 in
  let v12 := or32 (shl32 v12 (32-8)) (shr32 v12 8) in
  let v8 := add32 v8 v12 in
  let v4 := xor32 v4 v8 in
  let v4 := or32 (shl32 v4 (32-7)) (shr32 v4 7) in
  let v0 := add32 v0 (xor32 (idx m 0) cst7) in
  let v0 := add32 v0 v5 in
  let v15 := xor32 v15 v0 in
  let v15 := or32 (shl32 v15 (32-16)) (shr32 v15 16) in
  let v10 := add32 v10 v15 in
  let v5 := xor32 v5 v10 in
  let v5 := or32 (shl32 v5 (32-12)) (shr32 v5 12) in
  let v1 := add32 v1 (xor32 (idx m 6) cst3) in
  let v1 := add32 v1 v6 in
  let v12 := xor32 v12 v1 in
  let v12 := or32 (shl32 v12 (32-16)) (shr32 v12 16) in
  let v11 := add32 v11 v12 in
  let v6 := xor32 v6 v11 in
  let v6 := or32 (shl32 v6 (32-12)) (shr32 v6 12) in
  let v2 := add32 v2 (xor32 (idx m 9) cst2) in
  let v2 := add32 v2 v7 in
  let v13 := xor32 v13 v2 in
  let v13 := or32 (shl32 v13 (32-16)) (shr32 v13 16) in
  let v8 := add32 v8 v13 in
  let v7 := xor32 v7 v8 in
  let v7 := or32 (shl32 v7 (32-12)) (shr32 v7 12) in
  let v3 := add32 v3 (xor32 (idx m 8) cst11) in
  let v3 := add32 v3 v4 in
  let v14 := xor32 v14 v3 in
  let v14 := or32 (shl32 v14 (32-16)) (shr32 v14 16) in
  let v9 := add32 v9 v14 in
  let v4 := xor32 v4 v9 in
  let v4 := or32 (shl32 v4 (32-12)) (shr32 v4 12) in
  let v2 := add32 v2 (xor32 (idx m 2) cst9) in
  let v2 := add32 v2 v7 in
  let v13 := xor32 v13 v2 in
  let v13 := or32 (shl32 v13 (32-8)) (shr32 v13 8) in
  let v8 := add32 v8 v13 in
  let v7 := xor32 v7 v8 in
  let v7 := or32 (shl32 v7 (32-7)) (shr32 v7 7) in
  let v3 := add32 v3 (xor32 (idx m 11) cst8) in
  let v3 := add32 v3 v4 in
  let v14 := xor32 v14 v3 in
  let v14 := or32 (shl32 v14 (32-8)) (shr32 v14 8) in
  let v9 := add32 v9 v14 in
  let v4 := xor32 v4 v9 in
  let v4 := or32 (shl32 v4 (32-7)) (shr32 v4 7) in
  let v1 := add32 v1 (xor32 (idx m 3) cst6) in
  let v1 := add32 v1 v6 in
  let v12 := xor32 v12 v1 in
  let v12 := or32 (shl32 v12 (32-8)) (shr32 v12 8) in
  let v11 := add32 v11 v12 in
  let v6 := xor32 v6 v11 in
  let v6 := or32 (shl32 v6 (32-7)) (shr32 v6 7) in
  let v0 := add32 v0 (xor32 (idx m 7) cst0) in
  let v0 := add32 v0 v5 in
  let v15 := xor32 v15 v0 in
  let v15 := or32 (shl32 v15 (32-8)) (shr32 v15 8) in
  let v10 := add32 v10 v15 in
  let v5 := xor32 v5 v10 in
  let v5 := or32 (shl32 v5 (32-7)) (shr32 v5 7) in
  (v0, v1, v2, v3, v4, v5, v6, v7, v8, v9, v10, v11, v12, v13, v14, v15).

(** Round 8. *)
Definition round8 (m : list Z) (v : work) : work :=
  let '(v0, v1, v2, v3, v4, v5, v6, v7, v8, v9, v10, v11, v12, v13, v14, v15) := v in
  let v0 := add32 v0 (xor32 (idx m 13) cst11) in
  let v0 := add32 v0 v4 in
  let v12 := xor32 v12 v0 in
  let v12 := or32 (shl32 v12 (32-16)) (shr32 v12 16) in
  let v8 := add32 v8 v12 in
  let v4 := xor32 v4 v8 in
  let v4 := or32 (shl32 v4 (32-12)) (shr32 v4 12) in
  let v1 := add32 v1 (xor32 (idx m 7) cst14) in
  let v1 := add32 v1 v5 in
  let v13 := xor32 v13 v1 in
  let v13 := or32 (shl32 v13 (32-16)) (shr32 v13 16) in
  let v9 := add32 v9 v13 in
  let v5 := xor32 v5 v9 in
  let v5 := or32 (shl32 v5 (32-12)) (shr32 v5 12) in
  let v2 := add32 v2 (xor32 (idx m 12) cst1) in
  let v2 := add32 v2 v6 in
  let v14 := xor32 v14 v2 in
  let v14 := or32 (shl32 v14 (32-16)) (shr32 v14 16) in
  let v10 := add32 v10 v14 in
  let v6 := xor32 v6 v10 in
  let v6 := or32 (shl32 v6 (32-12)) (shr32 v6 12) in
  let v3 := add32 v3 (xor32 (idx m 3) cst9) in
  let v3 := add32 v3 v7 in
  let v15 := xor32 v15 v3 in
  let v15 := or32 (shl32 v15 (32-16)) (shr32 v15 16) in
  let v11 := add32 v11 v15 in
  let v7 := xor32 v7 v11 in
  let v7 := or32 (shl32 v7 (32-12)) (shr32 v7 12) in
  let v2 := add32 v2 (xor32 (idx m 1) cst12) in
  let v2 := add32 v2 v6 in
  let v14 := xor32 v14 v2 in
  let v14 := or32 (shl32 v14 (32-8)) (shr32 v14 8) in
  let v10 := add32 v10 v14 in
  let v6 := xor32 v6 v10 in
  let v6 := or32 (shl32 v6 (32-7)) (shr32 v6 7) in
  let v3 := add32 v3 (xor32 (idx m 9) cst3) in
  let v3 := add32 v3 v7 in
  let v15 := xor32 v15 v3 in
  let v15 := or32 (shl32 v15 (32-8)) (shr32 v15 8) in
  let v11 := add32 v11 v15 in
  let v7 := xor32 v7 v11 in
  let v7 := or32 (shl32 v7 (32-7)) (shr32 v7 7) in
  let v1 := add32 v1 (xor32 (idx m 14) cst7) in
  let v1 := add32 v1 v5 in
  let v13 := xor32 v13 v1 in
  let v13 := or32 (shl32 v13 (32-8)) (shr32 v13 8) in
  let v9 := add32 v9 v13 in
  let v5 := xor32 v5 v9 in
  let v5 := or32 (shl32 v5 (32-7)) (shr32 v5 7) in
  let v0 := add32 v0 (xor32 (idx m 11) cst13) in
  let v0 := add32 v0 v4 in
  let v12 := xor32 v12 v0 in
  let v12 := or32 (shl32 v12 (32-8)) (shr32 v12 8) in
  let v8 := add32 v8 v12 in
  let v4 := xor32 v4 v8 in
  let v4 := or32 (shl32 v4 (32-7)) (shr32 v4 7) in
  let v0 := add32 v0 (xor32 (idx m 5) cst0) in
  let v0 := add32 v0 v5 in
  let v15 := xor32 v15 v0 in
  let v15 := or32 (shl32 v15 (32-16)) (shr32 v15 16) in
  let v10 := add32 v10 v15 in
  let v5 := xor32 v5 v10 in
  let v5 := or32 (shl32 v5 (32-12)) (shr32 v5 12) in
  let v1 := add32 v1 (xor32 (idx m 15) cst4) in
  let v1 := add32 v1 v6 in
  let v12 := xor32 v12 v1 in
  let v12 := or32 (shl32 v12 (32-16)) (shr32 v12 16) in
  let v11 := add32 v11 v12 in
  let v6 := xor32 v6 v11 in
  let v6 := or32 (shl32 v6 (32-12)) (shr32 v6 12) in
  let v2 := add32 v2 (xor32 (idx m 8) cst6) in
  let v2 := add32 v2 v7 in
  let v13 := xor32 v13 v2 in
  let v13 := or32 (shl32 v13 (32-16)) (shr32 v13 16) in
  let v8 := add32 v8 v13 in
  let v7 := xor32 v7 v8 in
  let v7 := or32 (shl32 v7 (32-12)) (shr32 v7 12) in
  let v3 := add32 v3 (xor32 (idx m 2) cst10) in
  let v3 := add32 v3 v4 in
  let v14 := xor32 v14 v3 in
  let v14 := or32 (shl32 v14 (32-16)) (shr32 v14 16) in
  let v9 := add32 v9 v14 in
  let v4 := xor32 v4 v9 in
  let v4 := or32 (shl32 v4 (32-12)) (shr32 v4 12) in
  let v2 := add32 v2 (xor32 (idx m 6) cst8) in
  let v2 := add32 v2 v7 in
  let v13 := xor32 v13 v2 in
  let v13 := or32 (shl32 v13 (32-8)) (shr32 v13 8) in
  let v8 := add32 v8 v13 in
  let v7 := xor32 v7 v8 in
  let v7 := or32 (shl32 v7 (32-7)) (shr32 v7 7) in
  let v3 := add32 v3 (xor32 (idx m 10) cst2) in
  let v3 := add32 v3 v4 in
  let v14 := xor32 v14 v3 in
  let v14 := or32 (shl32 v14 (32-8)) (shr32 v14 8) in
  let v9 := add32 v9 v14 in
  let v4 := xor32 v4 v9 in
  let v4 := or32 (shl32 v4 (32-7)) (shr32 v4 7) in
  let v1 := add32 v1 (xor32 (idx m 4) cst15) in
  let v1 := add32 v1 v6 in
  let v12 := xor32 v12 v1 in
  let v12 := or32 (shl32 v12 (32-8)) (shr32 v12 8) in
  let v11 := add32 v11 v12 in
  let v6 := xor32 v6 v11 in
  let v6 := or32 (shl32 v6 (32-7)) (shr32 v6 7) in
  let v0 := add32 v0 (xor32 (idx m 0) cst5) in
  let v0 := add32 v0 v5 in
  let v15 := xor32 v15 v0 in
  let v15 := or32 (shl32 v15 (32-8)) (shr32 v15 8) in
  let v10 := add32 v10 v15 in
  let v5 := xor32 v5 v10 in
  let v5 := or32 (shl32 v5 (32-7)) (shr32 v5 7) in
  (v0, v1, v2, v3, v4, v5, v6, v7, v8, v9, v10, v11, v12, v13, v14, v15).

(** Round 9. *)
Definition round9 (m : list Z) (v : work) : work :=
  let '(v0, v1, v2, v3, v4, v5, v6, v7, v8, v9, v10, v11, v12, v13, v14, v15) := v in
  let v0 := add32 v0 (xor32 (idx m 6) cst15) in
  let v0 := add32 v0 v4 in
  let v12 := xor32 v12 v0 in
  let v12 := or32 (shl32 v12 (32-16)) (shr32 v12 16) in
  let v8 := add32 v8 v12 in
  let v4 := xor32 v4 v8 in
  let v4 := or32 (shl32 v4 (32-12)) (shr32 v4 12) in
  let v1 := add32 v1 (xor32 (idx m 14) cst9) in
  let v1 := add32 v1 v5 in
  let v13 := xor32 v13 v1 in
  let v13 := or32 (shl32 v13 (32-16)) (shr32 v13 16) in
  let v9 := add32 v9 v13 in
  let v5 := xor32 v5 v9 in
  let v5 := or32 (shl32 v5 (32-12)) (shr32 v5 12) in
  let v2 := add32 v2 (xor32 (idx m 11) cst3) in
  let v2 := add32 v2 v6 in
  let v14 := xor32 v14 v2 in
  let v14 := or32 (shl32 v14 (32-16)) (shr32 v14 16) in
  let v10 := add32 v10 v14 in
  let v6 := xor32 v6 v10 in
  let v6 := or32 (shl32 v6 (32-12)) (shr32 v6 12) in
  let v3 := add32 v3 (xor32 (idx m 0) cst8) in
  let v3 := add32 v3 v7 in
  let v15 := xor32 v15 v3 in
  let v15 := or32 (shl32 v15 (32-16)) (shr32 v15 16) in
  let v11 := add32 v11 v15 in
  let v7 := xor32 v7 v11 in
  let v7 := or32 (shl32 v7 (32-12)) (shr32 v7 12) in
  let v2 := add32 v2 (xor32 (idx m 3) cst11) in
  let v2 := add32 v2 v6 in
  let v14 := xor32 v14 v2 in
  let v14 := or32 (shl32 v14 (32-8)) (shr32 v14 8) in
  let v10 := add32 v10 v14 in
  let v6 := xor32 v6 v10 in
  let v6 := or32 (shl32 v6 (32-7)) (shr32 v6 7) in
  let v3 := add32 v3 (xor32 (idx m 8) cst0) in
  let v3 := add32 v3 v7 in
  let v15 := xor32 v15 v3 in
  let v15 := or32 (shl32 v15 (32-8)) (shr32 v15 8) in
  let v11 := add32 v11 v15 in
  let v7 := xor32 v7 v11 in
  let v7 := or32 (shl32 v7 (32-7)) (shr32 v7 7) in
  let v1 := add32 v1 (xor32 (idx m 9) cst14) in
  let v1 := add32 v1 v5 in
  let v13 := xor32 v13 v1 in
  let v13 := or32 (shl32 v13 (32-8)) (shr32 v13 8) in
  let v9 := add32 v9 v13 in
  let v5 := xor32 v5 v9 in
  let v5 := or32 (shl32 v5 (32-7)) (shr32 v5 7) in
  let v0 := add32 v0 (xor32 (idx m 15) cst6) in
  let v0 := add32 v0 v4 in
  let v12 := xor32 v12 v0 in
  let v12 := or32 (shl32 v12 (32-8)) (shr32 v12 8) in
  let v8 := add32 v8 v12 in
  let v4 := xor32 v4 v8 in
  let v4 := or32 (shl32 v4 (32-7)) (shr32 v4 7) in
  let v0 := add32 v0 (xor32 (idx m 12) cst2) in
  let v0 := add32 v0 v5 in
  let v15 := xor32 v15 v0 in
  let v15 := or32 (shl32 v15 (32-16)) (shr32 v15 16) in
  let v10 := add32 v10 v15 in
  let v5 := xor32 v5 v10 in
  let v5 := or32 (shl32 v5 (32-12)) (shr32 v5 12) in
  let v1 := add32 v1 (xor32 (idx m 13) cst7) in
  let v1 := add32 v1 v6 in
  let v12 := xor32 v12 v1 in
  let v12 := or32 (shl32 v12 (32-16)) (shr32 v12 16) in
  let v11 := add32 v11 v12 in
  let v6 := xor32 v6 v11 in
  let v6 := or32 (shl32 v6 (32-12)) (shr32 v6 12) in
  let v2 := add32 v2 (xor32 (idx m 1) cst4) in
  let v2 := add32 v2 v7 in
  let v13 := xor32 v13 v2 in
  let v13 := or32 (shl32 v13 (32-16)) (shr32 v13 16) in
  let v8 := add32 v8 v13 in
  let v7 := xor32 v7 v8 in
  let v7 := or32 (shl32 v7 (32-12)) (shr32 v7 12) in
  let v3 := add32 v3 (xor32 (idx m 10) cst5) in
  let v3 := add32 v3 v4 in
  let v14 := xor32 v14 v3 in
  let v14 := or32 (shl32 v14 (32-16)) (shr32 v14 16) in
  let v9 := add32 v9 v14 in
  let v4 := xor32 v4 v9 in
  let v4 := or32 (shl32 v4 (32-12)) (shr32 v4 12) in
  let v2 := add32 v2 (xor32 (idx m 4) cst1) in
  let v2 := add32 v2 v7 in
  let v13 := xor32 v13 v2 in
  let v13 := or32 (shl32 v13 (32-8)) (shr32 v13 8) in
  let v8 := add32 v8 v13 in
  let v7 := xor32 v7 v8 in
  let v7 := or32 (shl32 v7 (32-7)) (shr32 v7 7) in
  let v3 := add32 v3 (xor32 (idx m 5) cst10) in
  let v3 := add32 v3 v4 in
  let v14 := xor32 v14 v3 in
  let v14 := or32 (shl32 v14 (32-8)) (shr32 v14 8) in
  let v9 := add32 v9 v14 in
  let v4 := xor32 v4 v9 in
  let v4 := or32 (shl32 v4 (32-7)) (shr32 v4 7) in
  let v1 := add32 v1 (xor32 (idx m 7) cst13) in
  let v1 := add32 v1 v6 in
  let v12 := xor32 v12 v1 in
  let v12 := or32 (shl32 v12 (32-8)) (shr32 v12 8) in
  let v11 := add32 v11 v12 in
  let v6 := xor32 v6 v11 in
  let v6 := or32 (shl32 v6 (32-7)) (shr32 v6 7) in
  let v0 := add32 v0 (xor32 (idx m 2) cst12) in
  let v0 := add32 v0 v5 in
  let v15 := xor32 v15 v0 in
  let v15 := or32 (shl32 v15 (32-8)) (shr32 v15 8) in
  let v10 := add32 v10 v15 in
  let v5 := xor32 v5 v10 in
  let v5 := or32 (shl32 v5 (32-7)) (shr32 v5 7) in
  (v0, v1, v2, v3, v4, v5, v6, v7, v8, v9, v10, v11, v12, v13, v14, v15).

(** Round 10. *)
Definition round10 (m : list Z) (v : work) : work :=
  let '(v0, v1, v2, v3, v4, v5, v6, v7, v8, v9, v10, v11, v12, v13, v14, v15) := v in
  let v0 := add32 v0 (xor32 (idx m 10) cst2) in
  let v0 := add32 v0 v4 in
  let v12 := xor32 v12 v0 in
  let v12 := or32 (shl32 v12 (32-16)) (shr32 v12 16) in
  let v8 := add32 v8 v12 in
  let v4 := xor32 v4 v8 in
  let v4 := or32 (shl32 v4 (32-12)) (shr32 v4 12) in
  let v1 := add32 v1 (xor32 (idx m 8) cst4) in
  let v1 := add32 v1 v5 in
  let v13 := xor32 v13 v1 in
  let v13 := or32 (shl32 v13 (32-16)) (shr32 v13 16) in
  let v9 := add32 v9 v13 in
  let v5 := xor32 v5 v9 in
  let v5 := or32 (shl32 v5 (32-12)) (shr32 v5 12) in
  let v2 := add32 v2 (xor32 (idx m 7) cst6) in
  let v2 := add32 v2 v6 in
  let v14 := xor32 v14 v2 in
  let v14 := or32 (shl32 v14 (32-16)) (shr32 v14 16) in
  let v10 := add32 v10 v14 in
  let v6 := xor32 v6 v10 in
  let v6 := or32 (shl32 v6 (32-12)) (shr32 v6 12) in
  let v3 := add32 v3 (xor32 (idx m 1) cst5) in
  let v3 := add32 v3 v7 in
  let v15 := xor32 v15 v3 in
  let v15 := or32 (shl32 v15 (32-16)) (shr32 v15 16) in
  let v11 := add32 v11 v15 in
  let v7 := xor32 v7 v11 in
  let v7 := or32 (shl32 v7 (32-12)) (shr32 v7 12) in
  let v2 := add32 v2 (xor32 (idx m 6) cst7) in
  let v2 := add32 v2 v6 in
  let v14 := xor32 v14 v2 in
  let v14 := or32 (shl32 v14 (32-8)) (shr32 v14 8) in
  let v10 := add32 v10 v14 in
  let v6 := xor32 v6 v10 in
  let v6 := or32 (shl32 v6 (32-7)) (shr32 v6 7) in
  let v3 := add32 v3 (xor32 (idx m 5) cst1) in
  let v3 := add32 v3 v7 in
  let v15 := xor32 v15 v3 in
  let v15 := or32 (shl32 v15 (32-8)) (shr32 v15 8) in
  let v11 := add32 v11 v15 in
  let v7 := xor32 v7 v11 in
  let v7 := or32 (shl32 v7 (32-7)) (shr32 v7 7) in
  let v1 := add32 v1 (xor32 (idx m 4) cst8) in
  let v1 := add32 v1 v5 in
  let v13 := xor32 v13 v1 in
  let v13 := or32 (shl32 v13 (32-8)) (shr32 v13 8) in
  let v9 := add32 v9 v13 in
  let v5 := xor32 v5 v9 in
  let v5 := or32 (shl32 v5 (32-7)) (shr32 v5 7) in
  let v0 := add32 v0 (xor32 (idx m 2) cst10) in
  let v0 := add32 v0 v4 in
  let v12 := xor32 v12 v0 in
  let v12 := or32 (shl32 v12 (32-8)) (shr32 v12 8) in
  let v8 := add32 v8 v12 in
  let v4 := xor32 v4 v8 in
  let v4 := or32 (shl32 v4 (32-7)) (shr32 v4 7) in
  let v0 := add32 v0 (xor32 (idx m 15) cst11) in
  let v0 := add32 v0 v5 in
  let v15 := xor32 v15 v0 in
  let v15 := or32 (shl32 v15 (32-16)) (shr32 v15 16) in
  let v10 := add32 v10 v15 in
  let v5 := xor32 v5 v10 in
  let v5 := or32 (shl32 v5 (32-12)) (shr32 v5 12) in
  let v1 := add32 v1 (xor32 (idx m 9) cst14) in
  let v1 := add32 v1 v6 in
  let v12 := xor32 v12 v1 in
  let v12 := or32 (shl32 v12 (32-16)) (shr32 v12 16) in
  let v11 := add32 v11 v12 in
  let v6 := xor32 v6 v11 in
  let v6 := or32 (shl32 v6 (32-12)) (shr32 v6 12) in
  let v2 := add32 v2 (xor32 (idx m 3) cst12) in
  let v2 := add32 v2 v7 in
  let v13 := xor32 v13 v2 in
  let v13 := or32 (shl32 v13 (32-16)) (shr32 v13 16) in
  let v8 := add32 v8 v13 in
  let v7 := xor32 v7 v8 in
  let v7 := or32 (shl32 v7 (32-12)) (shr32 v7 12) in
  let v3 := add32 v3 (xor32 (idx m 13) cst0) in
  let v3 := add32 v3 v4 in
  let v14 := xor32 v14 v3 in
  let v14 := or32 (shl32 v14 (32-16)) (shr32 v14 16) in
  let v9 := add32 v9 v14 in
  let v4 := xor32 v4 v9 in
  let v4 := or32 (shl32 v4 (32-12)) (shr32 v4 12) in
  let v2 := add32 v2 (xor32 (idx m 12) cst3) in
  let v2 := add32 v2 v7 in
  let v13 := xor32 v13 v2 in
  let v13 := or32 (shl32 v13 (32-8)) (shr32 v13 8) in
  let v8 := add32 v8 v13 in
  let v7 := xor32 v7 v8 in
  let v7 := or32 (shl32 v7 (32-7)) (shr32 v7 7) in
  let v3 := add32 v3 (xor32 (idx m 0) cst13) in
  let v3 := add32 v3 v4 in
  let v14 := xor32 v14 v3 in
  let v14 := or32 (shl32 v14 (32-8)) (shr32 v14 8) in
  let v9 := add32 v9 v14 in
  let v4 := xor32 v4 v9 in
  let v4 := or32 (shl32 v4 (32-7)) (shr32 v4 7) in
  let v1 := add32 v1 (xor32 (idx m 14) cst9) in
  let v1 := add32 v1 v6 in
  let v12 := xor32 v12 v1 in
  let v12 := or32 (shl32 v12 (32-8)) (shr32 v12 8) in
  let v11 := add32 v11 v12 in
  let v6 := xor32 v6 v11 in
  let v6 := or32 (shl32 v6 (32-7)) (shr32 v6 7) in
  let v0 := add32 v0 (xor32 (idx m 11) cst15) in
  let v0 := add32 v0 v5 in
  let v15 := xor32 v15 v0 in
  let v15 := or32 (shl32 v15 (32-8)) (shr32 v15 8) in
  let v10 := add32 v10 v15 in
  let v5 := xor32 v5 v10 in
  let v5 := or32 (shl32 v5 (32-7)) (shr32 v5 7) in
  (v0, v1, v2, v3, v4, v5, v6, v7, v8, v9, v10, v11, v12, v13, v14, v15).

(** Round 11. *)
Definition round11 (m : list Z) (v : work) : work :=
  let '(v0, v1, v2, v3, v4, v5, v6, v7, v8, v9, v10, v11, v12, v13, v14, v15) := v in
  let v0 := add32 v0 (xor32 (idx m 0) cst1) in
  let v0 := add32 v0 v4 in
  let v12 := xor32 v12 v0 in
  let v12 := or32 (shl32 v12 (32-16)) (shr32 v12 16) in
  let v8 := add32 v8 v12 in
  let v4 := xor32 v4 v8 in
  let v4 := or32 (shl32 v4 (32-12)) (shr32 v4 12) in
  let v1 := add32 v1 (xor32 (idx m 2) cst3) in
  let v1 := add32 v1 v5 in
  let v13 := xor32 v13 v1 in
  let v13 := or32 (shl32 v13 (32-16)) (shr32 v13 16) in
  let v9 := add32 v9 v13 in
  let v5 := xor32 v5 v9 in
  let v5 := or32 (shl32 v5 (32-12)) (shr32 v5 12) in
  let v2 := add32 v2 (xor32 (idx m 4) cst5) in
  let v2 := add32 v2 v6 in
  let v14 := xor32 v14 v2 in
  let v14 := or32 (shl32 v14 (32-16)) (shr32 v14 16) in
  let v10 := add32 v10 v14 in
  let v6 := xor32 v6 v10 in
  let v6 := or32 (shl32 v6 (32-12)) (shr32 v6 12) in
  let v3 := add32 v3 (xor32 (idx m 6) cst7) in
  let v3 := add32 v3 v7 in
  let v15 := xor32 v15 v3 in
  let v15 := or32 (shl32 v15 (32-16)) (shr32 v15 16) in
  let v11 := add32 v11 v15 in
  let v7 := xor32 v7 v11 in
  let v7 := or32 (shl32 v7 (32-12)) (shr32 v7 12) in
  let v2 := add32 v2 (xor32 (idx m 5) cst4) in
  let v2 := add32 v2 v6 in
  let v14 := xor32 v14 v2 in
  let v14 := or32 (shl32 v14 (32-8)) (shr32 v14 8) in
  let v10 := add32 v10 v14 in
  let v6 := xor32 v6 v10 in
  let v6 := or32 (shl32 v6 (32-7)) (shr32 v6 7) in
  let v3 := add32 v3 (xor32 (idx m 7) cst6) in
  let v3 := add32 v3 v7 in
  let v15 := xor32 v15 v3 in
  let v15 := or32 (shl32 v15 (32-8)) (shr32 v15 8) in
  let v11 := add32 v11 v15 in
  let v7 := xor32 v7 v11 in
  let v7 := or32 (shl32 v7 (32-7)) (shr32 v7 7) in
  let v1 := add32 v1 (xor32 (idx m 3) cst2) in
  let v1 := add32 v1 v5 in
  let v13 := xor32 v13 v1 in
  let v13 := or32 (shl32 v13 (32-8)) (shr32 v13 8) in
  let v9 := add32 v9 v13 in
  let v5 := xor32 v5 v9 in
  let v5 := or32 (shl32 v5 (32-7)) (shr32 v5 7) in
  let v0 := add32 v0 (xor32 (idx m 1) cst0) in
  let v0 := add32 v0 v4 in
  let v12 := xor32 v12 v0 in
  let v12 := or32 (shl32 v12 (32-8)) (shr32 v12 8) in
  let v8 := add32 v8 v12 in
  let v4 := xor32 v4 v8 in
  let v4 := or32 (shl32 v4 (32-7)) (shr32 v4 7) in
  let v0 := add32 v0 (xor32 (idx m 8) cst9) in
  let v0 := add32 v0 v5 in
  let v15 := xor32 v15 v0 in
  let v15 := or32 (shl32 v15 (32-16)) (shr32 v15 16) in
  let v10 := add32 v10 v15 in
  let v5 := xor32 v5 v10 in
  let v5 := or32 (shl32 v5 (32-12)) (shr32 v5 12) in
  let v1 := add32 v1 (xor32 (idx m 10) cst11) in
  let v1 := add32 v1 v6 in
  let v12 := xor32 v12 v1 in
  let v12 := or32 (shl32 v12 (32-16)) (shr32 v12 16) in
  let v11 := add32 v11 v12 in
  let v6 := xor32 v6 v11 in
  let v6 := or32 (shl32 v6 (32-12)) (shr32 v6 12) in
  let v2 := add32 v2 (xor32 (idx m 12) cst13) in
  let v2 := add32 v2 v7 in
  let v13 := xor32 v13 v2 in
  let v13 := or32 (shl32 v13 (32-16)) (shr32 v13 16) in
  let v8 := add32 v8 v13 in
  let v7 := xor32 v7 v8 in
  let v7 := or32 (shl32 v7 (32-12)) (shr32 v7 12) in
  let v3 := add32 v3 (xor32 (idx m 14) cst15) in
  let v3 := add32 v3 v4 in
  let v14 := xor32 v14 v3 in
  let v14 := or32 (shl32 v14 (32-16)) (shr32 v14 16) in
  let v9 := add32 v9 v14 in
  let v4 := xor32 v4 v9 in
  let v4 := or32 (shl32 v4 (32-12)) (shr32 v4 12) in
  let v2 := add32 v2 (xor32 (idx m 13) cst12) in
  let v2 := add32 v2 v7 in
  let v13 := xor32 v13 v2 in
  let v13 := or32 (shl32 v13 (32-8)) (shr32 v13 8) in
  let v8 := add32 v8 v13 in
  let v7 := xor32 v7 v8 in
  let v7 := or32 (shl32 v7 (32-7)) (shr32 v7 7) in
  let v3 := add32 v3 (xor32 (idx m 15) cst14) in
  let v3 := add32 v3 v4 in
  let v14 := xor32 v14 v3 in
  let v14 := or32 (shl32 v14 (32-8)) (shr32 v14 8) in
  let v9 := add32 v9 v14 in
  let v4 := xor32 v4 v9 in
  let v4 := or32 (shl32 v4 (32-7)) (shr32 v4 7) in
  let v1 := add32 v1 (xor32 (idx m 11) cst10) in
  let v1 := add32 v1 v6 in
  let v12 := xor32 v12 v1 in
  let v12 := or32 (shl32 v12 (32-8)) (shr32 v12 8) in
  let v11 := add32 v11 v12 in
  let v6 := xor32 v6 v11 in
  let v6 := or32 (shl32 v6 (32-7)) (shr32 v6 7) in
  let v0 := add32 v0 (xor32 (idx m 9) cst8) in
  let v0 := add32 v0 v5 in
  let v15 := xor32 v15 v0 in
  let v15 := or32 (shl32 v15 (32-8)) (shr32 v15 8) in
  let v10 := add32 v10 v15 in
  let v5 := xor32 v5 v10 in
  let v5 := or32 (shl32 v5 (32-7)) (shr32 v5 7) in
  (v0, v1, v2, v3, v4, v5, v6, v7, v8, v9, v10, v11, v12, v13, v14, v15).

(** Round 12. *)
Definition round12 (m : list Z) (v : work) : work :=
  let '(v0, v1, v2, v3, v4, v5, v6, v7, v8, v9, v10, v11, v12, v13, v14, v15) := v in
  let v0 := add32 v0 (xor32 (idx m 14) cst10) in
  let v0 := add32 v0 v4 in
  let v12 := xor32 v12 v0 in
  let v12 := or32 (shl32 v12 (32-16)) (shr32 v12 16) in
  let v8 := add32 v8 v12 in
  let v4 := xor32 v4 v8 in
  let v4 := or32 (shl32 v4 (32-12)) (shr32 v4 12) in
  let v1 := add32 v1 (xor32 (idx m 4) cst8) in
  let v1 := add32 v1 v5 in
  let v13 := xor32 v13 v1 in
  let v13 := or32 (shl32 v13 (32-16)) (shr32 v13 16) in
  let v9 := add32 v9 v13 in
  let v5 := xor32 v5 v9 in
  let v5 := or32 (shl32 v5 (32-12)) (shr32 v5 12) in
  let v2 := add32 v2 (xor32 (idx m 9) cst15) in
  let v2 := add32 v2 v6 in
  let v14 := xor32 v14 v2 in
  let v14 := or32 (shl32 v14 (32-16)) (shr32 v14 16) in
  let v10 := add32 v10 v14 in
  let v6 := xor32 v6 v10 in
  let v6 := or32 (shl32 v6 (32-12)) (shr32 v6 12) in
  let v3 := add32 v3 (xor32 (idx m 13) cst6) in
  let v3 := add32 v3 v7 in
  let v15 := xor32 v15 v3 in
  let v15 := or32 (shl32 v15 (32-16)) (shr32 v15 16) in
  let v11 := add32 v11 v15 in
  let v7 := xor32 v7 v11 in
  let v7 := or32 (shl32 v7 (32-12)) (shr32 v7 12) in
  let v2 := add32 v2 (xor32 (idx m 15) cst9) in
  let v2 := add32 v2 v6 in
  let v14 := xor32 v14 v2 in
  let v14 := or32 (shl32 v14 (32-8)) (shr32 v14 8) in
  let v10 := add32 v10 v14 in
  let v6 := xor32 v6 v10 in
  let v6 := or32 (shl32 v6 (32-7)) (shr32 v6 7) in
  let v3 := add32 v3 (xor32 (idx m 6) cst13) in
  let v3 := add32 v3 v7 in
  let v15 := xor32 v15 v3 in
  let v15 := or32 (shl32 v15 (32-8)) (shr32 v15 8) in
  let v11 := add32 v11 v15 in
  let v7 := xor32 v7 v11 in
  let v7 := or32 (shl32 v7 (32-7)) (shr32 v7 7) in
  let v1 := add32 v1 (xor32 (idx m 8) cst4) in
  let v1 := add32 v1 v5 in
  let v13 := xor32 v13 v1 in
  let v13 := or32 (shl32 v13 (32-8)) (shr32 v13 8) in
  let v9 := add32 v9 v13 in
  let v5 := xor32 v5 v9 in
  let v5 := or32 (shl32 v5 (32-7)) (shr32 v5 7) in
  let v0 := add32 v0 (xor32 (idx m 10) cst14) in
  let v0 := add32 v0 v4 in
  let v12 := xor32 v12 v0 in
  let v12 := or32 (shl32 v12 (32-8)) (shr32 v12 8) in
  let v8 := add32 v8 v12 in
  let v4 := xor32 v4 v8 in
  let v4 := or32 (shl32 v4 (32-7)) (shr32 v4 7) in
  let v0 := add32 v0 (xor32 (idx m 1) cst12) in
  let v0 := add32 v0 v5 in
  let v15 := xor32 v15 v0 in
  let v15 := or32 (shl32 v15 (32-16)) (shr32 v15 16) in
  let v10 := add32 v10 v15 in
  let v5 := xor32 v5 v10 in
  let v5 := or32 (shl32 v5 (32-12)) (shr32 v5 12) in
  let v1 := add32 v1 (xor32 (idx m 0) cst2) in
  let v1 := add32 v1 v6 in
  let v12 := xor32 v12 v1 in
  let v12 := or32 (shl32 v12 (32-16)) (shr32 v12 16) in
  let v11 := add32 v11 v12 in
  let v6 := xor32 v6 v11 in
  let v6 := or32 (shl32 v6 (32-12)) (shr32 v6 12) in
  let v2 := add32 v2 (xor32 (idx m 11) cst7) in
  let v2 := add32 v2 v7 in
  let v13 := xor32 v13 v2 in
  let v13 := or32 (shl32 v13 (32-16)) (shr32 v13 16) in
  let v8 := add32 v8 v13 in
  let v7 := xor32 v7 v8 in
  let v7 := or32 (shl32 v7 (32-12)) (shr32 v7 12) in
  let v3 := add32 v3 (xor32 (idx m 5) cst3) in
  let v3 := add32 v3 v4 in
  let v14 := xor32 v14 v3 in
  let v14 := or32 (shl32 v14 (32-16)) (shr32 v14 16) in
  let v9 := add32 v9 v14 in
  let v4 := xor32 v4 v9 in
  let v4 := or32 (shl32 v4 (32-12)) (shr32 v4 12) in
  let v2 := add32 v2 (xor32 (idx m 7) cst11) in
  let v2 := add32 v2 v7 in
  let v13 := xor32 v13 v2 in
  let v13 := or32 (shl32 v13 (32-8)) (shr32 v13 8) in
  let v8 := add32 v8 v13 in
  let v7 := xor32 v7 v8 in
  let v7 := or32 (shl32 v7 (32-7)) (shr32 v7 7) in
  let v3 := add32 v3 (xor32 (idx m 3) cst5) in
  let v3 := add32 v3 v4 in
  let v14 := xor32 v14 v3 in
  let v14 := or32 (shl32 v14 (32-8)) (shr32 v14 8) in
  let v9 := add32 v9 v14 in
  let v4 := xor32 v4 v9 in
  let v4 := or32 (shl32 v4 (32-7)) (shr32 v4 7) in
  let v1 := add32 v1 (xor32 (idx m 2) cst0) in
  let v1 := add32 v1 v6 in
  let v12 := xor32 v12 v1 in
  let v12 := or32 (shl32 v12 (32-8)) (shr32 v12 8) in
  let v11 := add32 v11 v12 in
  let v6 := xor32 v6 v11 in
  let v6 := or32 (shl32 v6 (32-7)) (shr32 v6 7) in
  let v0 := add32 v0 (xor32 (idx m 12) cst1) in
  let v0 := add32 v0 v5 in
  let v15 := xor32 v15 v0 in
  let v15 := or32 (shl32 v15 (32-8)) (shr32 v15 8) in
  let v10 := add32 v10 v15 in
  let v5 := xor32 v5 v10 in
  let v5 := or32 (shl32 v5 (32-7)) (shr32 v5 7) in
  (v0, v1, v2, v3, v4, v5, v6, v7, v8, v9, v10, v11, v12, v13, v14, v15).

(** Round 13. *)
Definition round13 (m : list Z) (v : work) : work :=
  let '(v0, v1, v2, v3, v4, v5, v6, v7, v8, v9, v10, v11, v12, v13, v14, v15) := v in
  let v0 := add32 v0 (xor32 (idx m 11) cst8) in
  let v0 := add32 v0 v4 in
  let v12 := xor32 v12 v0 in
  let v12 := or32 (shl32 v12 (32-16)) (shr32 v12 16) in
  let v8 := add32 v8 v12 in
  let v4 := xor32 v4 v8 in
  let v4 := or32 (shl32 v4 (32-12)) (shr32 v4 12) in
  let v1 := add32 v1 (xor32 (idx m 12) cst0) in
  let v1 := add32 v1 v5 in
  let v13 := xor32 v13 v1 in
  let v13 := or32 (shl32 v13 (32-16)) (shr32 v13 16) in
  let v9 := add32 v9 v13 in
  let v5 := xor32 v5 v9 in
  let v5 := or32 (shl32 v5 (32-12)) (shr32 v5 12) in
  let v2 := add32 v2 (xor32 (idx m 5) cst2) in
  let v2 := add32 v2 v6 in
  let v14 := xor32 v14 v2 in
  let v14 := or32 (shl32 v14 (32-16)) (shr32 v14 16) in
  let v10 := add32 v10 v14 in
  let v6 := xor32 v6 v10 in
  let v6 := or32 (shl32 v6 (32-12)) (shr32 v6 12) in
  let v3 := add32 v3 (xor32 (idx m 15) cst13) in
  let v3 := add32 v3 v7 in
  let v15 := xor32 v15 v3 in
  let v15 := or32 (shl32 v15 (32-16)) (shr32 v15 16) in
  let v11 := add32 v11 v15 in
  let v7 := xor32 v7 v11 in
  let v7 := or32 (shl32 v7 (32-12)) (shr32 v7 12) in
  let v2 := add32 v2 (xor32 (idx m 2) cst5) in
  let v2 := add32 v2 v6 in
  let v14 := xor32 v14 v2 in
  let v14 := or32 (shl32 v14 (32-8)) (shr32 v14 8) in
  let v10 := add32 v10 v14 in
  let v6 := xor32 v6 v10 in
  let v6 := or32 (shl32 v6 (32-7)) (shr32 v6 7) in
  let v3 := add32 v3 (xor32 (idx m 13) cst15) in
  let v3 := add32 v3 v7 in
  let v15 := xor32 v15 v3 in
  let v15 := or32 (shl32 v15 (32-8)) (shr32 v15 8) in
  let v11 := add32 v11 v15 in
  let v7 := xor32 v7 v11 in
  let v7 := or32 (shl32 v7 (32-7)) (shr32 v7 7) in
  let v1 := add32 v1 (xor32 (idx m 0) cst12) in
  let v1 := add32 v1 v5 in
  let v13 := xor32 v13 v1 in
  let v13 := or32 (shl32 v13 (32-8)) (shr32 v13 8) in
  let v9 := add32 v9 v13 in
  let v5 := xor32 v5 v9 in
  let v5 := or32 (shl32 v5 (32-7)) (shr32 v5 7) in
  let v0 := add32 v0 (xor32 (idx m 8) cst11) in
  let v0 := add32 v0 v4 in
  let v12 := xor32 v12 v0 in
  let v12 := or32 (shl32 v12 (32-8)) (shr32 v12 8) in
  let v8 := add32 v8 v12 in
  let v4 := xor32 v4 v8 in
  let v4 := or32 (shl32 v4 (32-7)) (shr32 v4 7) in
  let v0 := add32 v0 (xor32 (idx m 10) cst14) in
  let v0 := add32 v0 v5 in
  let v15 := xor32 v15 v0 in
  let v15 := or32 (shl32 v15 (32-16)) (shr32 v15 16) in
  let v10 := add32 v10 v15 in
  let v5 := xor32 v5 v10 in
  let v5 := or32 (shl32 v5 (32-12)) (shr32 v5 12) in
  let v1 := add32 v1 (xor32 (idx m 3) cst6) in
  let v1 := add32 v1 v6 in
  let v12 := xor32 v12 v1 in
  let v12 := or32 (shl32 v12 (32-16)) (shr32 v12 16) in
  let v11 := add32 v11 v12 in
  let v6 := xor32 v6 v11 in
  let v6 := or32 (shl32 v6 (32-12)) (shr32 v6 12) in
  let v2 := add32 v2 (xor32 (idx m 7) cst1) in
  let v2 := add32 v2 v7 in
  let v13 := xor32 v13 v2 in
  let v13 := or32 (shl32 v13 (32-16)) (shr32 v13 16) in
  let v8 := add32 v8 v13 in
  let v7 := xor32 v7 v8 in
  let v7 := or32 (shl32 v7 (32-12)) (shr32 v7 12) in
  let v3 := add32 v3 (xor32 (idx m 9) cst4) in
  let v3 := add32 v3 v4 in
  let v14 := xor32 v14 v3 in
  let v14 := or32 (shl32 v14 (32-16)) (shr32 v14 16) in
  let v9 := add32 v9 v14 in
  let v4 := xor32 v4 v9 in
  let v4 := or32 (shl32 v4 (32-12)) (shr32 v4 12) in
  let v2 := add32 v2 (xor32 (idx m 1) cst7) in
  let v2 := add32 v2 v7 in
  let v13 := xor32 v13 v2 in
  let v13 := or32 (shl32 v13 (32-8)) (shr32 v13 8) in
  let v8 := add32 v8 v13 in
  let v7 := xor32 v7 v8 in
  let v7 := or32 (shl32 v7 (32-7)) (shr32 v7 7) in
  let v3 := add32 v3 (xor32 (idx m 4) cst9) in
  let v3 := add32 v3 v4 in
  let v14 := xor32 v14 v3 in
  let v14 := or32 (shl32 v14 (32-8)) (shr32 v14 8) in
  let v9 := add32 v9 v14 in
  let v4 := xor32 v4 v9 in
  let v4 := or32 (shl32 v4 (32-7)) (shr32 v4 7) in
  let v1 := add32 v1 (xor32 (idx m 6) cst3) in
  let v1 := add32 v1 v6 in
  let v12 := xor32 v12 v1 in
  let v12 := or32 (shl32 v12 (32-8)) (shr32 v12 8) in
  let v11 := add32 v11 v12 in
  let v6 := xor32 v6 v11 in
  let v6 := or32 (shl32 v6 (32-7)) (shr32 v6 7) in
  let v0 := add32 v0 (xor32 (idx m 14) cst10) in
  let v0 := add32 v0 v5 in
  let v15 := xor32 v15 v0 in
  let v15 := or32 (shl32 v15 (32-8)) (shr32 v15 8) in
  let v10 := add32 v10 v15 in
  let v5 := xor32 v5 v10 in
  let v5 := or32 (shl32 v5 (32-7)) (shr32 v5 7) in
  (v0, v1, v2, v3, v4, v5, v6, v7, v8, v9, v10, v11, v12, v13, v14, v15).

(** Round 14. *)
Definition round14 (m : list Z) (v : work) : work :=
  let '(v0, v1, v2, v3, v4, v5, v6, v7, v8, v9, v10, v11, v12, v13, v14, v15) := v in
  let v0 := add32 v0 (xor32 (idx m 7) cst9) in
  let v0 := add32 v0 v4 in
  let v12 := xor32 v12 v0 in
  let v12 := or32 (shl32 v12 (32-16)) (shr32 v12 16) in
  let v8 := add32 v8 v12 in
  let v4 := xor32 v4 v8 in
  let v4 := or32 (shl32 v4 (32-12)) (shr32 v4 12) in
  let v1 := add32 v1 (xor32 (idx m 3) cst1) in
  let v1 := add32 v1 v5 in
  let v13 := xor32 v13 v1 in
  let v13 := or32 (shl32 v13 (32-16)) (shr32 v13 16) in
  let v9 := add32 v9 v13 in
  let v5 := xor32 v5 v9 in
  let v5 := or32 (shl32 v5 (32-12)) (shr32 v5 12) in
  let v2 := add32 v2 (xor32 (idx m 13) cst12) in
  let v2 := add32 v2 v6 in
  let v14 := xor32 v14 v2 in
  let v14 := or32 (shl32 v14 (32-16)) (shr32 v14 16) in
  let v10 := add32 v10 v14 in
  let v6 := xor32 v6 v10 in
  let v6 := or32 (shl32 v6 (32-12)) (shr32 v6 12) in
  let v3 := add32 v3 (xor32 (idx m 11) cst14) in
  let v3 := add32 v3 v7 in
  let v15 := xor32 v15 v3 in
  let v15 := or32 (shl32 v15 (32-16)) (shr32 v15 16) in
  let v11 := add32 v11 v15 in
  let v7 := xor32 v7 v11 in
  let v7 := or32 (shl32 v7 (32-12)) (shr32 v7 12) in
  let v2 := add32 v2 (xor32 (idx m 12) cst13) in
  let v2 := add32 v2 v6 in
  let v14 := xor32 v14 v2 in
  let v14 := or32 (shl32 v14 (32-8)) (shr32 v14 8) in
  let v10 := add32 v10 v14 in
  let v6 := xor32 v6 v10 in
  let v6 := or32 (shl32 v6 (32-7)) (shr32 v6 7) in
  let v3 := add32 v3 (xor32 (idx m 14) cst11) in
  let v3 := add32 v3 v7 in
  let v15 := xor32 v15 v3 in
  let v15 := or32 (shl32 v15 (32-8)) (shr32 v15 8) in
  let v11 := add32 v11 v15 in
  let v7 := xor32 v7 v11 in
  let v7 := or32 (shl32 v7 (32-7)) (shr32 v7 7) in
  let v1 := add32 v1 (xor32 (idx m 1) cst3) in
  let v1 := add32 v1 v5 in
  let v13 := xor32 v13 v1 in
  let v13 := or32 (shl32 v13 (32-8)) (shr32 v13 8) in
  let v9 := add32 v9 v13 in
  let v5 := xor32 v5 v9 in
  let v5 := or32 (shl32 v5 (32-7)) (shr32 v5 7) in
  let v0 := add32 v0 (xor32 (idx m 9) cst7) in
  let v0 := add32 v0 v4 in
  let v12 := xor32 v12 v0 in
  let v12 := or32 (shl32 v12 (32-8)) (shr32 v12 8) in
  let v8 := add32 v8 v12 in
  let v4 := xor32 v4 v8 in
  let v4 := or32 (shl32 v4 (32-7)) (shr32 v4 7) in
  let v0 := add32 v0 (xor32 (idx m 2) cst6) in
  let v0 := add32 v0 v5 in
  let v15 := xor32 v15 v0 in
  let v15 := or32 (shl32 v15 (32-16)) (shr32 v15 16) in
  let v10 := add32 v10 v15 in
  let v5 := xor32 v5 v10 in
  let v5 := or32 (shl32 v5 (32-12)) (shr32 v5 12) in
  let v1 := add32 v1 (xor32 (idx m 5) cst10) in
  let v1 := add32 v1 v6 in
  let v12 := xor32 v12 v1 in
  let v12 := or32 (shl32 v12 (32-16)) (shr32 v12 16) in
  let v11 := add32 v11 v12 in
  let v6 := xor32 v6 v11 in
  let v6 := or32 (shl32 v6 (32-12)) (shr32 v6 12) in
  let v2 := add32 v2 (xor32 (idx m 4) cst0) in
  let v2 := add32 v2 v7 in
  let v13 := xor32 v13 v2 in
  let v13 := or32 (shl32 v13 (32-16)) (shr32 v13 16) in
  let v8 := add32 v8 v13 in
  let v7 := xor32 v7 v8 in
  let v7 := or32 (shl32 v7 (32-12)) (shr32 v7 12) in
  let v3 := add32 v3 (xor32 (idx m 15) cst8) in
  let v3 := add32 v3 v4 in
  let v14 := xor32 v14 v3 in
  let v14 := or32 (shl32 v14 (32-16)) (shr32 v14 16) in
  let v9 := add32 v9 v14 in
  let v4 := xor32 v4 v9 in
  let v4 := or32 (shl32 v4 (32-12)) (shr32 v4 12) in
  let v2 := add32 v2 (xor32 (idx m 0) cst4) in
  let v2 := add32 v2 v7 in
  let v13 := xor32 v13 v2 in
  let v13 := or32 (shl32 v13 (32-8)) (shr32 v13 8) in
  let v8 := add32 v8 v13 in
  let v7 := xor32 v7 v8 in
  let v7 := or32 (shl32 v7 (32-7)) (shr32 v7 7) in
  let v3 := add32 v3 (xor32 (idx m 8) cst15) in
  let v3 := add32 v3 v4 in
  let v14 := xor32 v14 v3 in
  let v14 := or32 (shl32 v14 (32-8)) (shr32 v14 8) in
  let v9 := add32 v9 v14 in
  let v4 := xor32 v4 v9 in
  let v4 := or32 (shl32 v4 (32-7)) (shr32 v4 7) in
  let v1 := add32 v1 (xor32 (idx m 10) cst5) in
  let v1 := add32 v1 v6 in
  let v12 := xor32 v12 v1 in
  let v12 := or32 (shl32 v12 (32-8)) (shr32 v12 8) in
  let v11 := add32 v11 v12 in
  let v6 := xor32 v6 v11 in
  let v6 := or32 (shl32 v6 (32-7)) (shr32 v6 7) in
  let v0 := add32 v0 (xor32 (idx m 6) cst2) in
  let v0 := add32 v0 v5 in
  let v15 := xor32 v15 v0 in
  let v15 := or32 (shl32 v15 (32-8)) (shr32 v15 8) in
  let v10 := add32 v10 v15 in
  let v5 := xor32 v5 v10 in
  let v5 := or32 (shl32 v5 (32-7)) (shr32 v5 7) in
  (v0, v1, v2, v3, v4, v5, v6, v7, v8, v9, v10, v11, v12, v13, v14, v15).
(** The fourteen rounds in sequence. *)
Definition rounds (m : list Z) (v : work) : work :=
  round14 m (round13 m (round12 m (round11 m (round10 m (round9 m (round8 m
  (round7 m (round6 m (round5 m (round4 m (round3 m (round2 m (round1 m v))))))))))))).

(** End of the loop body: the working words are folded into the chain value. *)
Definition block_fold (hv : chain) (sv : salt) (v : work) : chain :=
  let '(h0, h1, h2, h3, h4, h5, h6, h7) := hv in
  let '(s0, s1, s2, s3) := sv in
  let '(v0, v1, v2, v3, v4, v5, v6, v7, v8, v9, v10, v11, v12, v13, v14, v15) := v in
  let h0 := xor32 h0 (xor32 (xor32 v0 v8) s0) in
  let h1 := xor32 h1 (xor32 (xor32 v1 v9) s1) in
  let h2 := xor32 h2 (xor32 (xor32 v2 v10) s2) in
  let h3 := xor32 h3 (xor32 (xor32 v3 v11) s3) in
  let h4 := xor32 h4 (xor32 (xor32 v4 v12) s0) in
  let h5 := xor32 h5 (xor32 (xor32 v5 v13) s1) in
  let h6 := xor32 h6 (xor32 (xor32 v6 v14) s2) in
  let h7 := xor32 h7 (xor32 (xor32 v7 v15) s3) in
  (h0, h1, h2, h3, h4, h5, h6, h7).

(** One iteration of the loop of [block]: the compression of the 64-byte
    block at the head of [p].  It returns the chain words and [d.t]. *)
Definition compress (sv : salt) (nt : bool) (hv : chain) (tv : Z) (p : list Z) : chain * Z :=
  let '(v, tv) := block_init hv sv tv nt in
  let m := block_words p in
  let v := rounds m v in
  (block_fold hv sv v, tv).

(** [for len(p) >= BlockSize { ...; p = p[BlockSize:] }] *)
Equations? block_loop (sv : salt) (nt : bool) (hv : chain) (tv : Z) (p : list Z)
  : chain * Z by wf (length p) lt :=
  block_loop sv nt hv tv p with Z_le_dec BlockSize (len p) := {
    | left _ =>
        let '(hv', tv') := compress sv nt hv tv p in
        block_loop sv nt hv' tv' (slice_from p BlockSize)
    | right _ => (hv, tv) }.
Proof.
  unfold slice_from, len, BlockSize in *. rewrite length_skipn. lia.
Qed.

Definition block (d : digest) (p : list Z) : digest :=
  let hv := (idx (h d) 0, idx (h d) 1, idx (h d) 2, idx (h d) 3,
             idx (h d) 4, idx (h d) 5, idx (h d) 6, idx (h d) 7) in
  let sv := (idx (s d) 0, idx (s d) 1, idx (s d) 2, idx (s d) 3) in
  let '((h0, h1, h2, h3, h4, h5, h6, h7), tv) := block_loop sv (nullt d) hv (t d) p in
  set_h (set_t d tv) [h0; h1; h2; h3; h4; h5; h6; h7].

(** ** The streaming interface *)

Definition Reset (d : digest) : digest :=
  let d := if hashSize d =? 224 then set_h d iv224 else set_h d iv256 in
  let d := set_t d 0 in
  let d := set_nx d 0 in
  set_nullt d false.

Definition digest_Size (d : digest) : Z := Z.shiftr (hashSize d) 3.

Definition digest_BlockSize (d : digest) : Z := BlockSize.

(** [Write] as the change of the receiver; its results [(nn, err)] are
    [Write_result]. *)
Definition Write (d : digest) (p : list Z) : digest :=
  let '(d, p) :=
    if 0 <? nx d then
      let n := len p in
      let n := if BlockSize - nx d <? n then BlockSize - nx d else n in
      let '(x', c) := copy_at (x d) (nx d) p in
      let d := set_nx (set_x d x') (nx d + c) in
      let d := if nx d =? BlockSize then set_nx (block d (x d)) 0 else d in
      (d, slice_from p n)
    else (d, p) in
  let '(d, p) :=
    if BlockSize <=? len p then
      let n := Z.ldiff (len p) (BlockSize - 1) in
      (block d (slice_to p n), slice_from p n)
    else (d, p) in
  if 0 <? len p then
    let '(x', c) := copy_at (x d) 0 p in
    set_nx (set_x d x') c
  else d.

Inductive error : Type := errorString (msg : list Z).

Definition Write_result (d : digest) (p : list Z) : Z * option error := (len p, None).

(** The serialisation loop at the end of [checkSum]. *)
Definition checkSum_out (d : digest) : list Z :=
  fst (fold_left
         (fun (st : list Z * Z) (w : Z) =>
            let '(out, j) := st in
            let out := store out (j + 0) (byte (shr32 w 24)) in
            let out := store out (j + 1) (byte (shr32 w 16)) in
            let out := store out (j + 2) (byte (shr32 w 8)) in
            let out := store out (j + 3) (byte (shr32 w 0)) in
            (out, j + 4))
         (slice_to (h d) (Z.shiftr (hashSize d) 5))
         (repeat 0 (Z.to_nat Size), 0)).

(** The eight bytes [len] of the length field, from the bit length [l]. *)
Definition len_bytes (l : Z) : list Z :=
  [byte (shr64 l 56); byte (shr64 l 48); byte (shr64 l 40); byte (shr64 l 32);
   byte (shr64 l 24); byte (shr64 l 16); byte (shr64 l 8); byte l].

(** [checkSum] has a pointer receiver: it changes the digest it is called
    on.  Its three parts are the length field, computed first
    ([checkSum_len]), the padding ([checkSum_pad]), and the length field fed
    last, followed by the serialisation. *)
Definition checkSum_len (d : digest) : list Z :=
  let nx := uint64 (nx d) in
  let l := add64 (t d) (shl64 nx 3) in
  len_bytes l.

Definition checkSum_pad (d : digest) : digest :=
  let nx := uint64 (nx d) in
  if nx =? 55 then
    (* One padding byte. *)
    let d := set_t d (sub64 (t d) 8) in
    if hashSize d =? 224 then Write d [0x80] else Write d [0x81]
  else
    let d :=
      if nx <? 55 then
        (* Enough space to fill the block. *)
        let d := if nx =? 0 then set_nullt d true else d in
        let d := set_t d (sub64 (t d) (sub64 440 (shl64 nx 3))) in
        Write d (slice pad 0 (55 - nx))
      else
        (* Need 2 compressions. *)
        let d := set_t d (sub64 (t d) (sub64 512 (shl64 nx 3))) in
        let d := Write d (slice pad 0 (64 - nx)) in
        let d := set_t d (sub64 (t d) 440) in
        let d := Write d (slice pad 1 56) in
        set_nullt d true in
    let d := if hashSize d =? 224 then Write d [0x00] else Write d [0x01] in
    set_t d (sub64 (t d) 8).

Definition checkSum (d : digest) : digest * list Z :=
  let len := checkSum_len d in
  let d := checkSum_pad d in
  let d := set_t d (sub64 (t d) 64) in
  let d := Write d len in
  (d, checkSum_out d).

(** [Sum] has a value receiver: [checkSum] runs on a copy, the caller's
    digest is what it was.  The pair is the caller's digest after the call
    and the returned slice. *)
Definition Sum (d : digest) (in_ : list Z) : digest * list Z :=
  let '(c, sum) := checkSum d in
  (d, if digest_Size c =? Size224 then in_ ++ slice_to sum Size224 else in_ ++ sum).

(** [setSalt] panics on a salt that is not 16 bytes long: [None]. *)
Definition setSalt (d : digest) (sl : list Z) : option digest :=
  if negb (len sl =? 16) then None
  else Some (set_s d [be32 sl 0; be32 sl 4; be32 sl 8; be32 sl 12]).

Definition New : digest :=
  mkDigest 256 iv256 (repeat 0 4) 0 false (repeat 0 64) 0.

Definition NewSalt (sl : list Z) : option digest := setSalt New sl.

Definition New224 : digest :=
  mkDigest 224 iv224 (repeat 0 4) 0 false (repeat 0 64) 0.

Definition New224Salt (sl : list Z) : option digest := setSalt New224 sl.

Definition Sum256 (data : list Z) : list Z :=
  let d := zero_digest in
  let d := set_hashSize d 256 in
  let d := Reset d in
  let d := Write d data in
  snd (checkSum d).

Definition Sum224 (data : list Z) : list Z :=
  let d := zero_digest in
  let d := set_hashSize d 224 in
  let d := Reset d in
  let d := Write d data in
  let sum := snd (checkSum d) in
  fst (copy_at (repeat 0 (Z.to_nat Size224)) 0 (slice_to sum Size224)).
(** ** Table-driven reference of the compression function

    The compression function as the BLAKE-256 description gives it: a
    16-word working array, fourteen rounds of eight G-mixing operations
    chosen by the permutation table [sigma], and the final combination.
    [block] above is compared with it. *)

Module Reference.

Definition sigma : list (list nat) :=
  [[ 0;  1;  2;  3;  4;  5;  6;  7;  8;  9; 10; 11; 12; 13; 14; 15];
   [14; 10;  4;  8;  9; 15; 13;  6;  1; 12;  0;  2; 11;  7;  5;  3];
   [11;  8; 12;  0;  5;  2; 15; 13; 10; 14;  3;  6;  7;  1;  9;  4];
   [ 7;  9;  3;  1; 13; 12; 11; 14;  2;  6;  5; 10;  4;  0; 15;  8];
   [ 9;  0;  5;  7;  2;  4; 10; 15; 14;  1; 11; 12;  6;  8;  3; 13];
   [ 2; 12;  6; 10;  0; 11;  8;  3;  4; 13;  7;  5; 15; 14;  1;  9];
   [12;  5;  1; 15; 14; 13;  4; 10;  0;  7;  6;  3;  9;  2;  8; 11];
   [13; 11;  7; 14; 12;  1;  3;  9;  5;  0; 15;  4;  8;  6;  2; 10];
   [ 6; 15; 14;  9; 11;  3;  0;  8; 12;  2; 13;  7;  1;  4; 10;  5];
   [10;  2;  8;  4;  7;  6;  1;  5; 15; 11;  9; 14;  3; 12; 13;  0]]%nat.

Definition cst : list Z :=
  [cst0; cst1; cst2; cst3; cst4; cst5; cst6; cst7;
   cst8; cst9; cst10; cst11; cst12; cst13; cst14; cst15].

Definition rotr32 (a n : Z) : Z := or32 (shl32 a (32 - n)) (shr32 a n).

(** [v[k] = w] *)
Fixpoint upd (v : list Z) (k : nat) (w : Z) : list Z :=
  match v, k with
  | [], _ => []
  | _ :: v', O => w :: v'
  | u :: v', S k' => u :: upd v' k' w
  end.

(** The G-mixing operation on the words [a b c d] of [v], with the message
    words [i], [j] and the round constants [j], [i]. *)
Definition G (m : list Z) (i j : nat) (a b c d : nat) (v : list Z) : list Z :=
  let va := nth a v 0 in
  let vb := nth b v 0 in
  let vc := nth c v 0 in
  let vd := nth d v 0 in
  let va := add32 (add32 va (xor32 (idx m i) (nth j cst 0))) vb in
  let vd := rotr32 (xor32 vd va) 16 in
  let vc := add32 vc vd in
  let vb := rotr32 (xor32 vb vc) 12 in
  let va := add32 (add32 va (xor32 (idx m j) (nth i cst 0))) vb in
  let vd := rotr32 (xor32 vd va) 8 in
  let vc := add32 vc vd in
  let vb := rotr32 (xor32 vb vc) 7 in
  upd (upd (upd (upd v a va) b vb) c vc) d vd.

(** A round with the permutation [sg]: four columns, then four diagonals. *)
Definition round_with (m : list Z) (sg : list nat) (v : list Z) : list Z :=
  let p (k : nat) := nth k sg 0%nat in
  let v := G m (p 0%nat) (p 1%nat) 0%nat 4%nat 8%nat 12%nat v in
  let v := G m (p 2%nat) (p 3%nat) 1%nat 5%nat 9%nat 13%nat v in
  let v := G m (p 4%nat) (p 5%nat) 2%nat 6%nat 10%nat 14%nat v in
  let v := G m (p 6%nat) (p 7%nat) 3%nat 7%nat 11%nat 15%nat v in
  let v := G m (p 8%nat) (p 9%nat) 0%nat 5%nat 10%nat 15%nat v in
  let v := G m (p 10%nat) (p 11%nat) 1%nat 6%nat 11%nat 12%nat v in
  let v := G m (p 12%nat) (p 13%nat) 2%nat 7%nat 8%nat 13%nat v in
  let v := G m (p 14%nat) (p 15%nat) 3%nat 4%nat 9%nat 14%nat v in
  v.

(** Round [r] (counted from 1) uses permutation [(r - 1) mod 10]. *)
Definition round (m : list Z) (r : nat) (v : list Z) : list Z :=
  round_with m (nth ((r - 1) mod 10) sigma []) v.

Definition rounds (m : list Z) (v : list Z) : list Z :=
  fold_left (fun v r => round m r v) (seq 1 14) v.


(** Step 1: the block as sixteen big-endian words. *)
Definition words (p : list Z) : list Z :=
  map (fun k => be32 p (4 * k)) (seq 0 16).

(** Step 2: the working array, from the chain value [hl], the salt [sl] and
    the counter [tv] (already advanced); [nt] is the skip-counter flag. *)
Definition init (hl sl : list Z) (tv : Z) (nt : bool) : list Z :=
  map (fun k => nth k hl 0) (seq 0 8)
  ++ map (fun k => xor32 (nth k cst 0) (nth k sl 0)) (seq 0 4)
  ++ map (fun k =>
            let c := nth (4 + k) cst 0 in
            let w := if (k <? 2)%nat then uint32 tv else uint32 (shr64 tv 32) in
            if nt then c else xor32 c w)
         (seq 0 4).

(** Step 4: [chainValue[k] ^= v[k] ^ v[k+8] ^ salt[k mod 4]]. *)
Definition combine (hl sl v : list Z) : list Z :=
  map (fun k =>
         xor32 (nth k hl 0)
               (xor32 (xor32 (nth k v 0) (nth (k + 8) v 0)) (nth (k mod 4) sl 0)))
      (seq 0 8).

Definition compress (sl : list Z) (nt : bool) (hl : list Z) (tv : Z) (p : list Z)
  : list Z * Z :=
  let tv := add64 tv 512 in
  (combine hl sl (rounds (words p) (init hl sl tv nt)), tv).

(** One compression for each full 64-byte block of [p], in order. *)
Equations? compress_blocks (sl : list Z) (nt : bool) (hl : list Z) (tv : Z) (p : list Z)
  : list Z * Z by wf (length p) lt :=
  compress_blocks sl nt hl tv p with Z_le_dec 64 (len p) := {
    | left _ =>
        compress_blocks sl nt (fst (compress sl nt hl tv p)) (snd (compress sl nt hl tv p))
                   (slice_from p 64)
    | right _ => (hl, tv) }.
Proof.
  unfold slice_from, len in *. rewrite length_skipn. lia.
Qed.

Definition block (d : digest) (p : list Z) : digest :=
  let '(hl, tv) := compress_blocks (s d) (nullt d) (h d) (t d) p in
  set_h (set_t d tv) hl.

End Reference.

(** ** Views of the state used in the statements *)

Definition work_list (v : work) : list Z :=
  let '(v0, v1, v2, v3, v4, v5, v6, v7, v8, v9, v10, v11, v12, v13, v14, v15) := v in
  [v0; v1; v2; v3; v4; v5; v6; v7; v8; v9; v10; v11; v12; v13; v14; v15].

Definition chain_list (hv : chain) : list Z :=
  let '(h0, h1, h2, h3, h4, h5, h6, h7) := hv in [h0; h1; h2; h3; h4; h5; h6; h7].

Definition salt_list (sv : salt) : list Z :=
  let '(s0, s1, s2, s3) := sv in [s0; s1; s2; s3].

(** The chain and salt words as [block] loads them. *)
Definition as_chain (hl : list Z) : chain :=
  (idx hl 0, idx hl 1, idx hl 2, idx hl 3, idx hl 4, idx hl 5, idx hl 6, idx hl 7).

Definition as_salt (sl : list Z) : salt :=
  (idx sl 0, idx sl 1, idx sl 2, idx sl 3).

Definition chain_of (d : digest) : chain := as_chain (h d).

Definition salt_of (d : digest) : salt := as_salt (s d).

(** The bytes waiting in the buffer: [d.x[:d.nx]]. *)
Definition buffered (d : digest) : list Z := slice_to (x d) (nx d).

(** The array and integer types of the fields of [digest]. *)
Definition typed (d : digest) : Prop :=
  len (h d) = 8 /\ len (s d) = 4 /\ len (x d) = 64 /\ (0 <= t d < 2 ^ 64).

(** A well-formed digest: typed, with fewer than 64 bytes buffered. *)
Definition wf (d : digest) : Prop := typed d /\ 0 <= nx d < 64.

(** What [Write], [Sum] and [checkSum] can observe of a digest: every field
    but the bytes of [x] beyond [nx]. *)
Definition view (d : digest) : Z * list Z * list Z * Z * bool * Z * list Z :=
  (hashSize d, h d, s d, t d, nullt d, nx d, buffered d).

(** The digests a program can hold: made by a constructor, then written to
    or reset. *)
Inductive reachable : digest -> Prop :=
| reach_New : reachable New
| reach_New224 : reachable New224
| reach_NewSalt sl d : NewSalt sl = Some d -> reachable d
| reach_New224Salt sl d : New224Salt sl = Some d -> reachable d
| reach_Write d p : reachable d -> reachable (Write d p)
| reach_Reset d : reachable d -> reachable (Reset d).

(** The bytes of a list are bytes. *)
Definition bytes (p : list Z) : Prop := Forall (fun b => 0 <= b < 256) p.

(** The value of a big-endian byte string. *)
Definition be_value (p : list Z) : Z := fold_left (fun a b => a * 256 + b) p 0.

(** The part of [Write] after the buffer has been topped up: the full
    blocks of [p] are compressed from [p] itself, the rest is buffered. *)
Definition Write_rest (d : digest) (p : list Z) : digest :=
  let '(d, p) :=
    if BlockSize <=? len p then
      let n := Z.ldiff (len p) (BlockSize - 1) in
      (block d (slice_to p n), slice_from p n)
    else (d, p) in
  if 0 <? len p then
    let '(x', c) := copy_at (x d) 0 p in
    set_nx (set_x d x') c
  else d.

(** What a digest shows after [p] is written to it: the bytes buffered
    before, followed by [p], are compressed block by block, and what is
    left over after the last full block stays buffered. *)
Definition absorbed (d : digest) (p : list Z)
  : Z * list Z * list Z * Z * bool * Z * list Z :=
  let data := buffered d ++ p in
  let r := block_loop (salt_of d) (nullt d) (chain_of d) (t d) data in
  (hashSize d, chain_list (fst r), s d, snd r, nullt d,
   len data mod 64, slice_from data (64 * (len data / 64))).

(** Two well-formed digests that show the same. *)
Definition same (d1 d2 : digest) : Prop := wf d1 /\ wf d2 /\ view d1 = view d2.

(** [shows d v]: [d] is well formed and shows [v]. *)
Definition shows (d : digest) (v : Z * list Z * list Z * Z * bool * Z * list Z) : Prop :=
  wf d /\ view d = v.

(** The bit length that [checkSum] encodes. *)
Definition bit_length (d : digest) : Z := add64 (t d) (shl64 (uint64 (nx d)) 3).

(** The marker bytes of the two variants: the byte that is both padding
    and marker when one byte is missing, and the byte that closes a longer
    padding. *)
Definition domainByte (d : digest) : Z := if hashSize d =? 224 then 0x80 else 0x81.
Definition terminatorByte (d : digest) : Z := if hashSize d =? 224 then 0x00 else 0x01.

(** The padding of the branch taken when 56 or more bytes are buffered,
    with the bytes of its second padding write as a parameter;
    [checkSum_pad] passes [pad[1:56]]. *)
Definition pad_two_blocks (second : list Z) (d : digest) : digest :=
  let nx := uint64 (nx d) in
  let d := set_t d (sub64 (t d) (sub64 512 (shl64 nx 3))) in
  let d := Write d (slice pad 0 (64 - nx)) in
  let d := set_t d (sub64 (t d) 440) in
  let d := Write d second in
  let d := set_nullt d true in
  let d := if hashSize d =? 224 then Write d [0x00] else Write d [0x01] in
  set_t d (sub64 (t d) 8).

(** The four bytes of a word, most significant first. *)
Definition be_bytes (w : Z) : list Z :=
  [byte (shr32 w 24); byte (shr32 w 16); byte (shr32 w 8); byte (shr32 w 0)].

(** A digest as a constructor leaves it, but for the salt. *)
Definition fresh (d : digest) : Prop := wf d /\ t d = 0 /\ nx d = 0.
(** * Verification *)

(** ** The loop of [block] *)

Arguments compress : simpl never.
Arguments Reference.compress : simpl never.

Lemma block_loop_step sv nt hv tv p :
  BlockSize <= len p ->
  block_loop sv nt hv tv p =
  block_loop sv nt (fst (compress sv nt hv tv p)) (snd (compress sv nt hv tv p))
             (slice_from p BlockSize).
Proof.
  intros Hp. rewrite block_loop_equation_1.
  destruct (Z_le_dec BlockSize (len p)) as [Hle | Hgt]; [| contradiction].
  rewrite block_loop_clause_1_equation_1.
  destruct (compress sv nt hv tv p); reflexivity.
Qed.

Lemma block_loop_done sv nt hv tv p :
  len p < BlockSize -> block_loop sv nt hv tv p = (hv, tv).
Proof.
  intros Hp. rewrite block_loop_equation_1.
  destruct (Z_le_dec BlockSize (len p)) as [Hle | Hgt]; [lia | reflexivity].
Qed.

Lemma ref_block_loop_step sl nt hl tv p :
  64 <= len p ->
  Reference.compress_blocks sl nt hl tv p =
  Reference.compress_blocks sl nt (fst (Reference.compress sl nt hl tv p))
    (snd (Reference.compress sl nt hl tv p)) (slice_from p 64).
Proof.
  intros Hp. rewrite Reference.compress_blocks_equation_1.
  destruct (Z_le_dec 64 (len p)) as [Hle | Hgt]; [reflexivity | contradiction].
Qed.

Lemma ref_block_loop_done sl nt hl tv p :
  len p < 64 -> Reference.compress_blocks sl nt hl tv p = (hl, tv).
Proof.
  intros Hp. rewrite Reference.compress_blocks_equation_1.
  destruct (Z_le_dec 64 (len p)) as [Hle | Hgt]; [lia | reflexivity].
Qed.

(** ** The unrolled rounds against the table-driven rounds

    The unrolled code interleaves the halves of the four G operations of a
    column or diagonal step; they act on disjoint words, so each round
    computes the words the table-driven round computes. *)

Ltac round_by_evaluation :=
  let v := fresh "v" in
  intros ? v;
  destruct v as [[[[[[[[[[[[[[[v0 v1] v2] v3] v4] v5] v6] v7] v8] v9] v10] v11] v12] v13] v14] v15];
  cbv -[add32 xor32 or32 shl32 shr32 idx]; reflexivity.

Lemma round1_ref :
  forall m v, work_list (round1 m v) = Reference.round m 1 (work_list v).
Proof. round_by_evaluation. Qed.

Lemma round2_ref :
  forall m v, work_list (round2 m v) = Reference.round m 2 (work_list v).
Proof. round_by_evaluation. Qed.

Lemma round3_ref :
  forall m v, work_list (round3 m v) = Reference.round m 3 (work_list v).
Proof. round_by_evaluation. Qed.

Lemma round4_ref :
  forall m v, work_list (round4 m v) = Reference.round m 4 (work_list v).
Proof. round_by_evaluation. Qed.

Lemma round5_ref :
  forall m v, work_list (round5 m v) = Reference.round m 5 (work_list v).
Proof. round_by_evaluation. Qed.

Lemma round6_ref :
  forall m v, work_list (round6 m v) = Reference.round m 6 (work_list v).
Proof. round_by_evaluation. Qed.

Lemma round7_ref :
  forall m v, work_list (round7 m v) = Reference.round m 7 (work_list v).
Proof. round_by_evaluation. Qed.

Lemma round8_ref :
  forall m v, work_list (round8 m v) = Reference.round m 8 (work_list v).
Proof. round_by_evaluation. Qed.

Lemma round9_ref :
  forall m v, work_list (round9 m v) = Reference.round m 9 (work_list v).
Proof. round_by_evaluation. Qed.

Lemma round10_ref :
  forall m v, work_list (round10 m v) = Reference.round m 10 (work_list v).
Proof. round_by_evaluation. Qed.

Lemma round11_ref :
  forall m v, work_list (round11 m v) = Reference.round m 11 (work_list v).
Proof. round_by_evaluation. Qed.

Lemma round12_ref :
  forall m v, work_list (round12 m v) = Reference.round m 12 (work_list v).
Proof. round_by_evaluation. Qed.

Lemma round13_ref :
  forall m v, work_list (round13 m v) = Reference.round m 13 (work_list v).
Proof. round_by_evaluation. Qed.

Lemma round14_ref :
  forall m v, work_list (round14 m v) = Reference.round m 14 (work_list v).
Proof. round_by_evaluation. Qed.

Lemma rounds_ref m v :
  work_list (rounds m v) = Reference.rounds m (work_list v).
Proof.
  unfold rounds, Reference.rounds. cbn [seq fold_left].
  rewrite round14_ref, round13_ref, round12_ref, round11_ref, round10_ref,
    round9_ref, round8_ref, round7_ref, round6_ref, round5_ref, round4_ref,
    round3_ref, round2_ref, round1_ref.
  reflexivity.
Qed.

Lemma block_words_ref p : block_words p = Reference.words p.
Proof. reflexivity. Qed.

Lemma block_init_ref hv sv tv nt :
  work_list (fst (block_init hv sv tv nt)) =
  Reference.init (chain_list hv) (salt_list sv) (add64 tv 512) nt.
Proof.
  destruct hv as [[[[[[[h0 h1] h2] h3] h4] h5] h6] h7].
  destruct sv as [[[s0 s1] s2] s3].
  destruct nt; reflexivity.
Qed.

Lemma block_init_counter hv sv tv nt :
  snd (block_init hv sv tv nt) = add64 tv 512.
Proof.
  destruct hv as [[[[[[[h0 h1] h2] h3] h4] h5] h6] h7].
  destruct sv as [[[s0 s1] s2] s3].
  destruct nt; reflexivity.
Qed.

Lemma work_list_length v : length (work_list v) = 16%nat.
Proof.
  destruct v as [[[[[[[[[[[[[[[v0 v1] v2] v3] v4] v5] v6] v7] v8] v9] v10] v11] v12] v13] v14] v15].
  reflexivity.
Qed.

Lemma block_fold_ref hv sv v :
  chain_list (block_fold hv sv v) =
  Reference.combine (chain_list hv) (salt_list sv) (work_list v).
Proof.
  destruct hv as [[[[[[[h0 h1] h2] h3] h4] h5] h6] h7].
  destruct sv as [[[s0 s1] s2] s3].
  destruct v as [[[[[[[[[[[[[[[v0 v1] v2] v3] v4] v5] v6] v7] v8] v9] v10] v11] v12] v13] v14] v15].
  reflexivity.
Qed.

Lemma compress_ref sv nt hv tv p :
  (chain_list (fst (compress sv nt hv tv p)), snd (compress sv nt hv tv p)) =
  Reference.compress (salt_list sv) nt (chain_list hv) tv p.
Proof.
  unfold compress, Reference.compress.
  pose proof (block_init_ref hv sv tv nt) as Hi.
  pose proof (block_init_counter hv sv tv nt) as Ht.
  destruct (block_init hv sv tv nt) as [v tv']. cbn [fst snd] in *.
  rewrite block_fold_ref, rounds_ref, Hi, Ht, block_words_ref. reflexivity.
Qed.

Lemma block_loop_ref sv nt :
  forall (n : nat) p hv tv, (length p <= n)%nat ->
  (chain_list (fst (block_loop sv nt hv tv p)), snd (block_loop sv nt hv tv p)) =
  Reference.compress_blocks (salt_list sv) nt (chain_list hv) tv p.
Proof.
  induction n as [| n IH]; intros p hv tv Hn.
  - rewrite block_loop_done, ref_block_loop_done by (unfold len, BlockSize; lia).
    reflexivity.
  - destruct (Z_le_dec BlockSize (len p)) as [Hle | Hgt].
    + rewrite block_loop_step, ref_block_loop_step by exact Hle.
      rewrite <- compress_ref. cbn [fst snd].
      apply IH. unfold slice_from, len, BlockSize in *. rewrite length_skipn. lia.
    + rewrite block_loop_done, ref_block_loop_done by (unfold BlockSize in *; lia).
      reflexivity.
Qed.

(** ** Slices *)

Lemma len_nonneg {A} (a : list A) : 0 <= len a.
Proof. unfold len. lia. Qed.

Lemma len_nil {A} : len (@nil A) = 0.
Proof. reflexivity. Qed.

Lemma len_cons {A} (b : A) (a : list A) : len (b :: a) = 1 + len a.
Proof. unfold len. cbn [length]. lia. Qed.

Lemma len_app {A} (a b : list A) : len (a ++ b) = len a + len b.
Proof. unfold len. rewrite length_app. lia. Qed.

Lemma len_repeat {A} (b : A) n : len (repeat b n) = Z.of_nat n.
Proof. unfold len. rewrite repeat_length. reflexivity. Qed.

Lemma len_slice_to {A} (a : list A) n :
  0 <= n <= len a -> len (slice_to a n) = n.
Proof. unfold len, slice_to. intros. rewrite length_firstn. lia. Qed.

Lemma len_slice_from {A} (a : list A) n :
  0 <= n <= len a -> len (slice_from a n) = len a - n.
Proof. unfold len, slice_from. intros. rewrite length_skipn. lia. Qed.

Lemma slice_to_all {A} (a : list A) n : len a <= n -> slice_to a n = a.
Proof. unfold len, slice_to. intros. apply firstn_all2. lia. Qed.

Lemma slice_from_all {A} (a : list A) n : len a <= n -> slice_from a n = [].
Proof. unfold len, slice_from. intros. apply skipn_all2. lia. Qed.

Lemma slice_to_0 {A} (a : list A) : slice_to a 0 = [].
Proof. reflexivity. Qed.

Lemma slice_from_0 {A} (a : list A) : slice_from a 0 = a.
Proof. reflexivity. Qed.

Lemma slice_to_from {A} (a : list A) n : slice_to a n ++ slice_from a n = a.
Proof. unfold slice_to, slice_from. apply firstn_skipn. Qed.

Lemma slice_to_app_l {A} (a b : list A) n :
  n <= len a -> slice_to (a ++ b) n = slice_to a n.
Proof.
  unfold len, slice_to. intros. rewrite firstn_app.
  replace (Z.to_nat n - length a)%nat with 0%nat by lia.
  cbn [firstn]. apply app_nil_r.
Qed.

Lemma slice_to_app_r {A} (a b : list A) n :
  len a <= n -> slice_to (a ++ b) n = a ++ slice_to b (n - len a).
Proof.
  unfold len, slice_to. intros. rewrite firstn_app.
  rewrite firstn_all2 by lia. do 2 f_equal. lia.
Qed.

Lemma slice_from_app_l {A} (a b : list A) n :
  n <= len a -> slice_from (a ++ b) n = slice_from a n ++ b.
Proof.
  unfold len, slice_from. intros. rewrite skipn_app.
  replace (Z.to_nat n - length a)%nat with 0%nat by lia. reflexivity.
Qed.

Lemma slice_from_app_r {A} (a b : list A) n :
  len a <= n -> slice_from (a ++ b) n = slice_from b (n - len a).
Proof.
  unfold len, slice_from. intros. rewrite skipn_app.
  rewrite skipn_all2 by lia. cbn [app]. f_equal. lia.
Qed.

Lemma slice_from_from {A} (a : list A) n k :
  0 <= n -> 0 <= k -> slice_from (slice_from a n) k = slice_from a (n + k).
Proof.
  unfold slice_from. intros. rewrite skipn_skipn. f_equal. lia.
Qed.

Lemma ldiff_block n : 0 <= n -> Z.ldiff n (BlockSize - 1) = 64 * (n / 64).
Proof.
  intros Hn. change (BlockSize - 1) with (Z.ones 6).
  rewrite Z.ldiff_ones_r by lia.
  rewrite Z.shiftl_mul_pow2, Z.shiftr_div_pow2 by lia.
  change (2 ^ 6) with 64. lia.
Qed.

(** ** [block]: one compression for each full block *)

Lemma block_eq d p :
  block d p =
  set_h (set_t d (snd (block_loop (salt_of d) (nullt d) (chain_of d) (t d) p)))
        (chain_list (fst (block_loop (salt_of d) (nullt d) (chain_of d) (t d) p))).
Proof.
  unfold block, chain_of, salt_of, as_chain, as_salt.
  destruct (block_loop _ _ _ _ _) as [[[[[[[[h0 h1] h2] h3] h4] h5] h6] h7] tv].
  reflexivity.
Qed.

Lemma idx_app_l a b i : (i < length a)%nat -> idx (a ++ b) i = idx a i.
Proof. intros. unfold idx. apply app_nth1. assumption. Qed.

Lemma be32_app a b i : (i + 3 < length a)%nat -> be32 (a ++ b) i = be32 a i.
Proof. intros. unfold be32. rewrite !idx_app_l by lia. reflexivity. Qed.

Lemma block_words_app a b :
  BlockSize <= len a -> block_words (a ++ b) = block_words a.
Proof.
  unfold BlockSize, len. intros. unfold block_words.
  rewrite !be32_app by (cbn; lia). reflexivity.
Qed.

Lemma compress_app sv nt hv tv a b :
  BlockSize <= len a -> compress sv nt hv tv (a ++ b) = compress sv nt hv tv a.
Proof.
  intros. unfold compress. rewrite block_words_app by assumption. reflexivity.
Qed.

Lemma compress_counter sv nt hv tv p :
  snd (compress sv nt hv tv p) = add64 tv 512.
Proof.
  unfold compress. pose proof (block_init_counter hv sv tv nt) as Ht.
  destruct (block_init hv sv tv nt). cbn [snd] in *. assumption.
Qed.

Lemma block_loop_app sv nt :
  forall (k : nat) a b hv tv, len a = 64 * Z.of_nat k ->
  block_loop sv nt hv tv (a ++ b) =
  block_loop sv nt (fst (block_loop sv nt hv tv a)) (snd (block_loop sv nt hv tv a)) b.
Proof.
  induction k as [| k IH]; intros a b hv tv Ha.
  - assert (a = []) by (destruct a; [reflexivity | rewrite len_cons in Ha; pose proof (len_nonneg a); lia]).
    subst a. rewrite (block_loop_done _ _ _ _ []) by reflexivity. reflexivity.
  - rewrite (block_loop_step _ _ _ _ (a ++ b)) by (rewrite len_app; pose proof (len_nonneg b); unfold BlockSize; lia).
    rewrite (block_loop_step _ _ _ _ a) by (unfold BlockSize; lia).
    rewrite compress_app by (unfold BlockSize; lia).
    rewrite slice_from_app_l by (unfold BlockSize; lia).
    apply IH. rewrite len_slice_from; unfold BlockSize; lia.
Qed.

Lemma block_loop_single sv nt hv tv p :
  len p = 64 -> block_loop sv nt hv tv p = compress sv nt hv tv p.
Proof.
  intros Hp. rewrite block_loop_step by (unfold BlockSize; lia).
  rewrite block_loop_done.
  - destruct (compress sv nt hv tv p); reflexivity.
  - rewrite len_slice_from; unfold BlockSize; lia.
Qed.

(** The bytes after the last full block are not looked at. *)
Lemma block_loop_full sv nt hv tv p :
  block_loop sv nt hv tv (slice_to p (64 * (len p / 64))) = block_loop sv nt hv tv p.
Proof.
  pose proof (len_nonneg p) as Hp.
  assert (Hk : 0 <= len p / 64) by (apply Z.div_pos; lia).
  set (a := slice_to p (64 * (len p / 64))).
  set (b := slice_from p (64 * (len p / 64))).
  replace (block_loop sv nt hv tv p) with (block_loop sv nt hv tv (a ++ b))
    by (unfold a, b; rewrite slice_to_from; reflexivity).
  rewrite (block_loop_app sv nt (Z.to_nat (len p / 64))).
  - rewrite (block_loop_done _ _ _ _ b).
    + destruct (block_loop sv nt hv tv a); reflexivity.
    + unfold b. rewrite len_slice_from; unfold BlockSize; Z.to_euclidean_division_equations; lia.
  - unfold a. rewrite len_slice_to; Z.to_euclidean_division_equations; lia.
Qed.

Lemma block_loop_counter sv nt :
  forall (n : nat) p hv tv, (length p <= n)%nat -> 0 <= tv < 2 ^ 64 ->
  snd (block_loop sv nt hv tv p) = uint64 (tv + 512 * (len p / 64)).
Proof.
  induction n as [| n IH]; intros p hv tv Hn Ht.
  - rewrite block_loop_done by (unfold len, BlockSize; lia).
    cbn [snd]. rewrite Z.div_small by (unfold len; lia).
    unfold uint64. rewrite Z.mod_small; lia.
  - destruct (Z_le_dec BlockSize (len p)) as [Hle | Hgt]; unfold BlockSize in *.
    + rewrite block_loop_step by exact Hle.
      rewrite IH.
      * rewrite compress_counter. rewrite len_slice_from by (unfold BlockSize; lia).
        unfold add64, uint64, BlockSize.
        replace (len p / 64) with ((len p - 64) / 64 + 1).
        -- rewrite Zplus_mod_idemp_l. f_equal. lia.
        -- replace (len p) with ((len p - 64) + 1 * 64) at 2 by lia.
           rewrite Z.div_add by lia. reflexivity.
      * unfold slice_from, len, BlockSize in *. rewrite length_skipn. lia.
      * rewrite compress_counter. unfold add64, uint64.
        apply Z.mod_pos_bound. lia.
    + rewrite block_loop_done by (unfold BlockSize; lia).
      cbn [snd]. rewrite Z.div_small by (pose proof (len_nonneg p); lia).
      unfold uint64. rewrite Z.mod_small; lia.
Qed.

(** ** [Write] *)

Arguments block : simpl never.

Ltac divmod := Z.to_euclidean_division_equations; lia.

Lemma chain_of_list d : len (h d) = 8 -> chain_list (chain_of d) = h d.
Proof.
  unfold len, chain_of, as_chain. destruct (h d) as [| h0 [| h1 [| h2 [| h3 [| h4 [| h5 [| h6 [| h7 [| h8 l]]]]]]]]];
    cbn [length]; intros; try lia.
  reflexivity.
Qed.

Lemma chain_list_length hv : len (chain_list hv) = 8.
Proof. destruct hv as [[[[[[[h0 h1] h2] h3] h4] h5] h6] h7]. reflexivity. Qed.

Lemma chain_of_chain_list d hv : h d = chain_list hv -> chain_of d = hv.
Proof.
  destruct hv as [[[[[[[h0 h1] h2] h3] h4] h5] h6] h7]. unfold chain_of, as_chain.
  intros ->. reflexivity.
Qed.

Lemma Write_nx0 d p : nx d = 0 -> Write d p = Write_rest d p.
Proof. intros H0. unfold Write, Write_rest. rewrite H0. reflexivity. Qed.

Lemma Write_rest_view d p :
  typed d -> nx d = 0 ->
  view (Write_rest d p) = absorbed d p /\ wf (Write_rest d p).
Proof.
  intros (Hh & Hs & Hx & Ht) H0.
  pose proof (len_nonneg p) as Hp.
  unfold absorbed, buffered. rewrite H0, slice_to_0. cbn [app].
  unfold Write_rest.
  destruct (Z.leb_spec BlockSize (len p)) as [Hle | Hlt]; unfold BlockSize in *.
  - rewrite ldiff_block by lia.
    set (N := 64 * (len p / 64)).
    rewrite block_eq, block_loop_full. fold N.
    set (r := block_loop (salt_of d) (nullt d) (chain_of d) (t d) p).
    assert (Hr : 0 <= snd r < 2 ^ 64).
    { unfold r. rewrite (block_loop_counter _ _ (length p)) by (auto; lia).
      apply Z.mod_pos_bound. lia. }
    assert (HN : len (slice_from p N) = len p mod 64)
      by (rewrite len_slice_from; unfold N; divmod).
    destruct (Z.ltb_spec 0 (len (slice_from p N))) as [Hpos | Hz].
    + unfold copy_at. cbn [x set_h set_t set_x set_nx].
      rewrite Z.min_r by (rewrite Hx; divmod).
      rewrite slice_to_0. cbn [app].
      rewrite (slice_to_all (slice_from p N)) by lia.
      unfold view, wf, typed, buffered.
      cbn [hashSize h s t nullt x nx set_h set_t set_x set_nx].
      rewrite slice_to_app_l, slice_to_all by lia.
      rewrite chain_list_length, len_app, (len_slice_from (x d)) by (rewrite Hx; divmod).
      rewrite HN. repeat split; try assumption; try lia; divmod.
    + assert (Hnil : slice_from p N = [])
        by (destruct (slice_from p N); [reflexivity | rewrite len_cons in Hz; pose proof (len_nonneg l); lia]).
      unfold view, wf, typed, buffered.
      cbn [hashSize h s t nullt x nx set_h set_t set_x set_nx].
      rewrite H0, slice_to_0, Hnil, chain_list_length, <- HN, Hnil.
      repeat split; try assumption; try lia.
  - rewrite block_loop_done by (unfold BlockSize; lia). cbn [fst snd].
    rewrite chain_of_list by assumption.
    rewrite Z.div_small, Z.mod_small by lia. rewrite slice_from_0.
    destruct (Z.ltb_spec 0 (len p)) as [Hpos | Hz].
    + unfold copy_at. rewrite Z.min_r by lia.
      rewrite slice_to_0. cbn [app]. rewrite (slice_to_all p) by lia.
      unfold view, wf, typed, buffered.
      cbn [hashSize h s t nullt x nx set_h set_t set_x set_nx].
      rewrite slice_to_app_l, slice_to_all by lia.
      rewrite len_app, (len_slice_from (x d)) by lia.
      repeat split; try assumption; try lia.
    + assert (Hnil : p = [])
        by (destruct p; [reflexivity | rewrite len_cons in Hz; pose proof (len_nonneg p); lia]).
      subst p. unfold view, wf, typed, buffered. rewrite H0, slice_to_0.
      repeat split; try assumption; try lia.
Qed.

Lemma Write_pos d p :
  0 < nx d ->
  Write d p =
  let n := if BlockSize - nx d <? len p then BlockSize - nx d else len p in
  let d1 := set_nx (set_x d (fst (copy_at (x d) (nx d) p)))
                   (nx d + snd (copy_at (x d) (nx d) p)) in
  let d2 := if nx d1 =? BlockSize then set_nx (block d1 (x d1)) 0 else d1 in
  Write_rest d2 (slice_from p n).
Proof.
  intros Hpos. unfold Write, Write_rest.
  apply Z.ltb_lt in Hpos. rewrite Hpos. unfold copy_at. reflexivity.
Qed.

Lemma len_0_nil {A} (a : list A) : len a <= 0 -> a = [].
Proof.
  destruct a as [| b a]; [reflexivity |]. rewrite len_cons. pose proof (len_nonneg a). lia.
Qed.

Lemma Write_view d p :
  wf d -> view (Write d p) = absorbed d p /\ wf (Write d p).
Proof.
  intros [Hty Hnx].
  destruct (Z.eq_dec (nx d) 0) as [H0 | Hne].
  { rewrite Write_nx0 by assumption. apply Write_rest_view; assumption. }
  destruct Hty as (Hh & Hs & Hx & Ht).
  pose proof (len_nonneg p) as Hp.
  rewrite Write_pos by lia. unfold copy_at. cbn [fst snd].
  cbv zeta. cbn [nx x set_nx set_x]. rewrite !Hx.
  destruct (Z_lt_dec (nx d + len p) 64) as [Hsmall | Hbig].
  - (* the bytes fit in the buffer *)
    replace (BlockSize - nx d <? len p) with false
      by (symmetry; apply Z.ltb_ge; unfold BlockSize; lia).
    rewrite Z.min_r by lia.
    replace (nx d + len p =? BlockSize) with false
      by (symmetry; apply Z.eqb_neq; unfold BlockSize; lia).
    rewrite (slice_from_all p), (slice_to_all p) by lia.
    unfold Write_rest. cbn [len length Z.of_nat Z.leb Z.ltb Z.compare BlockSize].
    unfold absorbed, view, wf, typed, buffered.
    cbn [hashSize h s t nullt x nx set_h set_t set_x set_nx].
    assert (Hb : len (slice_to (x d) (nx d)) = nx d) by (apply len_slice_to; lia).
    rewrite block_loop_done by (rewrite len_app, Hb; unfold BlockSize; lia).
    cbn [fst snd]. rewrite chain_of_list by assumption.
    rewrite !len_app, Hb, (len_slice_from (x d)) by lia.
    rewrite Z.div_small, Z.mod_small by lia. rewrite slice_from_0.
    rewrite app_assoc, slice_to_app_l, slice_to_all by (rewrite len_app, Hb; lia).
    repeat split; try assumption; try lia.
  - (* the buffer is filled and compressed *)
    assert (Hn : (if BlockSize - nx d <? len p then BlockSize - nx d else len p) = 64 - nx d).
    { destruct (Z.ltb_spec (BlockSize - nx d) (len p)); unfold BlockSize in *; lia. }
    rewrite Hn. rewrite Z.min_l by lia.
    replace (nx d + (64 - nx d) =? BlockSize) with true
      by (symmetry; apply Z.eqb_eq; unfold BlockSize; lia).
    replace (nx d + (64 - nx d)) with 64 by lia.
    rewrite (slice_from_all (x d) 64), app_nil_r by lia.
    set (blk := slice_to (x d) (nx d) ++ slice_to p (64 - nx d)).
    assert (Hblk : len blk = 64)
      by (unfold blk; rewrite len_app, !len_slice_to; lia).
    rewrite block_eq.
    cbn [hashSize h s t nullt x nx set_h set_t set_x set_nx].
    change (salt_of (set_nx (set_x d blk) 64)) with (salt_of d).
    change (chain_of (set_nx (set_x d blk) 64)) with (chain_of d).
    set (r := block_loop (salt_of d) (nullt d) (chain_of d) (t d) blk).
    set (d2 := set_nx _ 0).
    assert (Hr : 0 <= snd r < 2 ^ 64).
    { unfold r. rewrite (block_loop_counter _ _ (length blk)) by (auto; lia).
      apply Z.mod_pos_bound. lia. }
    assert (Hty2 : typed d2).
    { unfold d2, typed. cbn [hashSize h s t nullt x nx set_h set_t set_x set_nx].
      rewrite chain_list_length. repeat split; try assumption; lia. }
    destruct (Write_rest_view d2 (slice_from p (64 - nx d)) Hty2 eq_refl) as [Hv Hwf].
    split; [| exact Hwf]. rewrite Hv.
    unfold absorbed, buffered.
    replace (chain_of d2) with (fst r) by (symmetry; apply chain_of_chain_list; reflexivity).
    change (salt_of d2) with (salt_of d).
    cbn [hashSize h s t nullt x nx set_h set_t set_x set_nx d2].
    rewrite slice_to_0. cbn [app].
    replace (slice_to (x d) (nx d) ++ p) with (blk ++ slice_from p (64 - nx d))
      by (unfold blk; rewrite <- app_assoc, slice_to_from; reflexivity).
    rewrite (block_loop_app _ _ 1 blk) by (rewrite Hblk; reflexivity).
    fold r.
    rewrite len_app, Hblk.
    pose proof (len_nonneg (slice_from p (64 - nx d))) as Hq.
    set (q := slice_from p (64 - nx d)) in *.
    rewrite slice_from_app_r by (rewrite Hblk; divmod).
    rewrite Hblk.
    replace ((64 + len q) mod 64) with (len q mod 64) by divmod.
    replace (64 * ((64 + len q) / 64) - 64) with (64 * (len q / 64)) by divmod.
    reflexivity.
Qed.

(** ** Digests that show the same behave the same *)

Lemma tuple7_inv {A B C D E F G : Type}
  (a a' : A) (b b' : B) (c c' : C) (d d' : D) (e e' : E) (f f' : F) (g g' : G) :
  (a, b, c, d, e, f, g) = (a', b', c', d', e', f', g') ->
  a = a' /\ b = b' /\ c = c' /\ d = d' /\ e = e' /\ f = f' /\ g = g'.
Proof. intros H. inversion H. repeat split; reflexivity. Qed.

Lemma view_inv d1 d2 :
  view d1 = view d2 ->
  hashSize d1 = hashSize d2 /\ h d1 = h d2 /\ s d1 = s d2 /\ t d1 = t d2 /\
  nullt d1 = nullt d2 /\ nx d1 = nx d2 /\ buffered d1 = buffered d2.
Proof. unfold view. apply tuple7_inv. Qed.

Lemma absorbed_view d1 d2 p :
  view d1 = view d2 -> absorbed d1 p = absorbed d2 p.
Proof.
  intros H. apply view_inv in H. destruct H as (Hhs & Hh & Hs & Ht & Hn & Hnx & Hb).
  unfold absorbed, salt_of, chain_of. rewrite Hhs, Hh, Hs, Ht, Hn, Hb. reflexivity.
Qed.

Lemma Write_wf d p : wf d -> wf (Write d p).
Proof. intros H. apply (Write_view d p H). Qed.

Lemma Write_absorbed d p : wf d -> view (Write d p) = absorbed d p.
Proof. intros H. apply (Write_view d p H). Qed.

Lemma Write_same_view d1 d2 p :
  wf d1 -> wf d2 -> view d1 = view d2 -> view (Write d1 p) = view (Write d2 p).
Proof.
  intros H1 H2 Hv. rewrite !Write_absorbed by assumption.
  apply absorbed_view. assumption.
Qed.

Lemma buffered_len d : wf d -> len (buffered d) = nx d.
Proof.
  intros [(_ & _ & Hx & _) Hnx]. unfold buffered. apply len_slice_to. lia.
Qed.

(** Writing [p] and then [q] shows what writing [p ++ q] shows. *)
Lemma Write_app_view d p q :
  wf d -> view (Write (Write d p) q) = view (Write d (p ++ q)).
Proof.
  intros Hwf. pose proof (Write_wf d p Hwf) as Hwf1.
  rewrite (Write_absorbed (Write d p)), (Write_absorbed d (p ++ q)) by assumption.
  pose proof (Write_absorbed d p Hwf) as Hv. unfold view, absorbed in Hv.
  apply tuple7_inv in Hv. destruct Hv as (Hhs & Hh & Hs & Ht & Hn & Hnx & Hb).
  unfold absorbed.
  rewrite (chain_of_chain_list (Write d p) _ Hh).
  unfold salt_of. rewrite Hhs, Hs, Ht, Hn, Hb. fold (salt_of d).
  set (data := buffered d ++ p) in *.
  set (N := 64 * (len data / 64)) in *.
  pose proof (len_nonneg data) as Hd. pose proof (len_nonneg q) as Hq.
  assert (HN : 0 <= N <= len data) by (unfold N; divmod).
  replace (buffered d ++ p ++ q) with (slice_to data N ++ slice_from data N ++ q)
    by (rewrite app_assoc, slice_to_from; unfold data; rewrite app_assoc; reflexivity).
  rewrite (block_loop_app _ _ (Z.to_nat (len data / 64)) (slice_to data N))
    by (rewrite len_slice_to by lia; unfold N; divmod).
  unfold N at 1 2. rewrite block_loop_full.
  set (rest := slice_from data N ++ q).
  assert (Hrest : len rest = len data - N + len q)
    by (unfold rest; rewrite len_app, len_slice_from by lia; reflexivity).
  assert (Hpre : len (slice_to data N) = N) by (apply len_slice_to; lia).
  set (pre := slice_to data N) in *.
  rewrite len_app, Hpre, Hrest.
  rewrite slice_from_app_r by (rewrite Hpre; unfold N; divmod).
  rewrite Hpre.
  replace ((N + (len data - N + len q)) mod 64) with ((len data - N + len q) mod 64)
    by (unfold N; divmod).
  replace (64 * ((N + (len data - N + len q)) / 64) - N)
    with (64 * ((len data - N + len q) / 64)) by (unfold N; divmod).
  reflexivity.
Qed.

(** The view after a run of writes. *)
Lemma Write_chunks_wf ps : forall d, wf d -> wf (fold_left Write ps d).
Proof.
  induction ps as [| p ps IH]; intros d Hwf; cbn [fold_left].
  - assumption.
  - apply IH, Write_wf, Hwf.
Qed.

Lemma Write_chunks_view ps :
  forall d, wf d -> view (fold_left Write ps d) = view (Write d (concat ps)).
Proof.
  induction ps as [| p ps IH]; intros d Hwf; cbn [fold_left concat].
  - rewrite Write_absorbed by assumption. unfold absorbed, view.
    rewrite app_nil_r. rewrite buffered_len by assumption.
    destruct Hwf as [(Hh & _ & Hx & Ht) Hnx].
    rewrite block_loop_done by (unfold buffered; rewrite len_slice_to; unfold BlockSize; lia).
    cbn [fst snd]. rewrite chain_of_list by assumption.
    rewrite Z.div_small, Z.mod_small by lia. rewrite slice_from_0. reflexivity.
  - rewrite IH by (apply Write_wf, Hwf). apply Write_app_view, Hwf.
Qed.

(** ** [checkSum] reads the view only *)

Lemma set_t_wf d v : wf d -> wf (set_t d (uint64 v)).
Proof.
  intros [(Hh & Hs & Hx & Ht) Hnx]. unfold wf, typed. cbn [h s x t nx set_t].
  repeat split; try assumption; try lia; apply Z.mod_pos_bound; lia.
Qed.

Lemma set_nullt_wf d b : wf d -> wf (set_nullt d b).
Proof. intros H. exact H. Qed.

Lemma same_Write d1 d2 p : same d1 d2 -> same (Write d1 p) (Write d2 p).
Proof.
  intros (H1 & H2 & Hv).
  split; [apply Write_wf; assumption | split; [apply Write_wf; assumption |]].
  apply Write_same_view; assumption.
Qed.

Lemma same_sub_t d1 d2 v :
  same d1 d2 -> same (set_t d1 (sub64 (t d1) v)) (set_t d2 (sub64 (t d2) v)).
Proof.
  intros (H1 & H2 & Hv).
  split; [apply set_t_wf; assumption | split; [apply set_t_wf; assumption |]].
  apply view_inv in Hv. destruct Hv as (Hhs & Hh & Hs & Ht & Hn & Hnx & Hb).
  unfold view, buffered in *. cbn [hashSize h s t nullt x nx set_t].
  rewrite Hb, Hhs, Hh, Hs, Ht, Hn, Hnx. reflexivity.
Qed.

Lemma same_set_nullt d1 d2 b :
  same d1 d2 -> same (set_nullt d1 b) (set_nullt d2 b).
Proof.
  intros (H1 & H2 & Hv). split; [exact H1 | split; [exact H2 |]].
  apply view_inv in Hv. destruct Hv as (Hhs & Hh & Hs & Ht & Hn & Hnx & Hb).
  unfold view, buffered in *. cbn [hashSize h s t nullt x nx set_nullt].
  rewrite Hb, Hhs, Hh, Hs, Ht, Hnx. reflexivity.
Qed.

Lemma same_domain d1 d2 a b :
  same d1 d2 ->
  same (if hashSize d1 =? 224 then Write d1 a else Write d1 b)
       (if hashSize d2 =? 224 then Write d2 a else Write d2 b).
Proof.
  intros H. pose proof H as (_ & _ & Hv). apply view_inv in Hv.
  destruct Hv as (Hhs & _). rewrite Hhs.
  destruct (hashSize d2 =? 224); apply same_Write; assumption.
Qed.

Lemma same_checkSum_pad d1 d2 : same d1 d2 -> same (checkSum_pad d1) (checkSum_pad d2).
Proof.
  intros H. pose proof H as (_ & _ & Hv). apply view_inv in Hv.
  destruct Hv as (_ & _ & _ & Ht & _ & Hnx & _).
  unfold checkSum_pad. rewrite Hnx.
  destruct (uint64 (nx d2) =? 55).
  - apply same_domain. apply same_sub_t. assumption.
  - apply same_sub_t. apply same_domain.
    destruct (uint64 (nx d2) <? 55).
    + apply same_Write. apply same_sub_t.
      destruct (uint64 (nx d2) =? 0); [apply same_set_nullt |]; assumption.
    + apply same_set_nullt, same_Write, same_sub_t, same_Write, same_sub_t. assumption.
Qed.

Lemma same_checkSum d1 d2 :
  same d1 d2 ->
  same (fst (checkSum d1)) (fst (checkSum d2)) /\ snd (checkSum d1) = snd (checkSum d2).
Proof.
  intros H. pose proof H as (_ & _ & Hv). apply view_inv in Hv.
  destruct Hv as (_ & _ & _ & Ht & _ & Hnx & _).
  unfold checkSum. cbn [fst snd].
  assert (Hl : checkSum_len d1 = checkSum_len d2)
    by (unfold checkSum_len; rewrite Ht, Hnx; reflexivity).
  rewrite Hl.
  assert (Hs : same (Write (set_t (checkSum_pad d1) (sub64 (t (checkSum_pad d1)) 64)) (checkSum_len d2))
                    (Write (set_t (checkSum_pad d2) (sub64 (t (checkSum_pad d2)) 64)) (checkSum_len d2)))
    by (apply same_Write, same_sub_t, same_checkSum_pad; assumption).
  split; [exact Hs |].
  destruct Hs as (_ & _ & Hv). apply view_inv in Hv.
  destruct Hv as (Hhs & Hh & _). unfold checkSum_out. rewrite Hhs, Hh. reflexivity.
Qed.

Lemma same_Sum d1 d2 i : same d1 d2 -> snd (Sum d1 i) = snd (Sum d2 i).
Proof.
  intros H. destruct (same_checkSum d1 d2 H) as [Hf Hs].
  unfold Sum. destruct (checkSum d1) as [c1 s1], (checkSum d2) as [c2 s2].
  cbn [fst snd] in *. subst s2.
  destruct Hf as (_ & _ & Hv). apply view_inv in Hv. destruct Hv as (Hhs & _).
  unfold digest_Size. rewrite Hhs. reflexivity.
Qed.

(** ** Single steps of the finaliser *)

Lemma shows_self d : wf d -> shows d (view d).
Proof. intros H. split; [exact H | reflexivity]. Qed.

Lemma shows_set_t d hs hl sl tv nt n buf v :
  shows d (hs, hl, sl, tv, nt, n, buf) ->
  shows (set_t d (uint64 v)) (hs, hl, sl, uint64 v, nt, n, buf).
Proof.
  intros [Hwf Hv]. split; [apply set_t_wf, Hwf |].
  unfold view in *. apply tuple7_inv in Hv.
  destruct Hv as (Hhs & Hh & Hs & Ht & Hn & Hnx & Hb).
  unfold buffered in *. cbn [hashSize h s t nullt x nx set_t].
  rewrite Hb, Hhs, Hh, Hs, Hn, Hnx. reflexivity.
Qed.

Lemma shows_set_nullt d hs hl sl tv nt n buf b :
  shows d (hs, hl, sl, tv, nt, n, buf) ->
  shows (set_nullt d b) (hs, hl, sl, tv, b, n, buf).
Proof.
  intros [Hwf Hv]. split; [exact Hwf |].
  unfold view in *. apply tuple7_inv in Hv.
  destruct Hv as (Hhs & Hh & Hs & Ht & Hn & Hnx & Hb).
  unfold buffered in *. cbn [hashSize h s t nullt x nx set_nullt].
  rewrite Hb, Hhs, Hh, Hs, Ht, Hnx. reflexivity.
Qed.

(** A write that does not fill the buffer only buffers. *)
Lemma shows_Write_small d hs hl sl tv nt n buf p :
  shows d (hs, hl, sl, tv, nt, n, buf) -> n + len p < 64 ->
  shows (Write d p) (hs, hl, sl, tv, nt, n + len p, buf ++ p).
Proof.
  intros [Hwf Hv] Hsmall. split; [apply Write_wf, Hwf |].
  rewrite Write_absorbed by assumption.
  pose proof (buffered_len d Hwf) as Hbl.
  pose proof Hwf as [(Hh & _ & _ & _) Hnx].
  unfold view in Hv. apply tuple7_inv in Hv.
  destruct Hv as (Hhs & Hhl & Hs & Ht & Hn & Hn' & Hb).
  pose proof (len_nonneg p) as Hp.
  unfold absorbed.
  rewrite block_loop_done by (rewrite len_app, Hbl; unfold BlockSize; lia).
  cbn [fst snd]. rewrite chain_of_list by assumption.
  rewrite len_app, Hbl, Z.div_small, Z.mod_small by lia.
  rewrite slice_from_0, Hhs, Hhl, Hs, Ht, Hn, Hn', Hb. reflexivity.
Qed.

(** A write that fills the buffer exactly compresses it, once. *)
Lemma shows_Write_fill d hs hl sl tv nt n buf p :
  shows d (hs, hl, sl, tv, nt, n, buf) -> n + len p = 64 ->
  shows (Write d p)
        (hs, chain_list (fst (compress (as_salt sl) nt (as_chain hl) tv (buf ++ p))),
         sl, snd (compress (as_salt sl) nt (as_chain hl) tv (buf ++ p)), nt, 0, []).
Proof.
  intros [Hwf Hv] Hfill. split; [apply Write_wf, Hwf |].
  rewrite Write_absorbed by assumption.
  pose proof (buffered_len d Hwf) as Hbl.
  unfold view in Hv. apply tuple7_inv in Hv.
  destruct Hv as (Hhs & Hhl & Hs & Ht & Hn & Hn' & Hb).
  unfold absorbed, chain_of, salt_of.
  assert (Hlen : len (buffered d ++ p) = 64) by (rewrite len_app, Hbl; lia).
  rewrite block_loop_single by assumption.
  rewrite Hlen. rewrite slice_from_all by (rewrite Hlen; reflexivity).
  rewrite Hhs, Hhl, Hs, Ht, Hn, Hb. reflexivity.
Qed.

Lemma shows_h d hs hl sl tv nt n buf :
  shows d (hs, hl, sl, tv, nt, n, buf) ->
  hashSize d = hs /\ h d = hl /\ s d = sl /\ t d = tv /\ nullt d = nt /\ nx d = n /\
  buffered d = buf.
Proof. intros [_ Hv]. unfold view in Hv. apply tuple7_inv in Hv. exact Hv. Qed.

(** ** Counter arithmetic *)

Lemma uint64_small a : 0 <= a < 2 ^ 64 -> uint64 a = a.
Proof. intros. unfold uint64. apply Z.mod_small. assumption. Qed.

Lemma shl64_3 a : 0 <= a < 64 -> shl64 (uint64 a) 3 = 8 * a.
Proof.
  intros. rewrite uint64_small by lia. unfold shl64.
  rewrite Z.shiftl_mul_pow2 by lia. change (2 ^ 3) with 8.
  rewrite uint64_small; lia.
Qed.

Ltac counters :=
  unfold add64, sub64, uint64 in *;
  change (2 ^ 64) with 18446744073709551616 in *; divmod.

(** ** The constant padding *)

Lemma firstn_repeat_le {A} (a : A) :
  forall n m, (n <= m)%nat -> firstn n (repeat a m) = repeat a n.
Proof.
  induction n as [| n IH]; intros m Hm; [reflexivity |].
  destruct m as [| m]; [lia |]. cbn [repeat firstn]. f_equal. apply IH. lia.
Qed.

Lemma pad_prefix k :
  0 < k <= 64 -> slice pad 0 k = 0x80 :: repeat 0 (Z.to_nat (k - 1)).
Proof.
  intros Hk. unfold slice, pad. cbn [Z.to_nat skipn].
  replace (Z.to_nat (k - 0)) with (S (Z.to_nat (k - 1))) by lia.
  cbn [firstn]. f_equal.
  apply firstn_repeat_le. lia.
Qed.

Lemma pad_zeros : slice pad 1 56 = repeat 0 55.
Proof. reflexivity. Qed.

(** ** The three branches of the padding *)

Lemma Write_domain d :
  (if hashSize d =? 224 then Write d [0x80] else Write d [0x81]) = Write d [domainByte d].
Proof. unfold domainByte. destruct (hashSize d =? 224); reflexivity. Qed.

Lemma Write_terminator d :
  (if hashSize d =? 224 then Write d [0x00] else Write d [0x01]) = Write d [terminatorByte d].
Proof. unfold terminatorByte. destruct (hashSize d =? 224); reflexivity. Qed.

Lemma checkSum_pad_exact d :
  wf d -> nx d = 55 ->
  checkSum_pad d = Write (set_t d (sub64 (t d) 8)) [domainByte d].
Proof.
  intros Hwf Hnx. unfold checkSum_pad. rewrite Hnx. cbn [uint64 Z.modulo].
  change (uint64 55 =? 55) with true. cbv iota.
  rewrite Write_domain. reflexivity.
Qed.

Lemma checkSum_pad_short d :
  wf d -> nx d < 55 ->
  checkSum_pad d =
  let d1 := if nx d =? 0 then set_nullt d true else d in
  let d2 := Write (set_t d1 (sub64 (t d1) (sub64 440 (8 * nx d)))) (slice pad 0 (55 - nx d)) in
  let d3 := Write d2 [terminatorByte d] in
  set_t d3 (sub64 (t d3) 8).
Proof.
  intros Hwf Hnx. pose proof Hwf as [_ Hr]. unfold checkSum_pad.
  rewrite shl64_3 by lia. rewrite uint64_small by lia.
  replace (nx d =? 55) with false by (symmetry; apply Z.eqb_neq; lia).
  replace (nx d <? 55) with true by (symmetry; apply Z.ltb_lt; lia).
  cbv zeta. rewrite Write_terminator.
  assert (Hhs : forall d', hashSize d' = hashSize d -> terminatorByte d' = terminatorByte d)
    by (intros d' H'; unfold terminatorByte; rewrite H'; reflexivity).
  rewrite Hhs; [reflexivity |].
  destruct (Write_view (set_t (if nx d =? 0 then set_nullt d true else d)
              (sub64 (t (if nx d =? 0 then set_nullt d true else d)) (sub64 440 (8 * nx d))))
              (slice pad 0 (55 - nx d))) as [Hv _].
  { apply set_t_wf. destruct (nx d =? 0); exact Hwf. }
  unfold view, absorbed in Hv. apply tuple7_inv in Hv. destruct Hv as (Hv & _).
  rewrite Hv. cbn [hashSize set_t]. destruct (nx d =? 0); reflexivity.
Qed.

Lemma checkSum_pad_long d :
  wf d -> 56 <= nx d ->
  checkSum_pad d =
  let d1 := Write (set_t d (sub64 (t d) (sub64 512 (8 * nx d)))) (slice pad 0 (64 - nx d)) in
  let d2 := Write (set_t d1 (sub64 (t d1) 440)) (slice pad 1 56) in
  let d3 := Write (set_nullt d2 true) [terminatorByte d] in
  set_t d3 (sub64 (t d3) 8).
Proof.
  intros Hwf Hnx. pose proof Hwf as [_ Hr]. unfold checkSum_pad.
  rewrite shl64_3 by lia. rewrite uint64_small by lia.
  replace (nx d =? 55) with false by (symmetry; apply Z.eqb_neq; lia).
  replace (nx d <? 55) with false by (symmetry; apply Z.ltb_ge; lia).
  cbv zeta. rewrite Write_terminator.
  assert (Hhs : forall d', hashSize d' = hashSize d -> terminatorByte d' = terminatorByte d)
    by (intros d' H'; unfold terminatorByte; rewrite H'; reflexivity).
  rewrite Hhs; [reflexivity |].
  cbn [hashSize set_nullt].
  assert (Hw : forall d' p, wf d' -> hashSize (Write d' p) = hashSize d').
  { intros d' p Hd'. destruct (Write_view d' p Hd') as [Hv _].
    unfold view, absorbed in Hv. apply tuple7_inv in Hv. apply Hv. }
  assert (Hwf1 : wf (set_t d (sub64 (t d) (sub64 512 (8 * nx d))))) by (apply set_t_wf, Hwf).
  rewrite Hw; [| apply set_t_wf, Write_wf, Hwf1].
  cbn [hashSize set_t]. rewrite Hw by exact Hwf1. reflexivity.
Qed.

Lemma len_bytes_len l : len (len_bytes l) = 8.
Proof. reflexivity. Qed.

Lemma checkSum_len_eq d : checkSum_len d = len_bytes (bit_length d).
Proof. reflexivity. Qed.

Lemma bit_length_eq d : wf d -> bit_length d = uint64 (t d + 8 * nx d).
Proof.
  intros [_ Hnx]. unfold bit_length. rewrite shl64_3 by lia. reflexivity.
Qed.

(** After the padding 56 bytes are buffered; the length field completes
    the block, which is compressed. *)
Lemma checkSum_after_pad d hs hl sl tv nt buf :
  shows (checkSum_pad d) (hs, hl, sl, tv, nt, 56, buf) ->
  shows (fst (checkSum d))
        (hs, chain_list (fst (compress (as_salt sl) nt (as_chain hl) (sub64 tv 64)
                                       (buf ++ checkSum_len d))),
         sl, snd (compress (as_salt sl) nt (as_chain hl) (sub64 tv 64) (buf ++ checkSum_len d)),
         nt, 0, []).
Proof.
  intros Hp. unfold checkSum. cbn [fst].
  pose proof (shows_h _ _ _ _ _ _ _ _ Hp) as (_ & _ & _ & Ht & _).
  rewrite Ht. apply shows_Write_fill with (n := 56); [| reflexivity].
  eapply shows_set_t. exact Hp.
Qed.

Lemma pad_view_exact d :
  wf d -> nx d = 55 ->
  shows (checkSum_pad d)
        (hashSize d, h d, s d, sub64 (t d) 8, nullt d, 56, buffered d ++ [domainByte d]).
Proof.
  intros Hwf Hnx. rewrite checkSum_pad_exact by assumption.
  change 56 with (55 + len [domainByte d]).
  apply shows_Write_small; [| cbn; lia].
  eapply shows_set_t. rewrite <- Hnx. apply shows_self, Hwf.
Qed.

Lemma pad_view_short d :
  wf d -> nx d < 55 ->
  shows (checkSum_pad d)
        (hashSize d, h d, s d, sub64 (sub64 (t d) (sub64 440 (8 * nx d))) 8,
         (if nx d =? 0 then true else nullt d), 56,
         (buffered d ++ slice pad 0 (55 - nx d)) ++ [terminatorByte d]).
Proof.
  intros Hwf Hnx. pose proof Hwf as [_ Hr].
  rewrite checkSum_pad_short by assumption. cbv zeta.
  assert (H1 : shows (if nx d =? 0 then set_nullt d true else d)
                 (hashSize d, h d, s d, t d, (if nx d =? 0 then true else nullt d),
                  nx d, buffered d)).
  { destruct (nx d =? 0); [eapply shows_set_nullt |]; apply shows_self, Hwf. }
  pose proof (shows_h _ _ _ _ _ _ _ _ H1) as (_ & _ & _ & Ht1 & _).
  rewrite Ht1.
  assert (Hpl : len (slice pad 0 (55 - nx d)) = 55 - nx d).
  { rewrite pad_prefix by lia. rewrite len_cons, len_repeat. lia. }
  assert (H2 : shows (Write (set_t (if nx d =? 0 then set_nullt d true else d)
                               (sub64 (t d) (sub64 440 (8 * nx d))))
                            (slice pad 0 (55 - nx d)))
                 (hashSize d, h d, s d, sub64 (t d) (sub64 440 (8 * nx d)),
                  (if nx d =? 0 then true else nullt d), 55,
                  buffered d ++ slice pad 0 (55 - nx d))).
  { pose proof (shows_Write_small _ _ _ _ _ _ _ _ (slice pad 0 (55 - nx d))
                  (shows_set_t _ _ _ _ _ _ _ _ (t d - sub64 440 (8 * nx d)) H1)) as H.
    rewrite Hpl in H. replace (nx d + (55 - nx d)) with 55 in H by lia.
    apply H. lia. }
  assert (H3 : shows (Write (Write (set_t (if nx d =? 0 then set_nullt d true else d)
                               (sub64 (t d) (sub64 440 (8 * nx d))))
                            (slice pad 0 (55 - nx d))) [terminatorByte d])
                 (hashSize d, h d, s d, sub64 (t d) (sub64 440 (8 * nx d)),
                  (if nx d =? 0 then true else nullt d), 56,
                  (buffered d ++ slice pad 0 (55 - nx d)) ++ [terminatorByte d])).
  { change 56 with (55 + len [terminatorByte d]).
    apply shows_Write_small; [exact H2 | cbn; lia]. }
  pose proof (shows_h _ _ _ _ _ _ _ _ H3) as (_ & _ & _ & Ht3 & _).
  rewrite Ht3. eapply shows_set_t. exact H3.
Qed.

Lemma pad_view_long d :
  wf d -> 56 <= nx d ->
  let c1 := compress (salt_of d) (nullt d) (chain_of d)
                     (sub64 (t d) (sub64 512 (8 * nx d)))
                     (buffered d ++ slice pad 0 (64 - nx d)) in
  shows (Write (set_t d (sub64 (t d) (sub64 512 (8 * nx d)))) (slice pad 0 (64 - nx d)))
        (hashSize d, chain_list (fst c1), s d, snd c1, nullt d, 0, []) /\
  shows (checkSum_pad d)
        (hashSize d, chain_list (fst c1), s d, sub64 (sub64 (snd c1) 440) 8, true, 56,
         repeat 0 55 ++ [terminatorByte d]).
Proof.
  intros Hwf Hnx c1. pose proof Hwf as [_ Hr].
  assert (Hpl : len (slice pad 0 (64 - nx d)) = 64 - nx d).
  { rewrite pad_prefix by lia. rewrite len_cons, len_repeat. lia. }
  assert (H1 : shows (Write (set_t d (sub64 (t d) (sub64 512 (8 * nx d))))
                            (slice pad 0 (64 - nx d)))
                 (hashSize d, chain_list (fst c1), s d, snd c1, nullt d, 0, [])).
  { apply shows_Write_fill with (n := nx d); [| lia]. eapply shows_set_t. apply shows_self, Hwf. }
  split; [exact H1 |].
  rewrite checkSum_pad_long by assumption. cbv zeta.
  set (d1 := Write (set_t d (sub64 (t d) (sub64 512 (8 * nx d)))) (slice pad 0 (64 - nx d))) in *.
  pose proof (shows_h _ _ _ _ _ _ _ _ H1) as (_ & _ & _ & Ht1 & _).
  rewrite Ht1, pad_zeros.
  assert (H2 : shows (Write (set_t d1 (sub64 (snd c1) 440)) (repeat 0 55))
                 (hashSize d, chain_list (fst c1), s d, sub64 (snd c1) 440, nullt d,
                  55, repeat 0 55)).
  { exact (shows_Write_small _ _ _ _ _ _ _ _ (repeat 0 55)
             (shows_set_t _ _ _ _ _ _ _ _ (snd c1 - 440) H1) eq_refl). }
  set (d2 := Write (set_t d1 (sub64 (snd c1) 440)) (repeat 0 55)) in *.
  assert (H3 : shows (Write (set_nullt d2 true) [terminatorByte d])
                 (hashSize d, chain_list (fst c1), s d, sub64 (snd c1) 440, true,
                  56, repeat 0 55 ++ [terminatorByte d])).
  { change 56 with (55 + len [terminatorByte d]).
    apply shows_Write_small; [| cbn; lia]. eapply shows_set_nullt. exact H2. }
  pose proof (shows_h _ _ _ _ _ _ _ _ H3) as (_ & _ & _ & Ht3 & _).
  rewrite Ht3. eapply shows_set_t. exact H3.
Qed.

(** In every branch the last compression leaves the counter at the bit
    length of the message. *)
Lemma checkSum_counter d : wf d -> t (fst (checkSum d)) = bit_length d.
Proof.
  intros Hwf. pose proof Hwf as [(_ & _ & _ & Ht) Hr].
  rewrite bit_length_eq by assumption.
  destruct (Z.eq_dec (nx d) 55) as [H55 | Hne].
  - pose proof (checkSum_after_pad d _ _ _ _ _ _ (pad_view_exact d Hwf H55)) as Hf.
    apply shows_h in Hf. destruct Hf as (_ & _ & _ & Hf & _).
    rewrite Hf, compress_counter, H55. counters.
  - destruct (Z_lt_dec (nx d) 55) as [Hlt | Hge].
    + pose proof (checkSum_after_pad d _ _ _ _ _ _ (pad_view_short d Hwf Hlt)) as Hf.
      apply shows_h in Hf. destruct Hf as (_ & _ & _ & Hf & _).
      rewrite Hf, compress_counter. counters.
    + assert (H56 : 56 <= nx d) by lia.
      destruct (pad_view_long d Hwf H56) as [_ Hp].
      pose proof (checkSum_after_pad d _ _ _ _ _ _ Hp) as Hf.
      apply shows_h in Hf. destruct Hf as (_ & _ & _ & Hf & _).
      rewrite Hf, !compress_counter. counters.
Qed.

(** ** The state after [checkSum] and the serialisation *)

Lemma as_chain_list hv : as_chain (chain_list hv) = hv.
Proof. destruct hv as [[[[[[[h0 h1] h2] h3] h4] h5] h6] h7]. reflexivity. Qed.

Lemma checkSum_shows d :
  wf d ->
  exists hl tv nt, shows (fst (checkSum d)) (hashSize d, hl, s d, tv, nt, 0, []).
Proof.
  intros Hwf.
  destruct (Z.eq_dec (nx d) 55) as [H55 | Hne].
  - pose proof (checkSum_after_pad d _ _ _ _ _ _ (pad_view_exact d Hwf H55)) as Hf.
    eauto.
  - destruct (Z_lt_dec (nx d) 55) as [Hlt | Hge].
    + pose proof (checkSum_after_pad d _ _ _ _ _ _ (pad_view_short d Hwf Hlt)) as Hf.
      eauto.
    + assert (H56 : 56 <= nx d) by lia.
      destruct (pad_view_long d Hwf H56) as [_ Hp].
      pose proof (checkSum_after_pad d _ _ _ _ _ _ Hp) as Hf. eauto.
Qed.

Lemma checkSum_out_256 c :
  len (h c) = 8 -> hashSize c = 256 -> checkSum_out c = flat_map be_bytes (h c).
Proof.
  unfold len, checkSum_out. intros Hh ->.
  destruct (h c) as [| h0 [| h1 [| h2 [| h3 [| h4 [| h5 [| h6 [| h7 [| h8 l]]]]]]]]];
    cbn [length] in Hh; try lia.
  cbv -[byte shr32]. reflexivity.
Qed.

Lemma checkSum_out_224 c :
  len (h c) = 8 -> hashSize c = 224 ->
  checkSum_out c = flat_map be_bytes (slice_to (h c) 7) ++ [0; 0; 0; 0].
Proof.
  unfold len, checkSum_out. intros Hh ->.
  destruct (h c) as [| h0 [| h1 [| h2 [| h3 [| h4 [| h5 [| h6 [| h7 [| h8 l]]]]]]]]];
    cbn [length] in Hh; try lia.
  cbv -[byte shr32]. reflexivity.
Qed.

(** ** The length field *)

Lemma be_value_len_bytes l : 0 <= l < 2 ^ 64 -> be_value (len_bytes l) = l.
Proof.
  intros Hl. unfold be_value, len_bytes, byte, shr64. cbn [fold_left].
  rewrite !Z.shiftr_div_pow2 by lia.
  change (2 ^ 8) with 256. change (2 ^ 16) with 65536.
  change (2 ^ 24) with 16777216. change (2 ^ 32) with 4294967296.
  change (2 ^ 40) with 1099511627776. change (2 ^ 48) with 281474976710656.
  change (2 ^ 56) with 72057594037927936.
  change (2 ^ 64) with 18446744073709551616 in Hl.
  divmod.
Qed.

Lemma byte_range a : 0 <= byte a < 256.
Proof. unfold byte. change (2 ^ 8) with 256. apply Z.mod_pos_bound. lia. Qed.

Lemma len_bytes_bytes l : bytes (len_bytes l).
Proof. unfold bytes, len_bytes. repeat constructor; apply byte_range. Qed.

Lemma bit_length_Write d p :
  wf d -> bit_length (Write d p) = uint64 (bit_length d + 8 * len p).
Proof.
  intros Hwf. pose proof (Write_wf d p Hwf) as Hwf'.
  rewrite !bit_length_eq by assumption.
  pose proof (Write_absorbed d p Hwf) as Hv. unfold view, absorbed in Hv.
  apply tuple7_inv in Hv. destruct Hv as (_ & _ & _ & Ht & _ & Hnx & _).
  pose proof Hwf as [(_ & _ & _ & Htr) Hr].
  rewrite Ht, Hnx.
  rewrite (block_loop_counter _ _ (length (buffered d ++ p))) by (auto; lia).
  rewrite len_app, buffered_len by assumption.
  pose proof (len_nonneg p). counters.
Qed.

Lemma bit_length_chunks ps :
  forall d, wf d ->
  bit_length (fold_left Write ps d) = uint64 (bit_length d + 8 * len (concat ps)).
Proof.
  induction ps as [| p ps IH]; intros d Hwf; cbn [fold_left concat].
  - rewrite bit_length_eq by assumption. rewrite (@len_nil Z). counters.
  - rewrite IH by (apply Write_wf, Hwf). rewrite bit_length_Write by assumption.
    rewrite len_app. counters.
Qed.

(** ** Reachable digests *)

Lemma New_wf : wf New.
Proof. unfold wf, typed. cbn. lia. Qed.

Lemma New224_wf : wf New224.
Proof. unfold wf, typed. cbn. lia. Qed.

Lemma setSalt_Some d sl d' :
  setSalt d sl = Some d' ->
  len sl = 16 /\ d' = set_s d [be32 sl 0; be32 sl 4; be32 sl 8; be32 sl 12].
Proof.
  unfold setSalt. destruct (Z.eqb_spec (len sl) 16) as [He | Hne]; cbn [negb].
  - intros [= <-]. split; [assumption | reflexivity].
  - discriminate.
Qed.

Lemma setSalt_wf d sl d' : wf d -> setSalt d sl = Some d' -> wf d'.
Proof.
  intros [(Hh & Hs & Hx & Ht) Hnx] H. apply setSalt_Some in H. destruct H as [_ ->].
  unfold wf, typed. cbn [h s x t nx set_s]. repeat split; try assumption; lia.
Qed.

Lemma Reset_wf d : wf d -> wf (Reset d).
Proof.
  intros [(Hh & Hs & Hx & Ht) Hnx]. unfold Reset, wf, typed.
  destruct (hashSize d =? 224); cbn [h s x t nx set_h set_t set_nx set_nullt];
    repeat split; try assumption; try reflexivity; lia.
Qed.

Lemma reachable_wf d : reachable d -> wf d.
Proof.
  induction 1 as [| | sl d H | sl d H | d p _ IH | d _ IH].
  - exact New_wf.
  - exact New224_wf.
  - exact (setSalt_wf _ _ _ New_wf H).
  - exact (setSalt_wf _ _ _ New224_wf H).
  - apply Write_wf, IH.
  - apply Reset_wf, IH.
Qed.

(** ** Big-endian packing *)

Lemma land_shiftl_small hi lo k :
  0 <= k -> 0 <= lo < 2 ^ k -> Z.land (Z.shiftl hi k) lo = 0.
Proof.
  intros Hk Hlo. apply Z.bits_inj'. intros n Hn.
  rewrite Z.land_spec, Z.bits_0.
  destruct (Z_lt_dec n k) as [Hlt | Hge].
  - rewrite Z.shiftl_spec_low by lia. reflexivity.
  - destruct (Z.eq_dec lo 0) as [-> | Hnz].
    + rewrite Z.bits_0. apply andb_false_r.
    + rewrite (Z.bits_above_log2 lo n); [apply andb_false_r | lia |].
      assert (Z.log2 lo < k) by (apply Z.log2_lt_pow2; lia). lia.
Qed.

Lemma lor_shiftl_add hi lo k :
  0 <= k -> 0 <= lo < 2 ^ k -> Z.lor (Z.shiftl hi k) lo = hi * 2 ^ k + lo.
Proof.
  intros Hk Hlo. pose proof (Z.add_lor_land (Z.shiftl hi k) lo) as H.
  rewrite land_shiftl_small in H by assumption.
  rewrite Z.shiftl_mul_pow2 in * by lia. lia.
Qed.

Lemma be32_pack a b c d :
  0 <= a < 256 -> 0 <= b < 256 -> 0 <= c < 256 -> 0 <= d < 256 ->
  or32 (or32 (or32 (shl32 a 24) (shl32 b 16)) (shl32 c 8)) (uint32 d) =
  be_value [a; b; c; d].
Proof.
  intros Ha Hb Hc Hd. unfold or32, shl32, uint32, be_value. cbn [fold_left].
  rewrite !Z.shiftl_mul_pow2 by lia.
  change (2 ^ 24) with 16777216. change (2 ^ 16) with 65536.
  change (2 ^ 8) with 256. change (2 ^ 32) with 4294967296.
  rewrite !Z.mod_small by lia.
  replace (a * 16777216) with (Z.shiftl a 24)
    by (rewrite Z.shiftl_mul_pow2 by lia; change (2 ^ 24) with 16777216; lia).
  rewrite lor_shiftl_add by (change (2 ^ 24) with 16777216; lia).
  change (2 ^ 24) with 16777216.
  replace (a * 16777216 + b * 65536) with (Z.shiftl (a * 256 + b) 16)
    by (rewrite Z.shiftl_mul_pow2 by lia; change (2 ^ 16) with 65536; lia).
  rewrite lor_shiftl_add by (change (2 ^ 16) with 65536; lia).
  change (2 ^ 16) with 65536.
  replace ((a * 256 + b) * 65536 + c * 256)
    with (Z.shiftl (a * 65536 + b * 256 + c) 8)
    by (rewrite Z.shiftl_mul_pow2 by lia; change (2 ^ 8) with 256; lia).
  rewrite lor_shiftl_add by (change (2 ^ 8) with 256; lia).
  change (2 ^ 8) with 256. lia.
Qed.

Lemma setSalt_words sl d d' :
  len sl = 16 -> bytes sl -> setSalt d sl = Some d' ->
  s d' = map be_value [slice sl 0 4; slice sl 4 8; slice sl 8 12; slice sl 12 16].
Proof.
  intros Hl Hb H. apply setSalt_Some in H. destruct H as [_ ->]. cbn [s set_s].
  unfold len in Hl.
  do 16 (destruct sl as [| ? sl]; [cbn [length] in Hl; lia |]).
  destruct sl; [| cbn [length] in Hl; lia].
  unfold bytes in Hb.
  repeat match goal with
         | H : Forall _ (_ :: _) |- _ => inversion H; clear H; subst
         end.
  unfold be32, idx. cbn [nth Nat.add map slice Z.to_nat Z.sub Z.add Z.opp Z.pos_sub
                             Pos.to_nat Pos.iter_op Nat.add skipn firstn
                             Pos.succ Pos.pred_double Z.succ_double Z.pred_double Z.double].
  rewrite !be32_pack by assumption. reflexivity.
Qed.

Lemma sub64_sub64 a b c : sub64 (sub64 a b) c = sub64 a (b + c).
Proof. counters. Qed.

Lemma add64_sub64 a b : add64 (sub64 a b) b = uint64 a.
Proof. counters. Qed.

(** * The claims *)

(** C1. Chunking invariance: on a well-formed digest (every digest made by
    [New], [New224] or their salted forms and written to is one), writing
    the chunks of a byte sequence one after the other, empty and one-byte
    chunks included, and then calling [Sum] returns the bytes that one
    [Write] of the whole sequence followed by [Sum] returns. *)
Theorem C1_chunking_invariance (d : digest) (chunks : list (list Z)) (in_ : list Z) :
  wf d ->
  snd (Sum (fold_left Write chunks d) in_) = snd (Sum (Write d (concat chunks)) in_).
Proof.
  intros Hwf. apply same_Sum. split; [| split].
  - apply Write_chunks_wf, Hwf.
  - apply Write_wf, Hwf.
  - apply Write_chunks_view, Hwf.
Qed.

Lemma C1_chunking_invariance_witness :
  wf New224 /\
  snd (Sum (fold_left Write [[1]; []; [2; 3]] New224) []) =
  snd (Sum (Write New224 (concat [[1]; []; [2; 3]])) []).
Proof.
  split.
  - exact New224_wf.
  - apply (C1_chunking_invariance New224 [[1]; []; [2; 3]] []). exact New224_wf.
Defined.

(** C2, as the claim states it, fails: with 56 zero bytes written to a
    new digest, the second padding write of [checkSum] starts with [0x00],
    and feeding [0x80] followed by 54 zero bytes there gives another state
    and another digest. *)
Lemma C2_counterexample :
  wf (Write New (repeat 0 56)) /\
  nx (Write New (repeat 0 56)) = 56 /\
  checkSum_pad (Write New (repeat 0 56)) =
    pad_two_blocks (slice pad 1 56) (Write New (repeat 0 56)) /\
  idx (slice pad 1 56) 0 = 0x00 /\
  buffered (checkSum_pad (Write New (repeat 0 56))) <>
    buffered (pad_two_blocks (0x80 :: repeat 0 54) (Write New (repeat 0 56))) /\
  snd (checkSum (Write New (repeat 0 56))) <>
    checkSum_out
      (Write (set_t (pad_two_blocks (0x80 :: repeat 0 54) (Write New (repeat 0 56)))
                    (sub64 (t (pad_two_blocks (0x80 :: repeat 0 54)
                                              (Write New (repeat 0 56)))) 64))
             (checkSum_len (Write New (repeat 0 56)))).
Proof.
  split; [apply Write_wf, New_wf |].
  split; [vm_compute; reflexivity |].
  split; [vm_compute; reflexivity |].
  split; [reflexivity |].
  split; vm_compute; discriminate.
Qed.

(** C2, amended. With 56 to 63 bytes buffered the finaliser feeds the
    [64 - nx] bytes [0x80, 0, ..., 0] that complete the block, the counter
    set back so that the compression this triggers runs at the bit length
    of the message; then 55 zero bytes (the first is [0x00]) and the
    terminator byte, which are buffered with the skip-counter flag set; the
    length field then triggers the second compression, which runs with the
    flag set. *)
Theorem C2_two_compressions (d : digest) :
  wf d -> 56 <= nx d <= 63 ->
  let fill := slice pad 0 (64 - nx d) in
  let t1 := sub64 (t d) (sub64 512 (8 * nx d)) in
  let c1 := compress (salt_of d) (nullt d) (chain_of d) t1 (buffered d ++ fill) in
  let last := (repeat 0 55 ++ [terminatorByte d]) ++ checkSum_len d in
  let c2 := compress (salt_of d) true (fst c1) (sub64 (bit_length d) 512) last in
  checkSum_pad d = pad_two_blocks (repeat 0 55) d /\
  fill = 0x80 :: repeat 0 (Z.to_nat (63 - nx d)) /\
  view (Write (set_t d t1) fill) =
    (hashSize d, chain_list (fst c1), s d, bit_length d, nullt d, 0, []) /\
  view (checkSum_pad d) =
    (hashSize d, chain_list (fst c1), s d, sub64 (bit_length d) 448, true, 56,
     repeat 0 55 ++ [terminatorByte d]) /\
  terminatorByte d = (if hashSize d =? 224 then 0x00 else 0x01) /\
  view (fst (checkSum d)) = (hashSize d, chain_list (fst c2), s d, bit_length d, true, 0, []).
Proof.
  intros Hwf Hnx fill t1 c1 last c2.
  pose proof Hwf as [(_ & _ & _ & Ht) _].
  assert (H56 : 56 <= nx d) by lia.
  destruct (pad_view_long d Hwf H56) as [H1 Hp]. fold fill t1 c1 in H1, Hp.
  assert (Hc1 : snd c1 = bit_length d).
  { unfold c1. rewrite compress_counter, bit_length_eq by assumption.
    unfold t1. counters. }
  assert (Ht2 : sub64 (sub64 (snd c1) 440) 8 = sub64 (bit_length d) 448)
    by (rewrite Hc1, sub64_sub64; reflexivity).
  split.
  { unfold checkSum_pad, pad_two_blocks.
    rewrite uint64_small by lia.
    replace (nx d =? 55) with false by (symmetry; apply Z.eqb_neq; lia).
    replace (nx d <? 55) with false by (symmetry; apply Z.ltb_ge; lia).
    rewrite pad_zeros. reflexivity. }
  split; [unfold fill; rewrite pad_prefix by lia; do 2 f_equal; lia |].
  split; [destruct H1 as [_ H1]; rewrite H1, Hc1; reflexivity |].
  split; [destruct Hp as [_ Hp]; rewrite Hp, Ht2; reflexivity |].
  split; [reflexivity |].
  assert (Hc2 : snd c2 = bit_length d).
  { unfold c2. rewrite compress_counter, add64_sub64.
    rewrite bit_length_eq by assumption. unfold uint64. apply Z.mod_mod. lia. }
  pose proof (checkSum_after_pad d _ _ _ _ _ _ Hp) as [_ Hf].
  rewrite Hf, as_chain_list, Hc1, !sub64_sub64.
  change (440 + (8 + 64)) with 512. change (as_salt (s d)) with (salt_of d).
  fold last. fold c2. rewrite Hc2. reflexivity.
Qed.

Lemma C2_two_compressions_witness :
  wf (Write New (repeat 0 56)) /\
  56 <= nx (Write New (repeat 0 56)) <= 63 /\
  checkSum_pad (Write New (repeat 0 56)) =
    pad_two_blocks (repeat 0 55) (Write New (repeat 0 56)).
Proof.
  assert (Hwf : wf (Write New (repeat 0 56))) by (apply Write_wf, New_wf).
  assert (Hnx : 56 <= nx (Write New (repeat 0 56)) <= 63) by (vm_compute; split; discriminate).
  split; [exact Hwf |]. split; [exact Hnx |].
  apply (C2_two_compressions (Write New (repeat 0 56)) Hwf Hnx).
Defined.

(** C3. Length field: after any run of writes to a digest that starts with
    counter and buffer at zero, the eight bytes that [checkSum] computes
    first and feeds last, in every branch, are the big-endian bytes of 8
    times the number of bytes written, modulo 2^64; the counter, set back
    during the padding (below zero, that is around 2^64, for the empty
    message), is that bit length again after the last compression. *)
Theorem C3_length_field (d0 : digest) (chunks : list (list Z)) :
  fresh d0 ->
  let d := fold_left Write chunks d0 in
  let bits := (8 * len (concat chunks)) mod 2 ^ 64 in
  checkSum_len d = len_bytes bits /\
  len (checkSum_len d) = 8 /\ bytes (checkSum_len d) /\
  be_value (checkSum_len d) = bits /\
  fst (checkSum d) =
    Write (set_t (checkSum_pad d) (sub64 (t (checkSum_pad d)) 64)) (len_bytes bits) /\
  t (fst (checkSum d)) = bits.
Proof.
  intros (Hwf & Ht0 & Hnx0) d bits.
  assert (Hwfd : wf d) by (apply Write_chunks_wf, Hwf).
  assert (Hbits : bit_length d = bits).
  { unfold d. rewrite bit_length_chunks by assumption.
    rewrite bit_length_eq by assumption. rewrite Ht0, Hnx0.
    unfold bits, uint64. cbn [Z.mul Z.add]. rewrite Zplus_mod_idemp_l. reflexivity. }
  assert (Hrange : 0 <= bits < 2 ^ 64) by (apply Z.mod_pos_bound; lia).
  assert (Hlen : checkSum_len d = len_bytes bits)
    by (rewrite checkSum_len_eq, Hbits; reflexivity).
  split; [exact Hlen |].
  split; [reflexivity |].
  split; [apply len_bytes_bytes |].
  split; [rewrite Hlen; apply be_value_len_bytes, Hrange |].
  split; [unfold checkSum; rewrite Hlen; reflexivity |].
  rewrite checkSum_counter by assumption. exact Hbits.
Qed.

Lemma C3_length_field_witness :
  fresh New /\
  checkSum_len (fold_left Write [] New) = len_bytes ((8 * len (concat (@nil (list Z)))) mod 2 ^ 64).
Proof.
  assert (Hf : fresh New) by (split; [exact New_wf | split; reflexivity]).
  split; [exact Hf |].
  exact (proj1 (C3_length_field New [] Hf)).
Defined.


(** C4. Every compression advances the counter by 512 (modulo 2^64)
    before using it, and starts the rounds from the chain value in
    [v0..v7], the first four constants xored with the salt in [v8..v11] and
    the next four constants in [v12..v15], where the low counter word is
    xored into [v12] and [v13] and the high counter word into [v14] and
    [v15] when the skip-counter flag is clear, and nothing is when it is
    set. *)
Theorem C4_counter_and_salt_injection
  (h0 h1 h2 h3 h4 h5 h6 h7 s0 s1 s2 s3 tv : Z) (nt : bool) (p : list Z) :
  let tv' := (tv + 512) mod 2 ^ 64 in
  let lo := tv' mod 2 ^ 32 in
  let hi := (Z.shiftr tv' 32) mod 2 ^ 32 in
  let counter (c w : Z) := if nt then c else Z.lxor c w in
  let v := (h0, h1, h2, h3, h4, h5, h6, h7,
            Z.lxor cst0 s0, Z.lxor cst1 s1, Z.lxor cst2 s2, Z.lxor cst3 s3,
            counter cst4 lo, counter cst5 lo, counter cst6 hi, counter cst7 hi) in
  block_init (h0, h1, h2, h3, h4, h5, h6, h7) (s0, s1, s2, s3) tv nt = (v, tv') /\
  compress (s0, s1, s2, s3) nt (h0, h1, h2, h3, h4, h5, h6, h7) tv p =
  (block_fold (h0, h1, h2, h3, h4, h5, h6, h7) (s0, s1, s2, s3) (rounds (block_words p) v),
   tv').
Proof.
  intros tv' lo hi counter v.
  assert (Hi : block_init (h0, h1, h2, h3, h4, h5, h6, h7) (s0, s1, s2, s3) tv nt = (v, tv'))
    by (destruct nt; reflexivity).
  split; [exact Hi |].
  unfold compress. rewrite Hi. reflexivity.
Qed.

Lemma round_permutation m r r' v :
  ((r - 1) mod 10 = (r' - 1) mod 10)%nat ->
  Reference.round m r v = Reference.round m r' v.
Proof. intros H. unfold Reference.round. rewrite H. reflexivity. Qed.

(** C5. Refinement: on a digest with an eight-word chain value and a
    four-word salt, the unrolled [block] is the table-driven reference:
    fourteen rounds of eight G operations (columns, then diagonals) with
    rotations by 16, 12, 8 and 7, round [r] using permutation
    [(r - 1) mod 10], so that rounds 11 to 14 are rounds 1 to 4, and the
    combination [h[k] ^= v[k] ^ v[k+8] ^ s[k mod 4]] at the end. *)
Theorem C5_block_refines_reference (d : digest) (p : list Z) :
  len (h d) = 8 -> len (s d) = 4 ->
  block d p = Reference.block d p /\
  (forall m v, Reference.round m 11 v = Reference.round m 1 v) /\
  (forall m v, Reference.round m 12 v = Reference.round m 2 v) /\
  (forall m v, Reference.round m 13 v = Reference.round m 3 v) /\
  (forall m v, Reference.round m 14 v = Reference.round m 4 v).
Proof.
  intros Hh Hs.
  split; [| split; [| split; [| split]]; intros m v; apply round_permutation; reflexivity].
  rewrite block_eq. unfold Reference.block.
  pose proof (block_loop_ref (salt_of d) (nullt d) (length p) p (chain_of d) (t d) (le_n _)) as H.
  rewrite chain_of_list in H by assumption.
  assert (Hsl : salt_list (salt_of d) = s d).
  { unfold len in Hs. unfold salt_of, as_salt.
    destruct (s d) as [| s0 [| s1 [| s2 [| s3 [| s4 l]]]]]; cbn [length] in Hs; try lia.
    reflexivity. }
  rewrite Hsl in H. rewrite <- H. reflexivity.
Qed.

Lemma C5_block_refines_reference_witness :
  len (h New) = 8 /\ len (s New) = 4 /\
  block New (repeat 0 64) = Reference.block New (repeat 0 64).
Proof.
  split; [reflexivity |]. split; [reflexivity |].
  apply (C5_block_refines_reference New (repeat 0 64) eq_refl eq_refl).
Defined.


(** C7. Exact fit: with 55 bytes buffered the finaliser sets the counter
    back by 8 and feeds the one byte [0x81] (256 bits) or [0x80]
    (224 bits), which is only buffered; the length field is fed next and
    completes the block, and the state that results is that of one
    compression of the buffered bytes, the marker and the length field. *)
Theorem C7_exact_fit (d : digest) :
  wf d -> nx d = 55 ->
  let blk := (buffered d ++ [domainByte d]) ++ checkSum_len d in
  let c := compress (salt_of d) (nullt d) (chain_of d) (sub64 (t d) 72) blk in
  domainByte d = (if hashSize d =? 224 then 0x80 else 0x81) /\
  checkSum_pad d = Write (set_t d (sub64 (t d) 8)) [domainByte d] /\
  view (checkSum_pad d) =
    (hashSize d, h d, s d, sub64 (t d) 8, nullt d, 56, buffered d ++ [domainByte d]) /\
  fst (checkSum d) =
    Write (set_t (checkSum_pad d) (sub64 (t (checkSum_pad d)) 64)) (checkSum_len d) /\
  len blk = 64 /\
  view (fst (checkSum d)) =
    (hashSize d, chain_list (fst c), s d, bit_length d, nullt d, 0, []).
Proof.
  intros Hwf Hnx blk c.
  pose proof (pad_view_exact d Hwf Hnx) as Hp.
  split; [reflexivity |].
  split; [apply checkSum_pad_exact; assumption |].
  split; [apply Hp |].
  split; [reflexivity |].
  split.
  { unfold blk. rewrite !len_app, buffered_len, Hnx by assumption. reflexivity. }
  assert (Hc : snd c = bit_length d).
  { unfold c. rewrite compress_counter, bit_length_eq, Hnx by assumption.
    pose proof Hwf as [(_ & _ & _ & Ht) _]. counters. }
  pose proof (checkSum_after_pad d _ _ _ _ _ _ Hp) as [_ Hf].
  rewrite Hf, sub64_sub64. change (8 + 64) with 72.
  change (as_salt (s d)) with (salt_of d). change (as_chain (h d)) with (chain_of d).
  fold blk. fold c. rewrite Hc. reflexivity.
Qed.

Lemma C7_exact_fit_witness :
  wf (Write New224 (repeat 7 55)) /\ nx (Write New224 (repeat 7 55)) = 55 /\
  domainByte (Write New224 (repeat 7 55)) = 0x80.
Proof.
  assert (Hwf : wf (Write New224 (repeat 7 55))) by (apply Write_wf, New224_wf).
  assert (Hnx : nx (Write New224 (repeat 7 55)) = 55) by (vm_compute; reflexivity).
  split; [exact Hwf |]. split; [exact Hnx |].
  apply (C7_exact_fit (Write New224 (repeat 7 55)) Hwf Hnx).
Defined.

(** C8. Salt length: [NewSalt] and [New224Salt] panic exactly when the
    salt is not 16 bytes long; a 16-byte salt gives a digest whose four
    salt words are the big-endian values of the four groups of four bytes,
    all sixteen bytes used and nothing added; [Write] reports the number
    of bytes taken and no error, and leaves a well-formed digest well
    formed, as [checkSum] does. *)
Theorem C8_salt_length (sl : list Z) (d : digest) (p : list Z) :
  (NewSalt sl = None <-> len sl <> 16) /\
  (New224Salt sl = None <-> len sl <> 16) /\
  (len sl = 16 -> bytes sl ->
   exists d256 d224,
     NewSalt sl = Some d256 /\ New224Salt sl = Some d224 /\
     s d256 = map be_value [slice sl 0 4; slice sl 4 8; slice sl 8 12; slice sl 12 16] /\
     s d224 = s d256 /\
     d256 = set_s New (s d256) /\ d224 = set_s New224 (s d224)) /\
  Write_result d p = (len p, None) /\
  (wf d -> wf (Write d p) /\ wf (fst (checkSum d))).
Proof.
  assert (Hnone : forall d0, setSalt d0 sl = None <-> len sl <> 16).
  { intros d0. unfold setSalt.
    destruct (Z.eqb_spec (len sl) 16) as [He | Hne]; cbn [negb]; split;
      intros H; try discriminate; try reflexivity; try assumption; contradiction. }
  split; [apply Hnone |]. split; [apply Hnone |].
  split.
  { intros Hl Hb.
    assert (H1 : NewSalt sl = Some (set_s New [be32 sl 0; be32 sl 4; be32 sl 8; be32 sl 12]))
      by (unfold NewSalt, setSalt; rewrite Hl; reflexivity).
    assert (H2 : New224Salt sl = Some (set_s New224 [be32 sl 0; be32 sl 4; be32 sl 8; be32 sl 12]))
      by (unfold New224Salt, setSalt; rewrite Hl; reflexivity).
    eexists. eexists.
    split; [exact H1 |]. split; [exact H2 |].
    split; [exact (setSalt_words sl New _ Hl Hb H1) |].
    split; [reflexivity |]. split; reflexivity. }
  split; [reflexivity |].
  intros Hwf. split; [apply Write_wf, Hwf |].
  destruct (checkSum_shows d Hwf) as (hl & tv & nt & Hs & _). exact Hs.
Qed.

Lemma C8_salt_length_witness :
  len (repeat 1 16) = 16 /\ bytes (repeat 1 16) /\ wf New /\
  (NewSalt (repeat 1 16) = None <-> len (repeat 1 16) <> 16).
Proof.
  split; [reflexivity |].
  split; [unfold bytes; cbn [repeat]; repeat constructor; lia |].
  split; [exact New_wf |].
  exact (proj1 (C8_salt_length (repeat 1 16) New [])).
Defined.

(** C9. Buffer size: a reachable digest has between 0 and 63 bytes
    buffered, and so has it after every [Write], of any length; the number
    buffered after the write is the number before plus the length
    written, modulo 64. *)
Theorem C9_buffer_invariant (d : digest) (p : list Z) :
  reachable d ->
  0 <= nx d < 64 /\
  0 <= nx (Write d p) < 64 /\
  nx (Write d p) = (nx d + len p) mod 64 /\
  len (x (Write d p)) = 64.
Proof.
  intros Hr. pose proof (reachable_wf d Hr) as Hwf.
  pose proof (Write_wf d p Hwf) as [(_ & _ & Hx & _) Hnx'].
  pose proof (Write_absorbed d p Hwf) as Hv. unfold view, absorbed in Hv.
  apply tuple7_inv in Hv. destruct Hv as (_ & _ & _ & _ & _ & Hnx & _).
  rewrite len_app, buffered_len in Hnx by assumption.
  destruct Hwf as [_ Hn].
  split; [exact Hn |]. split; [exact Hnx' |]. split; [exact Hnx | exact Hx].
Qed.

Lemma C9_buffer_invariant_witness :
  reachable (Write New (repeat 5 100)) /\
  0 <= nx (Write (Write New (repeat 5 100)) (repeat 6 200)) < 64.
Proof.
  assert (Hr : reachable (Write New (repeat 5 100))) by (apply reach_Write, reach_New).
  split; [exact Hr |].
  exact (proj1 (proj2 (C9_buffer_invariant (Write New (repeat 5 100)) (repeat 6 200) Hr))).
Defined.

(** C10. [Sum] appends: on a well-formed digest of either size the slice
    returned is [in] followed by the big-endian bytes of the first eight
    (256 bits, 32 bytes) or the first seven (224 bits, 28 bytes) words of
    the chain value that [checkSum] ends with; the four bytes that the
    224-bit [checkSum] leaves after them in its array are zero. *)
Theorem C10_sum_appends (d : digest) (in_ : list Z) :
  wf d -> hashSize d = 256 \/ hashSize d = 224 ->
  let words := if hashSize d =? 224 then 7 else 8 in
  let dig := flat_map be_bytes (slice_to (h (fst (checkSum d))) words) in
  snd (Sum d in_) = in_ ++ dig /\
  slice_to (snd (Sum d in_)) (len in_) = in_ /\
  len dig = (if hashSize d =? 224 then 28 else 32) /\
  bytes dig /\
  snd (checkSum d) = dig ++ repeat 0 (Z.to_nat (32 - len dig)).
Proof.
  intros Hwf Hhs words dig.
  destruct (checkSum_shows d Hwf) as (hl & tv & nt & [Hwfc Hv]).
  unfold view in Hv. apply tuple7_inv in Hv. destruct Hv as (Hhsc & Hhl & _).
  pose proof Hwfc as [(Hh & _) _].
  assert (Hout : snd (checkSum d) = checkSum_out (fst (checkSum d))) by reflexivity.
  assert (Hsum : snd (Sum d in_) =
                 in_ ++ (if digest_Size (fst (checkSum d)) =? Size224
                         then slice_to (snd (checkSum d)) Size224 else snd (checkSum d))).
  { unfold Sum. destruct (checkSum d) as [c sum]. cbn [fst snd].
    destruct (digest_Size c =? Size224); reflexivity. }
  assert (Hdig : forall l : list Z, len (flat_map be_bytes l) = 4 * len l).
  { induction l as [| w l IH]; [reflexivity |].
    cbn [flat_map]. rewrite len_app, IH, len_cons.
    change (len (be_bytes w)) with 4. lia. }
  assert (Hby : forall l : list Z, bytes (flat_map be_bytes l)).
  { unfold bytes. induction l as [| w l IH]; [constructor |].
    cbn [flat_map be_bytes app]. repeat constructor; try apply byte_range. exact IH. }
  assert (Hgoal : snd (Sum d in_) = in_ ++ dig /\
                  len dig = (if hashSize d =? 224 then 28 else 32) /\
                  snd (checkSum d) = dig ++ repeat 0 (Z.to_nat (32 - len dig))).
  { unfold dig, words. rewrite Hsum, Hout. unfold digest_Size. rewrite Hhsc.
    destruct Hhs as [H256 | H224].
    - rewrite H256 in *. change (Z.shiftr 256 3 =? Size224) with false.
      change (256 =? 224) with false. cbv iota.
      rewrite checkSum_out_256 by assumption.
      rewrite slice_to_all by lia.
      rewrite Hdig, Hh. change (Z.to_nat (32 - 4 * 8)) with 0%nat. cbn [repeat].
      rewrite app_nil_r. repeat split; reflexivity.
    - rewrite H224 in *. change (Z.shiftr 224 3 =? Size224) with true.
      change (224 =? 224) with true. cbv iota. unfold Size224.
      rewrite checkSum_out_224 by assumption.
      assert (H28 : len (flat_map be_bytes (slice_to (h (fst (checkSum d))) 7)) = 28)
        by (rewrite Hdig, len_slice_to; lia).
      rewrite slice_to_app_l, slice_to_all by lia.
      rewrite H28. repeat split; reflexivity. }
  destruct Hgoal as (H1 & H2 & H3).
  split; [exact H1 |].
  split; [rewrite H1, slice_to_app_l, slice_to_all by lia; reflexivity |].
  split; [exact H2 |]. split; [apply Hby | exact H3].
Qed.

Lemma C10_sum_appends_witness :
  wf New224 /\ (hashSize New224 = 256 \/ hashSize New224 = 224) /\
  snd (Sum New224 [9; 9]) =
  [9; 9] ++ flat_map be_bytes
              (slice_to (h (fst (checkSum New224))) (if hashSize New224 =? 224 then 7 else 8)).
Proof.
  split; [exact New224_wf |].
  split; [right; reflexivity |].
  exact (proj1 (C10_sum_appends New224 [9; 9] New224_wf (or_intror eq_refl))).
Defined.
